(** * gosshm: the SSH config store (internal/config/ssh.go)

    A shallow embedding of the parser and of the three mutators of the
    configuration store (AddSSHHost, UpdateSSHHost, DeleteSSHHost), with
    the facts the specification states about them.

    Modelling conventions.
    - A Go string is a byte string: Rocq's [string], one [ascii] per byte.
    - The functions of Go's [strings] package are modelled on byte strings
      whose white space is ASCII: the six characters tab, line feed,
      vertical tab, form feed, carriage return and space.  Bytes above
      0x7F are ordinary characters, and [ToLower] lowers ASCII letters.
      On text without bytes above 0x7F ([isASCII]) these are Go's
      functions; Go decodes other text as UTF-8 and knows more white
      space and more letters.  Facts that depend on white space or on
      letters are therefore stated for ASCII text.
    - The file system is a finite map from paths to contents.  Opening a
      path for reading fails exactly when the path is absent; creating,
      truncating and appending succeed.  The operating system can fail
      where the map cannot, so what a call returns is stated up to such
      failures ([unlessFault]), and what it leaves is stated for the
      result it returned.
    - A Go function returning [error] is a computation in the monad [M]:
      it returns a value, raises an [error], or panics (index out of range).
    - bufio.Scanner is modelled on the content of the file: it delivers
      the lines, and stops with ErrTooLong at a line its buffer of
      64 KiB cannot hold.
    - The process-wide mutex only serialises callers; every operation is
      modelled as one atomic state transformer.
    - The loops of UpdateSSHHost and DeleteSSHHost run on an index with
      an iteration budget; they are shown equal to one loop on the
      remaining lines, [spliceLoop], on which the facts are proved. *)

From Stdlib Require Import String Ascii List Bool Arith NArith Lia.
From stdpp Require Import base option list strings gmap.

Local Open Scope list_scope.

#[local] Arguments String.append !_ _ /.

(* ================================================================== *)
(** * Go's [strings] package, on byte strings                          *)
(* ================================================================== *)

Module GoStrings.

(** unicode.IsSpace on the bytes below 0x80: tab, line feed, vertical
    tab, form feed, carriage return and space.  Go also counts U+0085,
    U+00A0 and other characters of several bytes, which are not decoded
    here: see [isASCII]. *)
Definition isSpace (c : ascii) : bool := Ascii.is_space c.

Fixpoint TrimLeft (s : string) : string :=
  match s with
  | EmptyString => EmptyString
  | String c r => if isSpace c then TrimLeft r else s
  end.

Fixpoint TrimRight (s : string) : string :=
  match s with
  | EmptyString => EmptyString
  | String c r =>
      match TrimRight r with
      | EmptyString => if isSpace c then EmptyString else String c EmptyString
      | r' => String c r'
      end
  end.

(** strings.TrimSpace: leading and trailing white space removed. *)
Definition TrimSpace (s : string) : string := TrimRight (TrimLeft s).

(** strings.HasPrefix. *)
Definition HasPrefix (s prefix : string) : bool := String.prefix prefix s.

Fixpoint skipn_string (n : nat) (s : string) : string :=
  match n, s with
  | S n', String _ r => skipn_string n' r
  | _, _ => s
  end.

(** strings.TrimPrefix. *)
Definition TrimPrefix (s prefix : string) : string :=
  if HasPrefix s prefix then skipn_string (String.length prefix) s else s.

(** strings.Split with a one-byte separator (the source splits at a line
    feed and at a comma): the pieces between the separators, of which
    there is always at least one. *)
Fixpoint Split (s : string) (sep : ascii) : list string :=
  match s with
  | EmptyString => [EmptyString]
  | String c r =>
      if Ascii.eqb c sep then EmptyString :: Split r sep
      else match Split r sep with
           | piece :: pieces => String c piece :: pieces
           | [] => [String c EmptyString]
           end
  end.

(** strings.Join. *)
Definition Join (elems : list string) (sep : string) : string :=
  String.concat sep elems.

(** [tokens s] is the token that starts at the head of [s] (empty when [s]
    is empty or starts with white space) and the tokens after it. *)
Definition consToken (t : string) (ts : list string) : list string :=
  match t with
  | EmptyString => ts
  | _ => t :: ts
  end.

Fixpoint tokens (s : string) : string * list string :=
  match s with
  | EmptyString => (EmptyString, [])
  | String c r =>
      let '(t, ts) := tokens r in
      if isSpace c then (EmptyString, consToken t ts) else (String c t, ts)
  end.

(** strings.Fields: the maximal runs of non-space bytes. *)
Definition Fields (s : string) : list string :=
  let '(t, ts) := tokens s in consToken t ts.

Definition lowerByte (c : ascii) : ascii :=
  let n := nat_of_ascii c in
  if (65 <=? n) && (n <=? 90) then ascii_of_nat (n + 32) else c.

(** strings.ToLower on ASCII text: the letters A to Z are lowered.  Go
    lowers letters outside ASCII too (U+0130 to i): see [isASCII]. *)
Fixpoint ToLower (s : string) : string :=
  match s with
  | EmptyString => EmptyString
  | String c r => String (lowerByte c) (ToLower r)
  end.

End GoStrings.

(* ================================================================== *)
(** * Errors, the file system and the monad of effects                 *)
(* ================================================================== *)

(** The error values the store returns. *)
Inductive error : Type :=
  | ErrHomeUndefined                         (* os.UserHomeDir failed *)
  | ErrNotExist (op path : string)           (* *fs.PathError: no such file *)
  | ErrTooLong                               (* bufio.ErrTooLong *)
  | ErrWrap (msg : string) (e : error)       (* fmt.Errorf("<msg>: %w", e) *)
  | ErrHostExists (name : string)            (* "host '<name>' already exists" *)
  | ErrHostNotFound (name : string).         (* "host '<name>' not found" *)

(** The three kinds of failure of the specification. *)
Inductive kind : Type := IOError | NotFound | AlreadyExists.

Definition kindOf (e : error) : kind :=
  match e with
  | ErrHostExists _ => AlreadyExists
  | ErrHostNotFound _ => NotFound
  | _ => IOError
  end.

(** The environment: the home directory the process sees, if any, and
    the regular files by path. *)
Record World : Type := mkWorld {
  home : option string;
  files : gmap string string
}.

(** What a call produces: a value, an error, a run-time panic, or
    [OutOfFuel] when a loop of the model exhausted its iteration budget. *)
Inductive result (A : Type) : Type :=
  | Ok (a : A)
  | Err (e : error)
  | Panic
  | OutOfFuel.

Arguments Ok {A} a.
Arguments Err {A} e.
Arguments Panic {A}.
Arguments OutOfFuel {A}.

Definition M (A : Type) : Type := World -> result A * World.

#[global] Instance M_ret : MRet M := fun A (a : A) (w : World) => (Ok a, w).

#[global] Instance M_bind : MBind M :=
  fun A B (f : A -> M B) (m : M A) (w : World) =>
    match m w with
    | (Ok a, w') => f a w'
    | (Err e, w') => (Err e, w')
    | (Panic, w') => (Panic, w')
    | (OutOfFuel, w') => (OutOfFuel, w')
    end.

(** [return err] *)
Definition raise {A : Type} (e : error) : M A := fun w => (Err e, w).

(** A pure step that may panic or run out of fuel. *)
Definition step {A : Type} (r : result A) : M A := fun w => (r, w).

(** A read-only call with Go's [(value, error)] pair of results. *)
Definition checked {A : Type} (f : World -> A * option error) : M A :=
  fun w => match f w with
           | (_, Some e) => (Err e, w)
           | (a, None) => (Ok a, w)
           end.

(** [fmt.Errorf("<msg>: %w", err)] around the error of a call. *)
Definition wrapErr {A : Type} (msg : string) (m : M A) : M A :=
  fun w => match m w with
           | (Err e, w') => (Err (ErrWrap msg e), w')
           | r => r
           end.

Module Os.

(** os.UserHomeDir *)
Definition UserHomeDir : M string :=
  fun w => match home w with
           | Some homeDir => (Ok homeDir, w)
           | None => (Err ErrHomeUndefined, w)
           end.

(** filepath.Join(homeDir, ".ssh", "config"), for a home directory that
    is a clean path. *)
Definition configPathOf (homeDir : string) : string :=
  homeDir +:+ "/.ssh/config".

(** [_, err := os.Stat(path); err == nil] *)
Definition Exists (path : string) : M bool :=
  fun w => (Ok (bool_decide (is_Some (files w !! path))), w).

(** os.ReadFile, and os.Open followed by reading to the end. *)
Definition ReadFile (path : string) : M string :=
  fun w => match files w !! path with
           | Some content => (Ok content, w)
           | None => (Err (ErrNotExist "open" path), w)
           end.

(** os.WriteFile, and os.Create followed by writing [content]: the file
    is created or truncated.  The write succeeds here; that the
    operating system may refuse it is accounted for in the statements
    ([unlessFault]). *)
Definition WriteFile (path content : string) : M unit :=
  fun w => (Ok tt, mkWorld (home w) (<[path := content]> (files w))).

(** os.OpenFile(path, O_APPEND|O_CREATE|O_WRONLY, 0600): the file is
    created empty when it is absent.  Opening succeeds here. *)
Definition OpenAppend (path : string) : M unit :=
  fun w => match files w !! path with
           | Some _ => (Ok tt, w)
           | None => (Ok tt, mkWorld (home w) (<[path := ""]> (files w)))
           end.

(** file.WriteString on a file opened in append mode.  The write
    succeeds here. *)
Definition WriteString (path text : string) : M unit :=
  fun w => (Ok tt,
            mkWorld (home w)
                    (<[path := default "" (files w !! path) +:+ text]> (files w))).

End Os.

(* ================================================================== *)
(** * bufio.Scanner with the default split function ScanLines          *)
(* ================================================================== *)

Module Bufio.

(** bufio.MaxScanTokenSize: the scanner's buffer, which has to hold a
    line together with its line feed. *)
Definition MaxScanTokenSize : N := 65536.

(** One trailing carriage return is dropped from a line. *)
Fixpoint dropCR (s : string) : string :=
  match s with
  | EmptyString => EmptyString
  | String c r =>
      match r with
      | EmptyString => if Ascii.eqb c "013" then EmptyString else s
      | _ => String c (dropCR r)
      end
  end.

(** The lines of the input, without their line feeds; a final line that
    no line feed ends is a line when it is not empty. *)
Fixpoint rawLines (data : string) : list string :=
  match data with
  | EmptyString => []
  | String c rest =>
      if Ascii.eqb c "010" then EmptyString :: rawLines rest
      else match rawLines rest with
           | l :: ls => String c l :: ls
           | [] => [String c EmptyString]
           end
  end.

Definition tooLong (l : string) : bool :=
  (MaxScanTokenSize <=? N.of_nat (String.length l))%N.

(** The tokens [scanner.Scan] delivers, and [scanner.Err()] afterwards:
    scanning stops with ErrTooLong at the first line the buffer cannot
    hold.  Reading the file itself succeeds here; an error of the read
    would be returned by [scanner.Err()] in the same way. *)
Fixpoint scanTokens (ls : list string) : list string * option error :=
  match ls with
  | [] => ([], None)
  | l :: ls' =>
      if tooLong l then ([], Some ErrTooLong)
      else let '(toks, err) := scanTokens ls' in (dropCR l :: toks, err)
  end.

Definition Scan (data : string) : list string * option error :=
  scanTokens (rawLines data).

End Bufio.

(* ================================================================== *)
(** * Package config                                                   *)
(* ================================================================== *)

Module Config.

Import GoStrings.

(** SSHHost represents an SSH host configuration. *)
Record SSHHost : Type := mkHost {
  Name : string;
  Hostname : string;
  User : string;
  Port : string;
  Identity : string;
  ProxyJump : string;
  Tags : list string
}.

(** ** The parser *)

(** The variables of the scanning loop of ParseSSHConfigFile
    (ssh.go, lines 65-67). *)
Record parser : Type := mkParser {
  hosts : list SSHHost;
  currentHost : option SSHHost;
  pendingTags : list string
}.

Definition start : parser := mkParser [] None [].

(** [for _, tag := range strings.Split(tagsStr, ",")]: every piece that
    is not blank is appended, trimmed, to the pending tags. *)
Fixpoint appendTags (pendingTags : list string) (pieces : list string)
  : list string :=
  match pieces with
  | [] => pendingTags
  | tag :: rest =>
      let tag := TrimSpace tag in
      if String.eqb tag "" then appendTags pendingTags rest
      else appendTags (pendingTags ++ [tag]) rest
  end.

(** An assignment through the pointer [currentHost], when it is not nil. *)
Definition assign (f : SSHHost -> SSHHost) (st : parser) : parser :=
  match currentHost st with
  | Some h => mkParser (hosts st) (Some (f h)) (pendingTags st)
  | None => st
  end.

Definition setHostname (v : string) (h : SSHHost) : SSHHost :=
  mkHost (Name h) v (User h) (Port h) (Identity h) (ProxyJump h) (Tags h).
Definition setUser (v : string) (h : SSHHost) : SSHHost :=
  mkHost (Name h) (Hostname h) v (Port h) (Identity h) (ProxyJump h) (Tags h).
Definition setPort (v : string) (h : SSHHost) : SSHHost :=
  mkHost (Name h) (Hostname h) (User h) v (Identity h) (ProxyJump h) (Tags h).
Definition setIdentity (v : string) (h : SSHHost) : SSHHost :=
  mkHost (Name h) (Hostname h) (User h) (Port h) v (ProxyJump h) (Tags h).
Definition setProxyJump (v : string) (h : SSHHost) : SSHHost :=
  mkHost (Name h) (Hostname h) (User h) (Port h) (Identity h) v (Tags h).

(** One turn of the scanning loop (lines 70-143), on the text of one
    line. *)
Definition parseLine (st : parser) (text : string) : parser :=
  let line := TrimSpace text in
  if String.eqb line "" then st
  else if HasPrefix line "# Tags:" then
    let tagsStr := TrimSpace (TrimPrefix line "# Tags:") in
    if String.eqb tagsStr "" then st
    else mkParser (hosts st) (currentHost st)
                  (appendTags (pendingTags st) (Split tagsStr ","))
  else if HasPrefix line "#" then st
  else
    match Fields line with
    | [] | [_] => st
    | key :: rest =>
        let key := ToLower key in
        let value := Join rest " " in
        if String.eqb key "host" then
          mkParser (hosts st ++ option_list (currentHost st))
                   (Some (mkHost value "" "" "22" "" "" (pendingTags st)))
                   []
        else if String.eqb key "hostname" then assign (setHostname value) st
        else if String.eqb key "user" then assign (setUser value) st
        else if String.eqb key "port" then assign (setPort value) st
        else if String.eqb key "identityfile" then assign (setIdentity value) st
        else if String.eqb key "proxyjump" then assign (setProxyJump value) st
        else st
    end.

Definition parseLines (st : parser) (ls : list string) : parser :=
  fold_left parseLine ls st.

(** "Add the last host if it exists". *)
Definition finish (st : parser) : list SSHHost :=
  hosts st ++ option_list (currentHost st).

(** The body of ParseSSHConfigFile (lines 65-150) on the content of the
    opened file. *)
Definition parseConfig (content : string) : list SSHHost * option error :=
  let '(toks, err) := Bufio.Scan content in
  (finish (parseLines start toks), err).

Definition ParseSSHConfigFile (configPath : string) (w : World)
  : list SSHHost * option error :=
  match files w !! configPath with
  | None => ([], Some (ErrNotExist "open" configPath))
  | Some content => parseConfig content
  end.

Definition ParseSSHConfig (w : World) : list SSHHost * option error :=
  match home w with
  | None => ([], Some ErrHomeUndefined)
  | Some homeDir => ParseSSHConfigFile (Os.configPathOf homeDir) w
  end.

(** HostExists checks if a host already exists in the config
    (lines 245-257). *)
Definition HostExists (hostName : string) (w : World) : bool * option error :=
  match ParseSSHConfig w with
  | (_, Some err) => (false, Some err)
  | (hosts, None) =>
      (existsb (fun host => String.eqb (Name host) hostName) hosts, None)
  end.

(** GetSSHHost retrieves a specific host configuration by name
    (lines 260-272). *)
Definition GetSSHHost (hostName : string) (w : World)
  : option SSHHost * option error :=
  match ParseSSHConfig w with
  | (_, Some err) => (None, Some err)
  | (hosts, None) =>
      match find (fun host => String.eqb (Name host) hostName) hosts with
      | Some host => (Some host, None)
      | None => (None, Some (ErrHostNotFound hostName))
      end
  end.

(** ** Backup *)

(** backupConfig creates a backup of the SSH config file
    (lines 28-44). *)
Definition backupConfig (configPath : string) : M unit :=
  let backupPath := configPath +:+ ".backup" in
  content ← Os.ReadFile configPath;
  Os.WriteFile backupPath content.

(** ** Create *)

Definition when (b : bool) (m : M unit) : M unit :=
  if b then m else mret tt.

Definition nonEmpty (s : string) : bool := negb (String.eqb s "").

(** AddSSHHost adds a new SSH host to the config file (lines 154-242). *)
Definition AddSSHHost (host : SSHHost) : M unit :=
  homeDir ← Os.UserHomeDir;
  let configPath := Os.configPathOf homeDir in
  present ← Os.Exists configPath;
  _ ← when present (wrapErr "failed to create backup" (backupConfig configPath));
  exists_ ← checked (HostExists (Name host));
  if exists_ : bool then raise (ErrHostExists (Name host))
  else
    _ ← Os.OpenAppend configPath;
    _ ← Os.WriteString configPath (String "010" "");
    _ ← when (0 <? length (Tags host))
          (Os.WriteString configPath
             ("# Tags: " +:+ Join (Tags host) ", " +:+ String "010" ""));
    _ ← Os.WriteString configPath ("Host " +:+ Name host +:+ String "010" "");
    _ ← Os.WriteString configPath
          ("    HostName " +:+ Hostname host +:+ String "010" "");
    _ ← when (nonEmpty (User host))
          (Os.WriteString configPath
             ("    User " +:+ User host +:+ String "010" ""));
    _ ← when (nonEmpty (Port host) && negb (String.eqb (Port host) "22"))
          (Os.WriteString configPath
             ("    Port " +:+ Port host +:+ String "010" ""));
    _ ← when (nonEmpty (Identity host))
          (Os.WriteString configPath
             ("    IdentityFile " +:+ Identity host +:+ String "010" ""));
    when (nonEmpty (ProxyJump host))
         (Os.WriteString configPath
            ("    ProxyJump " +:+ ProxyJump host +:+ String "010" "")).

(** ** Update and delete *)

(** [for i < len(lines) && strings.TrimSpace(lines[i]) != "" &&
    !strings.HasPrefix(strings.TrimSpace(lines[i]), "Host ") { i++ }],
    run on the lines from index [i] on; the result is the final [i]. *)
Fixpoint skipBlock (rest : list string) (i : nat) : nat :=
  match rest with
  | [] => i
  | l :: rest' =>
      if negb (String.eqb (TrimSpace l) "")
         && negb (HasPrefix (TrimSpace l) "Host ")
      then skipBlock rest' (i + 1)
      else i
  end.

(** The lines both branches of UpdateSSHHost append for the new host
    (lines 319-333 and 350-364). *)
Definition updateBlock (newHost : SSHHost) : list string :=
  [""]
  ++ (if 0 <? length (Tags newHost)
      then ["# Tags: " +:+ Join (Tags newHost) ", "] else [])
  ++ ["Host " +:+ Name newHost]
  ++ ["    HostName " +:+ Hostname newHost]
  ++ (if nonEmpty (User newHost) then ["    User " +:+ User newHost] else [])
  ++ (if nonEmpty (Port newHost) && negb (String.eqb (Port newHost) "22")
      then ["    Port " +:+ Port newHost] else [])
  ++ (if nonEmpty (Identity newHost)
      then ["    IdentityFile " +:+ Identity newHost] else []).

(** The rewriting loop of UpdateSSHHost (lines 302-372) from index [i]
    on.  Every turn advances [i], so [length lines + 1] turns of [fuel]
    always suffice. *)
Fixpoint updateLoop (oldName : string) (newHost : SSHHost)
    (lines : list string) (fuel : nat)
    (i : nat) (newLines : list string) (hostFound : bool)
  : result (list string * bool) :=
  match fuel with
  | 0 => OutOfFuel
  | S fuel' =>
      match lines !! i with
      | None => Ok (newLines, hostFound)
      | Some raw =>
          let line := TrimSpace raw in
          let tagged :=
            if HasPrefix line "# Tags:" then
              match lines !! (i + 1) with
              | Some next => String.eqb (TrimSpace next) ("Host " +:+ oldName)
              | None => false
              end
            else false in
          if tagged then
            let i := skipBlock (drop (i + 2) lines) (i + 2) in
            updateLoop oldName newHost lines fuel' i
                       (newLines ++ updateBlock newHost) true
          else if HasPrefix line "Host " then
            match Fields line !! 1 with
            | None => Panic
            | Some name =>
                if String.eqb name oldName then
                  let i := skipBlock (drop (i + 1) lines) (i + 1) in
                  updateLoop oldName newHost lines fuel' i
                             (newLines ++ updateBlock newHost) true
                else
                  updateLoop oldName newHost lines fuel' (i + 1)
                             (newLines ++ [raw]) hostFound
            end
          else
            updateLoop oldName newHost lines fuel' (i + 1)
                       (newLines ++ [raw]) hostFound
      end
  end.

(** UpdateSSHHost updates an existing SSH host configuration
    (lines 275-381). *)
Definition UpdateSSHHost (oldName : string) (newHost : SSHHost) : M unit :=
  homeDir ← Os.UserHomeDir;
  let configPath := Os.configPathOf homeDir in
  _ ← wrapErr "failed to create backup" (backupConfig configPath);
  content ← Os.ReadFile configPath;
  let lines := Split content "010" in
  '(newLines, hostFound) ←
     step (updateLoop oldName newHost lines (S (length lines)) 0 [] false);
  if hostFound : bool then
    Os.WriteFile configPath (Join newLines (String "010" ""))
  else raise (ErrHostNotFound oldName).

(** [if i < len(lines) && strings.TrimSpace(lines[i]) == "" { i++ }] *)
Definition skipBlank (lines : list string) (i : nat) : nat :=
  match lines !! i with
  | Some l => if String.eqb (TrimSpace l) "" then i + 1 else i
  | None => i
  end.

(** The rewriting loop of DeleteSSHHost (lines 411-461) from index [i]
    on. *)
Fixpoint deleteLoop (hostName : string)
    (lines : list string) (fuel : nat)
    (i : nat) (newLines : list string) (hostFound : bool)
  : result (list string * bool) :=
  match fuel with
  | 0 => OutOfFuel
  | S fuel' =>
      match lines !! i with
      | None => Ok (newLines, hostFound)
      | Some raw =>
          let line := TrimSpace raw in
          let tagged :=
            if HasPrefix line "# Tags:" then
              match lines !! (i + 1) with
              | Some next => String.eqb (TrimSpace next) ("Host " +:+ hostName)
              | None => false
              end
            else false in
          if tagged then
            let i := skipBlock (drop (i + 2) lines) (i + 2) in
            let i := skipBlank lines i in
            deleteLoop hostName lines fuel' i newLines true
          else if HasPrefix line "Host " then
            match Fields line !! 1 with
            | None => Panic
            | Some name =>
                if String.eqb name hostName then
                  let i := skipBlock (drop (i + 1) lines) (i + 1) in
                  let i := skipBlank lines i in
                  deleteLoop hostName lines fuel' i newLines true
                else
                  deleteLoop hostName lines fuel' (i + 1)
                             (newLines ++ [raw]) hostFound
            end
          else
            deleteLoop hostName lines fuel' (i + 1)
                       (newLines ++ [raw]) hostFound
      end
  end.

(** DeleteSSHHost removes an SSH host configuration from the config file
    (lines 384-470). *)
Definition DeleteSSHHost (hostName : string) : M unit :=
  homeDir ← Os.UserHomeDir;
  let configPath := Os.configPathOf homeDir in
  _ ← wrapErr "failed to create backup" (backupConfig configPath);
  content ← Os.ReadFile configPath;
  let lines := Split content "010" in
  '(newLines, hostFound) ←
     step (deleteLoop hostName lines (S (length lines)) 0 [] false);
  if hostFound : bool then
    Os.WriteFile configPath (Join newLines (String "010" ""))
  else raise (ErrHostNotFound hostName).

(** ** The locator, as the two loops share it

    UpdateSSHHost and DeleteSSHHost find a block with the same two tests
    and the same skipping loop.  The definitions below name these tests
    and give the common form of the two loops on the lines that are still
    to be read. *)

(** The test of the tags-annotated branch (lines 306-308 and 415-417):
    a [# Tags:] line whose next line is, trimmed, [Host <name>]. *)
Definition tagsHit (name raw next : string) : bool :=
  HasPrefix (TrimSpace raw) "# Tags:"
  && String.eqb (TrimSpace next) ("Host " +:+ name).

(** The test of the bare-Host branch (lines 340 and 439). *)
Definition bareHit (name raw : string) : bool :=
  HasPrefix (TrimSpace raw) "Host "
  && match Fields (TrimSpace raw) !! 1 with
     | Some tok => String.eqb tok name
     | None => false
     end.

(** A block starts at [raw], whose next line is [next] if there is one. *)
Definition hitAt (name raw : string) (next : option string) : bool :=
  match next with
  | Some n => tagsHit name raw n
  | None => false
  end || bareHit name raw.

(** The lines the skipping loop passes over: not blank, not starting
    with [Host ]. *)
Definition isBody (raw : string) : bool :=
  negb (String.eqb (TrimSpace raw) "")
  && negb (HasPrefix (TrimSpace raw) "Host ").

Fixpoint takeBody (ls : list string) : list string :=
  match ls with
  | [] => []
  | l :: r => if isBody l then l :: takeBody r else []
  end.

Fixpoint dropBody (ls : list string) : list string :=
  match ls with
  | [] => []
  | l :: r => if isBody l then dropBody r else ls
  end.

(** One blank line at the head is dropped. *)
Definition dropBlank (ls : list string) : list string :=
  match ls with
  | [] => []
  | b :: r => if String.eqb (TrimSpace b) "" then r else ls
  end.

Definition afterBlock (eatBlank : bool) (ls : list string) : list string :=
  if eatBlank then dropBlank (dropBody ls) else dropBody ls.

(** What is left of the lines [post] after a block. *)
Definition restAfter (eatBlank : bool) (post : list string) : list string :=
  if eatBlank then dropBlank post else post.

(** The common form of the two rewriting loops, on the lines [rest] from
    the current index on: a located block is replaced by [block], and
    the blank line after it is dropped when [eatBlank] is set. *)
Fixpoint spliceLoop (name : string) (block : list string) (eatBlank : bool)
    (fuel : nat) (rest : list string)
    (newLines : list string) (hostFound : bool)
  : result (list string * bool) :=
  match fuel with
  | 0 => OutOfFuel
  | S fuel' =>
      match rest with
      | [] => Ok (newLines, hostFound)
      | raw :: tl =>
          if match tl with
             | next :: _ => tagsHit name raw next
             | [] => false
             end
          then spliceLoop name block eatBlank fuel'
                          (afterBlock eatBlank (tail tl))
                          (newLines ++ block) true
          else if bareHit name raw
          then spliceLoop name block eatBlank fuel'
                          (afterBlock eatBlank tl)
                          (newLines ++ block) true
          else spliceLoop name block eatBlank fuel' tl
                          (newLines ++ [raw]) hostFound
      end
  end.

(** No block for [name] starts in [ls], where [next] is the line after
    the last line of [ls]. *)
Fixpoint noHitBefore (name : string) (ls : list string) (next : option string)
  : bool :=
  match ls with
  | [] => true
  | raw :: tl =>
      negb (hitAt name raw (match tl with n :: _ => Some n | [] => next end))
      && noHitBefore name tl next
  end.

(** No block for [name] in the lines of a file. *)
Definition noBlock (name : string) (lines : list string) : Prop :=
  forall i raw, lines !! i = Some raw -> hitAt name raw (lines !! (i + 1)) = false.

(** The lines of a file split as [pre ++ span ++ post] around the first
    block for [name]: no block starts in [pre]; [span] is the block, a
    [# Tags:] line and the Host line or the Host line alone, followed by
    the lines the skipping loop passes over; [post] is empty or starts
    with the line that ends the block. *)
Definition located (name : string) (pre span post : list string) : bool :=
  noHitBefore name pre (head span)
  && match span with
     | [] => false
     | [h] => bareHit name h
     | t :: h :: body =>
         if tagsHit name t h then forallb isBody body
         else bareHit name t && forallb isBody (h :: body)
     end
  && match post with
     | [] => true
     | l :: _ => negb (isBody l)
     end.

(** The lines of a located block after its Host line. *)
Definition blockBody (name : string) (span : list string) : list string :=
  match span with
  | t :: h :: body => if tagsHit name t h then body else h :: body
  | _ => []
  end.

(** ** What the parser reads on a line *)

Definition isTagsLine (text : string) : bool :=
  HasPrefix (TrimSpace text) "# Tags:".

(** The lowered key and the value of a line that is neither blank nor a
    comment and has at least two fields. *)
Definition directive (text : string) : option (string * string) :=
  let line := TrimSpace text in
  if String.eqb line "" then None
  else if HasPrefix line "#" then None
  else match Fields line with
       | key :: value :: more => Some (ToLower key, Join (value :: more) " ")
       | _ => None
       end.

Definition fieldKeys : list string :=
  ["hostname"; "user"; "port"; "identityfile"; "proxyjump"].

Definition keyOf (text : string) : option string := fst <$> directive text.

(** The line opens a new host in the parser. *)
Definition declaresHost (text : string) : bool :=
  match keyOf text with
  | Some k => String.eqb k "host"
  | None => false
  end.

(** The line sets a field of the host the parser has open. *)
Definition setsField (text : string) : bool :=
  match keyOf text with
  | Some k => existsb (String.eqb k) fieldKeys
  | None => false
  end.

(** A line that concerns only the host that is open: it neither adds
    pending tags nor opens another host. *)
Definition ownLine (text : string) : bool :=
  negb (isTagsLine text) && negb (declaresHost text).

(** No line of [ls] sets a field before the first Host declaration, so
    that the host open before [ls] is read as it stands. *)
Fixpoint quiet (ls : list string) : bool :=
  match ls with
  | [] => true
  | l :: r => if declaresHost l then true else negb (setsField l) && quiet r
  end.

(** What the [switch] of the parser does with a key and a value. *)
Definition act (st : parser) (key value : string) : parser :=
  if String.eqb key "host" then
    mkParser (hosts st ++ option_list (currentHost st))
             (Some (mkHost value "" "" "22" "" "" (pendingTags st)))
             []
  else if String.eqb key "hostname" then assign (setHostname value) st
  else if String.eqb key "user" then assign (setUser value) st
  else if String.eqb key "port" then assign (setPort value) st
  else if String.eqb key "identityfile" then assign (setIdentity value) st
  else if String.eqb key "proxyjump" then assign (setProxyJump value) st
  else st.

(** The tags a line adds to the pending tags. *)
Definition lineTags (text : string) : list string :=
  if isTagsLine text then
    List.filter nonEmpty
           (map TrimSpace
                (Split (TrimSpace (TrimPrefix (TrimSpace text) "# Tags:")) ","))
  else [].

(** A blank line, or a comment that is not a tags line. *)
Definition blankOrComment (text : string) : bool :=
  String.eqb (TrimSpace text) ""
  || (HasPrefix (TrimSpace text) "#" && negb (isTagsLine text)).

(** The line changes at most a field of the open host, and neither its
    name nor its port. *)
Definition keepsPort (text : string) : Prop :=
  exists f, (forall h, Port (f h) = Port h /\ Name (f h) = Name h)
            /\ forall st, parseLine st text = assign f st.

(** ** The text AddSSHHost writes *)

(** The lines AddSSHHost writes, one WriteString each, without their
    line feeds. *)
Definition addLines (host : SSHHost) : list string :=
  [""]
  ++ (if 0 <? length (Tags host)
      then ["# Tags: " +:+ Join (Tags host) ", "] else [])
  ++ ["Host " +:+ Name host]
  ++ ["    HostName " +:+ Hostname host]
  ++ (if nonEmpty (User host) then ["    User " +:+ User host] else [])
  ++ (if nonEmpty (Port host) && negb (String.eqb (Port host) "22")
      then ["    Port " +:+ Port host] else [])
  ++ (if nonEmpty (Identity host)
      then ["    IdentityFile " +:+ Identity host] else [])
  ++ (if nonEmpty (ProxyJump host)
      then ["    ProxyJump " +:+ ProxyJump host] else []).

(** Every line followed by a line feed. *)
Fixpoint unlines (ls : list string) : string :=
  match ls with
  | [] => ""
  | l :: r => l +:+ String "010" (unlines r)
  end.

(** The text AddSSHHost appends to the config file. *)
Definition addBlock (host : SSHHost) : string := unlines (addLines host).

(** ** Well-formed text *)

(** The string has a byte that is not white space. *)
Definition nonBlank (s : string) : bool :=
  negb (String.eqb (TrimSpace s) "").

Fixpoint noByte (c : ascii) (s : string) : bool :=
  match s with
  | EmptyString => true
  | String x r => negb (Ascii.eqb x c) && noByte c r
  end.

Fixpoint noSpace (s : string) : bool :=
  match s with
  | EmptyString => true
  | String c r => negb (isSpace c) && noSpace r
  end.

(** One token: not empty, no white space. *)
Definition isToken (s : string) : bool := nonEmpty s && noSpace s.

(** The string holds no line feed. *)
Definition oneLine (s : string) : bool := noByte "010" s.

(** The scanner's buffer holds the line. *)
Definition fits (l : string) : bool := negb (Bufio.tooLong l).

(** No field of the entry holds a line feed. *)
Definition singleLine (h : SSHHost) : bool :=
  oneLine (Name h) && oneLine (Hostname h) && oneLine (User h)
  && oneLine (Port h) && oneLine (Identity h) && oneLine (ProxyJump h)
  && forallb oneLine (Tags h).

(** A value as the parser yields it: tokens joined by single spaces. *)
Definition normalValue (v : string) : bool :=
  String.eqb (Join (Fields v) " ") v.

(** A tag as the parser yields it. *)
Definition cleanTag (t : string) : bool :=
  nonEmpty t && String.eqb (TrimSpace t) t && noByte "," t && oneLine t.

(** An entry as the parser yields it. *)
Definition normalEntry (h : SSHHost) : bool :=
  nonEmpty (Name h) && normalValue (Name h)
  && normalValue (Hostname h)
  && normalValue (User h)
  && nonEmpty (Port h) && normalValue (Port h)
  && normalValue (Identity h)
  && normalValue (ProxyJump h)
  && forallb cleanTag (Tags h).

(** ** The worlds a rewrite leaves *)

(** The world after the backup of a config file that holds [content]. *)
Definition backedUp (w : World) (configPath content : string) : World :=
  mkWorld (home w) (<[configPath +:+ ".backup" := content]> (files w)).

(** The world after the backup and the write of [newLines]. *)
Definition written (w : World) (configPath content : string)
    (newLines : list string) : World :=
  mkWorld (home w)
          (<[configPath := Join newLines (String "010" "")]>
             (files (backedUp w configPath content))).

(** What UpdateSSHHost and DeleteSSHHost do with the outcome of their
    loop. *)
Definition conclude (w : World) (configPath content name : string)
    (r : result (list string * bool)) : result unit * World :=
  match r with
  | Ok (newLines, true) => (Ok tt, written w configPath content newLines)
  | Ok (_, false) => (Err (ErrHostNotFound name), backedUp w configPath content)
  | Err e => (Err e, backedUp w configPath content)
  | Panic => (Panic, backedUp w configPath content)
  | OutOfFuel => (OutOfFuel, backedUp w configPath content)
  end.

(** ** Host declarations and lines without effect *)

(** The name a line declares when the parser reads it as a Host
    declaration. *)
Definition hostValue (text : string) : option string :=
  match directive text with
  | Some (key, value) => if String.eqb key "host" then Some value else None
  | None => None
  end.

(** The names the Host declarations of the lines declare, in order. *)
Definition declared (ls : list string) : list string := omap hostValue ls.

(** A line the parser passes over: a blank line, a comment that adds no
    tag, a line of one word, a directive whose keyword the parser does
    not know. *)
Definition inert (text : string) : bool :=
  match directive text with
  | Some (key, _) => negb (existsb (String.eqb key) ("host" :: fieldKeys))
  | None => match lineTags text with [] => true | _ :: _ => false end
  end.

(** The variables of the scanning loop hold entries and tags as the
    parser yields them. *)
Definition normalState (st : parser) : bool :=
  forallb normalEntry (hosts st)
  && match currentHost st with
     | Some h => normalEntry h
     | None => true
     end
  && forallb cleanTag (pendingTags st).

(** ** Text on which Go's functions are modelled exactly *)

(** No byte above 0x7F.  On such text strings.TrimSpace, strings.Fields
    and strings.ToLower are the functions of this file. *)
Fixpoint isASCII (s : string) : bool :=
  match s with
  | EmptyString => true
  | String (Ascii _ _ _ _ _ _ _ high) r => negb high && isASCII r
  end.

(** Every field and every tag of the entry is ASCII text. *)
Definition asciiEntry (h : SSHHost) : bool :=
  isASCII (Name h) && isASCII (Hostname h) && isASCII (User h)
  && isASCII (Port h) && isASCII (Identity h) && isASCII (ProxyJump h)
  && forallb isASCII (Tags h).

(** ** Results up to failures of the file system *)

(** An error of the operating system: every error but the three that
    the store and its scanner raise themselves. *)
Definition fault (e : error) : bool :=
  match e with
  | ErrTooLong | ErrHostExists _ | ErrHostNotFound _ => false
  | _ => true
  end.

(** The call returned [expected], unless the operating system failed. *)
Definition unlessFault (r expected : result unit) : Prop :=
  r = expected \/ exists e, r = Err e /\ fault e = true.

(** The reading call returned [expected] and no error, unless the
    operating system failed. *)
Definition valueUnlessFault {A : Type} (r : A * option error) (expected : A)
  : Prop :=
  r = (expected, None) \/ exists e, snd r = Some e /\ fault e = true.

(** The scanner stopped as [expected] says, unless reading failed. *)
Definition errorUnlessFault (r expected : option error) : Prop :=
  r = expected \/ exists e, r = Some e /\ fault e = true.

(** ** What a call leaves of the files *)

(** The call [m], made in the world [w] whose config file holds
    [content], does not panic and changes no file but the config file
    and its backup; when it succeeds the backup holds [content]; when
    it fails with an error of the store, the backup holds [content] and
    so does the config file, as before. *)
Definition guarded (m : M unit) (w : World) (configPath content : string)
  : Prop :=
  fst (m w) <> Panic
  /\ (forall p, p <> configPath -> p <> configPath +:+ ".backup" ->
                files (snd (m w)) !! p = files w !! p)
  /\ (fst (m w) = Ok tt ->
      files (snd (m w)) !! (configPath +:+ ".backup") = Some content)
  /\ (forall e, fst (m w) = Err e -> fault e = false ->
                files (snd (m w)) !! configPath = Some content
                /\ files (snd (m w)) !! (configPath +:+ ".backup")
                   = Some content).

End Config.

(* ================================================================== *)
(** * Sample files and entries                                         *)
(* ================================================================== *)

Module Samples.

Import GoStrings Config.

Definition nl : string := String "010" "".
Definition tab : string := String "009" "".

Definition file (ls : list string) : string := Join ls nl.

Definition world (content : string) : World :=
  mkWorld (Some "/home/ann") (<["/home/ann/.ssh/config" := content]> ∅).

Definition emptyWorld : World := mkWorld (Some "/home/ann") ∅.

Fixpoint rep (n : nat) (s : string) : string :=
  match n with
  | 0 => ""
  | S k => s +:+ rep k s
  end.

(** Three hosts, the blocks separated by blank lines. *)
Definition linesA : list string := ["Host a"; "    HostName 1.2.3.4"; ""].
Definition linesB : list string :=
  ["# Tags: prod, web"; "Host b"; "    HostName 5.6.7.8"; "    User deploy"].
Definition linesC : list string := [""; "Host c"; "    HostName 9.9.9.9"; ""].
Definition fileABC : string := file (linesA ++ linesB ++ linesC).

Definition hostA : SSHHost := mkHost "a" "1.2.3.4" "" "22" "" "" [].
Definition hostB : SSHHost :=
  mkHost "b" "5.6.7.8" "deploy" "22" "" "" ["prod"; "web"].
Definition hostC : SSHHost := mkHost "c" "9.9.9.9" "" "22" "" "" [].

(** A replacement for host b, as the parser would read it. *)
Definition hostB' : SSHHost :=
  mkHost "b2" "10.0.0.2" "root" "2222" "~/.ssh/id_b" "" ["staging"].

(** An entry with a jump host and the default port. *)
Definition hostWeb : SSHHost :=
  mkHost "web" "10.0.0.1" "deploy" "22" "~/.ssh/id_web" "bastion"
         ["prod"; "web"].

(** A user name that carries a second line. *)
Definition hostTwoLines : SSHHost :=
  mkHost "web" "10.0.0.1" ("deploy" +:+ nl +:+ "Port 2222") "" "" "" [].

Definition hostNoName : SSHHost := mkHost "" "10.0.0.1" "" "" "" "" [].

(** A name of 65536 bytes. *)
Definition hostLongName : SSHHost :=
  mkHost (rep 64 (rep 64 "aaaaaaaaaaaaaaaa")) "10.0.0.1" "" "" "" "" [].

(** The entry of the update scenario of the specification: no port. *)
Definition hostNoPort : SSHHost := mkHost "a2" "9.9.9.9" "root" "" "" "" [].

(** Two tags lines before one host. *)
Definition fileTwoTagsLines : string :=
  file ["# Tags: z"; "# Tags: a, b"; "Host x"; "    HostName h"; ""].

(** A tags line, a blank line and a comment before the host. *)
Definition fileTagsGap : string :=
  file (linesA
        ++ ["# Tags: prod, web"] ++ [""; "# managed by hand"] ++ ["Host b"]
        ++ ["    HostName 5.6.7.8"; ""]).

(** Blocks that no blank line separates; the last host has tags. *)
Definition fileDense : string :=
  file ["Host a"; "    HostName 1.2.3.4";
        "Host b"; "    HostName 5.6.7.8";
        "# Tags: db"; "Host c"; "    HostName 9.9.9.9"].

Definition hostCdb : SSHHost := mkHost "c" "9.9.9.9" "" "22" "" "" ["db"].
Definition hostBplain : SSHHost := mkHost "b" "5.6.7.8" "" "22" "" "" [].

(** A directive of host a after the blank line that ends its block. *)
Definition fileLateUser : string :=
  file ["Host z"; "    HostName 0.0.0.0"; "";
        "Host a"; "    HostName 1.2.3.4"; ""; "    User root"].

(** A tags line that a blank line separates from its host. *)
Definition fileLooseTags : string :=
  file ["# Tags: old"; ""; "Host a"; "    HostName 1.2.3.4"; "";
        "Host b"; "    HostName 5.6.7.8"].

(** Two blocks for the same name. *)
Definition fileTwice : string :=
  file ["Host a"; "    HostName 1.2.3.4"; "";
        "Host a"; "    HostName 5.6.7.8"; "";
        "Host c"; "    HostName 9.9.9.9"].

(** A Host line with a second pattern, under a tags line. *)
Definition fileTwoPatterns : string :=
  file ["# Tags: prod"; "Host web backup"; "    HostName 10.0.0.1"; ""].

(** A world without a home directory. *)
Definition homeless : World := mkWorld None ∅.

(** A line of 65536 bytes between two hosts. *)
Definition longLine : string := rep 64 (rep 64 "# 64 KiB of text").
Definition fileLongLine : string :=
  file ["Host a"; "    HostName 1.2.3.4"; longLine;
        "Host c"; "    HostName 9.9.9.9"].

(** A Host line with two patterns and no tags line. *)
Definition fileBarePatterns : string :=
  file ["Host web backup"; "    HostName 10.0.0.1"; ""].

Definition hostWebBackup : SSHHost :=
  mkHost "web backup" "10.0.0.1" "" "22" "" "" [].

(** Lines the parser passes over, among the lines of a host. *)
Definition linesNoise : list string :=
  ["# managed by hand"; "Host a"; ""; "    Compression yes";
   "    HostName 1.2.3.4"; "ForwardAgent"; "# Tags:"].

(** A user name that carries a ProxyJump line. *)
Definition hostInject : SSHHost :=
  mkHost "web" "10.0.0.1" ("root" +:+ nl +:+ "    ProxyJump evil") "22" ""
         "bastion" [].

End Samples.

(* ================================================================== *)
(** * Facts                                                             *)
(* ================================================================== *)

Import GoStrings Config.

Section StringFacts.

Lemma append_assoc (a b c : string) : (a +:+ b) +:+ c = a +:+ (b +:+ c).
Proof. induction a as [|x a IH]; simpl; [reflexivity | now rewrite IH]. Qed.

Lemma append_nil_r (a : string) : a +:+ "" = a.
Proof. induction a as [|x a IH]; simpl; [reflexivity | now rewrite IH]. Qed.

Lemma length_append (a b : string) :
  String.length (a +:+ b) = String.length a + String.length b.
Proof. induction a as [|x a IH]; simpl; [reflexivity | now rewrite IH]. Qed.

Lemma HasPrefix_app (p r : string) : HasPrefix (p +:+ r) p = true.
Proof.
  unfold HasPrefix. induction p as [|x p IH]; simpl.
  - now destruct r.
  - destruct (ascii_dec x x) as [_|N]; [exact IH | now elim N].
Qed.

Lemma HasPrefix_inv (s p : string) :
  HasPrefix s p = true -> exists r, s = p +:+ r.
Proof.
  unfold HasPrefix. revert s. induction p as [|x p IH]; intros s H.
  - exists s. reflexivity.
  - destruct s as [|y s]; simpl in H; [discriminate|].
    destruct (ascii_dec x y) as [->|_]; [|discriminate].
    destruct (IH s H) as [r ->]. now exists r.
Qed.

Lemma TrimRight_nonspace (c : ascii) (r : string) :
  isSpace c = false -> TrimRight (String c r) = String c (TrimRight r).
Proof. intros H. simpl. rewrite H. now destruct (TrimRight r). Qed.

Lemma TrimRight_space_nil (c : ascii) (r : string) :
  isSpace c = true -> TrimRight r = "" -> TrimRight (String c r) = "".
Proof. intros H E. simpl. now rewrite E, H. Qed.

Lemma TrimRight_cons_nonnil (c : ascii) (r : string) :
  TrimRight r <> "" -> TrimRight (String c r) = String c (TrimRight r).
Proof. intros H. simpl. destruct (TrimRight r); [now elim H | reflexivity]. Qed.

Lemma TrimRight_idem (s : string) : TrimRight (TrimRight s) = TrimRight s.
Proof.
  induction s as [|c r IH]; [reflexivity|].
  destruct (string_dec (TrimRight r) "") as [E|N].
  - destruct (isSpace c) eqn:Hc.
    + now rewrite (TrimRight_space_nil c r Hc E).
    + rewrite (TrimRight_nonspace c r Hc), E. simpl. now rewrite Hc.
  - rewrite (TrimRight_cons_nonnil c r N).
    rewrite TrimRight_cons_nonnil; rewrite IH; [reflexivity | exact N].
Qed.

Lemma tokens_TrimRight (s : string) : tokens (TrimRight s) = tokens s.
Proof.
  induction s as [|c r IH]; [reflexivity|].
  destruct (string_dec (TrimRight r) "") as [E|N].
  - rewrite E in IH. simpl in IH. simpl. rewrite E, <- IH.
    destruct (isSpace c) eqn:Hc; simpl; now rewrite ?Hc.
  - rewrite (TrimRight_cons_nonnil c r N). simpl. now rewrite IH.
Qed.

Lemma Fields_TrimRight (s : string) : Fields (TrimRight s) = Fields s.
Proof. unfold Fields. now rewrite tokens_TrimRight. Qed.

Lemma Fields_TrimLeft (s : string) : Fields (TrimLeft s) = Fields s.
Proof.
  induction s as [|c r IH]; [reflexivity|]. simpl.
  destruct (isSpace c) eqn:Hc; [|reflexivity].
  rewrite IH. unfold Fields. simpl. destruct (tokens r) as [t ts].
  now rewrite Hc.
Qed.

Lemma Fields_TrimSpace (s : string) : Fields (TrimSpace s) = Fields s.
Proof. unfold TrimSpace. now rewrite Fields_TrimRight, Fields_TrimLeft. Qed.

Lemma TrimLeft_head (s : string) :
  TrimLeft s = "" \/ exists c r, TrimLeft s = String c r /\ isSpace c = false.
Proof.
  induction s as [|c r IH]; [now left|]. simpl.
  destruct (isSpace c) eqn:Hc; [exact IH|]. right. now exists c, r.
Qed.

Lemma TrimSpace_head (s : string) :
  TrimSpace s = ""
  \/ exists c r, TrimLeft s = String c r /\ isSpace c = false
                 /\ TrimSpace s = String c (TrimRight r).
Proof.
  unfold TrimSpace. destruct (TrimLeft_head s) as [E|(c & r & E & Hc)].
  - left. now rewrite E.
  - right. exists c, r. rewrite E. repeat split; trivial.
    now apply TrimRight_nonspace.
Qed.

Lemma Fields_cons_nonspace (c : ascii) (r : string) :
  isSpace c = false ->
  exists t ts, Fields (String c r) = String c t :: ts.
Proof.
  intros Hc. unfold Fields. simpl. destruct (tokens r) as [t ts].
  rewrite Hc. simpl. now exists t, ts.
Qed.

Lemma TrimSpace_nil_Fields (s : string) : TrimSpace s = "" -> Fields s = [].
Proof. intros E. now rewrite <- Fields_TrimSpace, E. Qed.

Lemma Fields_nil_TrimSpace (s : string) : Fields s = [] -> TrimSpace s = "".
Proof.
  intros E. destruct (TrimSpace_head s) as [H|(c & r & _ & Hc & H)]; [exact H|].
  rewrite <- Fields_TrimSpace, H in E.
  destruct (Fields_cons_nonspace c (TrimRight r) Hc) as (t & ts & F).
  now rewrite F in E.
Qed.

Lemma TrimSpace_idem (s : string) : TrimSpace (TrimSpace s) = TrimSpace s.
Proof.
  destruct (TrimSpace_head s) as [E|(c & r & _ & Hc & E)]; rewrite E.
  - reflexivity.
  - unfold TrimSpace at 1. simpl TrimLeft. rewrite Hc.
    rewrite (TrimRight_nonspace c _ Hc). now rewrite TrimRight_idem.
Qed.

End StringFacts.

Section HostLines.

Lemma Fields_nil_TrimRight (s : string) : Fields s = [] -> TrimRight s = "".
Proof.
  induction s as [|c r IH]; [reflexivity|]. unfold Fields in *. simpl.
  destruct (tokens r) as [t ts]. destruct (isSpace c) eqn:Hc.
  - simpl. intros E. now rewrite (IH E).
  - discriminate.
Qed.

Lemma Fields_Host (r : string) : Fields ("Host " +:+ r) = "Host" :: Fields r.
Proof. unfold Fields. simpl. now destruct (tokens r) as [t ts]. Qed.

(** A trimmed line that starts with [Host ] goes on with a token. *)
Lemma Host_prefix_token (raw : string) :
  HasPrefix (TrimSpace raw) "Host " = true ->
  exists rest, TrimSpace raw = "Host " +:+ rest /\ Fields rest <> [].
Proof.
  intros H. destruct (HasPrefix_inv _ _ H) as [rest E].
  exists rest. split; [exact E|]. intros F.
  assert (T : TrimRight (TrimSpace raw) = TrimSpace raw)
    by (unfold TrimSpace; apply TrimRight_idem).
  rewrite E in T.
  change ("Host " +:+ rest) with
    (String "H" (String "o" (String "s" (String "t" (String " " rest))))) in T.
  rewrite !TrimRight_nonspace in T by reflexivity.
  rewrite (TrimRight_space_nil " " rest eq_refl (Fields_nil_TrimRight _ F)) in T.
  discriminate.
Qed.

Lemma Host_prefix_second (raw : string) :
  HasPrefix (TrimSpace raw) "Host " = true ->
  exists name, Fields (TrimSpace raw) !! 1 = Some name.
Proof.
  intros H. destruct (Host_prefix_token raw H) as (rest & E & F).
  rewrite E, Fields_Host. destruct (Fields rest) as [|name ts]; [now elim F|].
  now exists name.
Qed.

Lemma updateLoop_no_panic oldName newHost lines fuel :
  forall i newLines hostFound,
    updateLoop oldName newHost lines fuel i newLines hostFound <> Panic.
Proof.
  induction fuel as [|fuel IH]; intros i newLines hostFound; simpl;
    [discriminate|].
  destruct (lines !! i) as [raw|]; [|discriminate].
  match goal with |- context [if ?b then _ else _] => destruct b end;
    [apply IH|].
  destruct (HasPrefix (TrimSpace raw) "Host ") eqn:Hp; [|apply IH].
  destruct (Host_prefix_second raw Hp) as [name ->].
  destruct (String.eqb name oldName); apply IH.
Qed.

Lemma deleteLoop_no_panic hostName lines fuel :
  forall i newLines hostFound,
    deleteLoop hostName lines fuel i newLines hostFound <> Panic.
Proof.
  induction fuel as [|fuel IH]; intros i newLines hostFound; simpl;
    [discriminate|].
  destruct (lines !! i) as [raw|]; [|discriminate].
  match goal with |- context [if ?b then _ else _] => destruct b end;
    [apply IH|].
  destruct (HasPrefix (TrimSpace raw) "Host ") eqn:Hp; [|apply IH].
  destruct (Host_prefix_second raw Hp) as [name ->].
  destruct (String.eqb name hostName); apply IH.
Qed.

End HostLines.

Section FileSystem.

Lemma backup_path_fresh (p : string) : p +:+ ".backup" <> p.
Proof.
  intros E. apply (f_equal String.length) in E.
  rewrite length_append in E. simpl in E. lia.
Qed.

Lemma backupConfig_ok configPath content w :
  files w !! configPath = Some content ->
  backupConfig configPath w
  = (Ok tt, mkWorld (home w) (<[configPath +:+ ".backup" := content]> (files w))).
Proof.
  intros H. unfold backupConfig, mbind, M_bind, Os.ReadFile, Os.WriteFile.
  now rewrite H.
Qed.

Lemma backupConfig_missing configPath w :
  files w !! configPath = None ->
  backupConfig configPath w = (Err (ErrNotExist "open" configPath), w).
Proof.
  intros H. unfold backupConfig, mbind, M_bind, Os.ReadFile. now rewrite H.
Qed.

Lemma lookup_after_backup configPath content (fs : gmap string string) :
  fs !! configPath = Some content ->
  <[configPath +:+ ".backup" := content]> fs !! configPath = Some content.
Proof.
  intros H. rewrite lookup_insert_ne; [exact H | apply backup_path_fresh].
Qed.

Lemma existsb_name (hostName : string) (hs : list SSHHost) :
  existsb (fun host => String.eqb (Name host) hostName) hs = true
  <-> In hostName (map Name hs).
Proof.
  rewrite existsb_exists, in_map_iff. split.
  - intros (h & Hin & E). apply String.eqb_eq in E. now exists h.
  - intros (h & E & Hin). exists h. split; [exact Hin|].
    now apply String.eqb_eq.
Qed.

End FileSystem.

(** C10. When the config file does not exist AddSSHHost fails with the
    error of the open in the uniqueness check, an IOError, and the file
    system is left as it was: the file is not created. *)
Theorem C10_add_missing_config (host : SSHHost) (w : World) (homeDir : string) :
  home w = Some homeDir ->
  files w !! Os.configPathOf homeDir = None ->
  AddSSHHost host w
  = (Err (ErrNotExist "open" (Os.configPathOf homeDir)), w)
  /\ kindOf (ErrNotExist "open" (Os.configPathOf homeDir)) = IOError
  /\ HostExists (Name host) w
     = (false, Some (ErrNotExist "open" (Os.configPathOf homeDir)))
  /\ files (snd (AddSSHHost host w)) !! Os.configPathOf homeDir = None.
Proof.
  intros Hh Hf.
  assert (HE : HostExists (Name host) w
               = (false, Some (ErrNotExist "open" (Os.configPathOf homeDir)))).
  { unfold HostExists, ParseSSHConfig, ParseSSHConfigFile. now rewrite Hh, Hf. }
  assert (HA : AddSSHHost host w
               = (Err (ErrNotExist "open" (Os.configPathOf homeDir)), w)).
  { unfold AddSSHHost, mbind, M_bind, Os.UserHomeDir, Os.Exists.
    rewrite Hh, Hf. rewrite bool_decide_eq_false_2 by (intros [? ?]; discriminate).
    simpl. unfold mret, M_ret, checked. now rewrite HE. }
  repeat split; trivial. now rewrite HA.
Qed.

Lemma C10_witness :
  AddSSHHost Samples.hostWeb Samples.emptyWorld
  = (Err (ErrNotExist "open" "/home/ann/.ssh/config"), Samples.emptyWorld).
Proof.
  exact (proj1 (C10_add_missing_config
                  Samples.hostWeb Samples.emptyWorld "/home/ann"
                  eq_refl eq_refl)).
Defined.

Section Loops.

Lemma take_drop_body (ls : list string) : takeBody ls ++ dropBody ls = ls.
Proof.
  induction ls as [|l r IH]; [reflexivity|]. simpl.
  destruct (isBody l); [simpl; now rewrite IH | reflexivity].
Qed.

Lemma skipBlock_takeBody (ls : list string) (i : nat) :
  skipBlock ls i = i + length (takeBody ls).
Proof.
  revert i. induction ls as [|l r IH]; intros i; simpl; [lia|].
  fold (isBody l). destruct (isBody l); simpl; [rewrite IH|]; lia.
Qed.

Lemma lookup_front (front rest : list string) (k : nat) :
  (front ++ rest) !! (length front + k) = rest !! k.
Proof. rewrite lookup_app_r by lia. f_equal. lia. Qed.

Lemma lookup_front0 (front rest : list string) :
  (front ++ rest) !! length front = head rest.
Proof.
  replace (length front) with (length front + 0) by lia.
  rewrite lookup_front. now destruct rest.
Qed.

Lemma lookup_front1 (front : list string) (raw : string) (tl : list string) :
  (front ++ raw :: tl) !! (length front + 1) = head tl.
Proof. rewrite lookup_front. now destruct tl. Qed.

Lemma drop_front (front rest : list string) (k : nat) :
  drop (length front + k) (front ++ rest) = drop k rest.
Proof. rewrite drop_app_ge by lia. f_equal. lia. Qed.

(** The index reached after a block of [k] matched lines followed by the
    lines [tl]: it splits the file in front of [dropBody tl]. *)
Lemma skip_position (front matched tl : list string) :
  let lines := front ++ matched ++ tl in
  let j := skipBlock (drop (length front + length matched) lines)
                     (length front + length matched) in
  j = length (front ++ matched ++ takeBody tl)
  /\ lines = (front ++ matched ++ takeBody tl) ++ dropBody tl.
Proof.
  simpl. split.
  - rewrite app_assoc, <- length_app, drop_app_length.
    rewrite skipBlock_takeBody, !length_app. lia.
  - rewrite <- !app_assoc. now rewrite take_drop_body.
Qed.

Lemma skipBlank_position (front rest : list string) :
  exists front',
    skipBlank (front ++ rest) (length front) = length front'
    /\ front ++ rest = front' ++ dropBlank rest.
Proof.
  unfold skipBlank. rewrite lookup_front0. destruct rest as [|b r]; simpl.
  - exists front. split; [reflexivity|reflexivity].
  - destruct (String.eqb (TrimSpace b) "").
    + exists (front ++ [b]). rewrite length_app, <- app_assoc. simpl.
      split; [lia|reflexivity].
    + exists front. split; [reflexivity|reflexivity].
Qed.

Lemma bare_test (name raw : string) :
  HasPrefix (TrimSpace raw) "Host " = true ->
  exists tok, Fields (TrimSpace raw) !! 1 = Some tok
              /\ bareHit name raw = String.eqb tok name.
Proof.
  intros H. destruct (Host_prefix_second raw H) as [tok E].
  exists tok. split; [exact E|]. unfold bareHit. now rewrite H, E.
Qed.

Lemma bare_test_false (name raw : string) :
  HasPrefix (TrimSpace raw) "Host " = false -> bareHit name raw = false.
Proof. intros H. unfold bareHit. now rewrite H. Qed.

Lemma after_position (eat : bool) (front matched tl : list string) :
  let lines := front ++ matched ++ tl in
  let j := skipBlock (drop (length front + length matched) lines)
                     (length front + length matched) in
  exists front',
    (if eat then skipBlank lines j else j) = length front'
    /\ lines = front' ++ afterBlock eat tl.
Proof.
  destruct (skip_position front matched tl) as [Hj Hl]. cbv zeta in *.
  destruct eat; unfold afterBlock.
  - destruct (skipBlank_position (front ++ matched ++ takeBody tl) (dropBody tl))
      as (front' & E1 & E2).
    exists front'. rewrite Hj. split.
    + rewrite <- E1. f_equal. exact Hl.
    + rewrite <- E2. exact Hl.
  - exists (front ++ matched ++ takeBody tl). split; [exact Hj|exact Hl].
Qed.

(** The steps the two simulation proofs share: a turn that keeps the
    line, and a turn that found a block of [matched] lines. *)
Ltac keep_step IH front raw tl :=
  replace (front ++ raw :: tl) with ((front ++ [raw]) ++ tl)
    by (now rewrite <- app_assoc);
  replace (length front + 1) with (length (front ++ [raw]))
    by (rewrite length_app; simpl; lia);
  apply IH.

Ltac found_step IH eat front matched tl :=
  let front' := fresh "front'" in
  let Hj := fresh "Hj" in
  let Hl := fresh "Hl" in
  destruct (after_position eat front matched tl) as (front' & Hj & Hl);
  cbn [length] in Hj; simpl app in Hl, Hj; cbv zeta in Hj;
  rewrite Hj; rewrite Hl at 1; rewrite IH; reflexivity.

Ltac bare_branch IH eat name front raw tl :=
  let Hp := fresh "Hp" in
  let Hn := fresh "Hn" in
  let tok := fresh "tok" in
  destruct (HasPrefix (TrimSpace raw) "Host ") eqn:Hp;
  [ destruct (bare_test name raw Hp) as (tok & -> & ->);
    destruct (String.eqb tok name) eqn:Hn;
    [ found_step IH eat front [raw] tl | reflexivity ]
  | now rewrite (bare_test_false _ _ Hp) ].

(** The loop of UpdateSSHHost at index [length front] is the common loop
    on the lines after [front]. *)
Lemma updateLoop_splice oldName newHost fuel :
  forall front rest newLines hostFound,
    updateLoop oldName newHost (front ++ rest) fuel (length front)
               newLines hostFound
    = spliceLoop oldName (updateBlock newHost) false fuel rest
                 newLines hostFound.
Proof.
  induction fuel as [|fuel IH]; intros front rest newLines hostFound;
    [reflexivity|].
  cbn [updateLoop spliceLoop].
  rewrite lookup_front0. destruct rest as [|raw tl]; [reflexivity|].
  cbn [head]. rewrite lookup_front1.
  assert (Hstep : forall k, updateLoop oldName newHost (front ++ raw :: tl) fuel
                    (length front + 1) (newLines ++ [raw]) k
                  = spliceLoop oldName (updateBlock newHost) false fuel tl
                      (newLines ++ [raw]) k)
    by (intros k; keep_step IH front raw tl).
  destruct tl as [|next tl2]; cbn [head].
  - destruct (HasPrefix (TrimSpace raw) "# Tags:"); rewrite Hstep;
      bare_branch IH false oldName front raw (@nil string).
  - unfold tagsHit.
    destruct (HasPrefix (TrimSpace raw) "# Tags:"); cbn [andb];
      [destruct (String.eqb (TrimSpace next) ("Host " +:+ oldName));
       [found_step IH false front [raw; next] tl2|]|];
      rewrite Hstep; bare_branch IH false oldName front raw (next :: tl2).
Qed.

(** The loop of DeleteSSHHost likewise, with nothing put in place of the
    block and the blank line after it dropped. *)
Lemma deleteLoop_splice hostName fuel :
  forall front rest newLines hostFound,
    deleteLoop hostName (front ++ rest) fuel (length front)
               newLines hostFound
    = spliceLoop hostName [] true fuel rest newLines hostFound.
Proof.
  induction fuel as [|fuel IH]; intros front rest newLines hostFound;
    [reflexivity|].
  cbn [deleteLoop spliceLoop].
  rewrite lookup_front0. destruct rest as [|raw tl]; [reflexivity|].
  cbn [head]. rewrite lookup_front1. rewrite app_nil_r.
  assert (Hstep : forall k, deleteLoop hostName (front ++ raw :: tl) fuel
                    (length front + 1) (newLines ++ [raw]) k
                  = spliceLoop hostName [] true fuel tl (newLines ++ [raw]) k)
    by (intros k; keep_step IH front raw tl).
  destruct tl as [|next tl2]; cbn [head].
  - destruct (HasPrefix (TrimSpace raw) "# Tags:"); rewrite Hstep;
      bare_branch IH true hostName front raw (@nil string).
  - unfold tagsHit.
    destruct (HasPrefix (TrimSpace raw) "# Tags:"); cbn [andb];
      [destruct (String.eqb (TrimSpace next) ("Host " +:+ hostName));
       [found_step IH true front [raw; next] tl2|]|];
      rewrite Hstep; bare_branch IH true hostName front raw (next :: tl2).
Qed.

End Loops.

Section Splice.

Variables (name : string) (block : list string) (eatBlank : bool).

Lemma dropBody_length (ls : list string) : length (dropBody ls) <= length ls.
Proof.
  induction ls as [|l r IH]; simpl; [lia|]. destruct (isBody l); simpl; lia.
Qed.

Lemma afterBlock_length (ls : list string) :
  length (afterBlock eatBlank ls) <= length ls.
Proof.
  unfold afterBlock. pose proof (dropBody_length ls) as H.
  destruct eatBlank; [|exact H]. unfold dropBlank.
  destruct (dropBody ls) as [|b r]; simpl in *; [lia|].
  destruct (String.eqb (TrimSpace b) ""); simpl; lia.
Qed.

(** The loop ends within as many turns as there are lines. *)
Lemma spliceLoop_returns (fuel : nat) :
  forall rest newLines hostFound,
    length rest < fuel ->
    exists out found,
      spliceLoop name block eatBlank fuel rest newLines hostFound
      = Ok (out, found).
Proof.
  induction fuel as [|fuel IH]; intros rest newLines hostFound Hlen; [lia|].
  destruct rest as [|raw tl]; [now exists newLines, hostFound|].
  cbn [spliceLoop]. simpl in Hlen.
  destruct (match tl with
            | next :: _ => tagsHit name raw next
            | [] => false
            end).
  - apply IH. pose proof (afterBlock_length (tail tl)).
    destruct tl; simpl in *; lia.
  - destruct (bareHit name raw); apply IH.
    + pose proof (afterBlock_length tl). lia.
    + lia.
Qed.

Lemma head_app_cons (tl rest : list string) :
  head (tl ++ rest) = match tl with n :: _ => Some n | [] => head rest end.
Proof. now destruct tl. Qed.

(** Lines in which no block starts are copied. *)
Lemma spliceLoop_keeps (pre : list string) :
  forall rest fuel newLines hostFound,
    noHitBefore name pre (head rest) = true ->
    spliceLoop name block eatBlank (length pre + fuel) (pre ++ rest)
               newLines hostFound
    = spliceLoop name block eatBlank fuel rest (newLines ++ pre) hostFound.
Proof.
  induction pre as [|raw tl IH]; intros rest fuel newLines hostFound H.
  - simpl. now rewrite app_nil_r.
  - simpl in H. apply andb_true_iff in H as [Hh Hr].
    apply negb_true_iff in Hh. unfold hitAt in Hh.
    apply orb_false_iff in Hh as [Ht Hb].
    cbn [length Nat.add app spliceLoop]. rewrite Hb.
    assert (Hno : match tl ++ rest with
                  | next :: _ => tagsHit name raw next
                  | [] => false
                  end = false).
    { destruct tl as [|n tl']; simpl in *; [|exact Ht].
      destruct rest; simpl in *; [reflexivity|exact Ht]. }
    rewrite Hno, IH by exact Hr. now rewrite <- app_assoc.
Qed.

Lemma dropBody_app (body post : list string) :
  forallb isBody body = true ->
  match post with [] => true | l :: _ => negb (isBody l) end = true ->
  dropBody (body ++ post) = post.
Proof.
  intros Hb Hp. induction body as [|l r IH]; simpl in *.
  - destruct post as [|l r]; [reflexivity|]. simpl.
    apply negb_true_iff in Hp. now rewrite Hp.
  - apply andb_true_iff in Hb as [Hl Hr]. rewrite Hl. now apply IH.
Qed.

(** Without a block the lines are copied. *)
Lemma spliceLoop_tail (ls : list string) (fuel : nat) newLines hostFound :
  noHitBefore name ls None = true ->
  length ls < fuel ->
  spliceLoop name block eatBlank fuel ls newLines hostFound
  = Ok (newLines ++ ls, hostFound).
Proof.
  intros H Hfuel.
  pose proof (spliceLoop_keeps ls [] (fuel - length ls) newLines hostFound H)
    as K.
  rewrite app_nil_r in K.
  replace (length ls + (fuel - length ls)) with fuel in K by lia.
  rewrite K. destruct (fuel - length ls) eqn:E; [lia|]. reflexivity.
Qed.

Lemma bareHit_not_tags (raw next : string) :
  bareHit name raw = true -> tagsHit name raw next = false.
Proof.
  unfold bareHit, tagsHit. intros H. apply andb_true_iff in H as [H _].
  destruct (HasPrefix_inv _ _ H) as [r ->]. reflexivity.
Qed.

(** The frame of a rewrite: the lines before and after the first block
    are kept, the block is replaced. *)
Lemma spliceLoop_located (pre span post : list string) (fuel : nat) :
  located name pre span post = true ->
  noHitBefore name (restAfter eatBlank post) None = true ->
  length (pre ++ span ++ post) < fuel ->
  spliceLoop name block eatBlank fuel (pre ++ span ++ post) [] false
  = Ok (pre ++ block ++ restAfter eatBlank post, true).
Proof.
  unfold located. intros H Hpost Hfuel.
  apply andb_true_iff in H as [H Hend]. apply andb_true_iff in H as [Hpre Hspan].
  rewrite !length_app in Hfuel.
  replace fuel with (length pre + (fuel - length pre)) by lia.
  rewrite spliceLoop_keeps
    by (rewrite head_app_cons; destruct span; [discriminate|exact Hpre]).
  assert (Hfin : forall k acc, length (restAfter eatBlank post) < k ->
            spliceLoop name block eatBlank k (restAfter eatBlank post) acc true
            = Ok (acc ++ restAfter eatBlank post, true)).
  { intros k acc Hk. now apply spliceLoop_tail. }
  assert (Hrest : length (restAfter eatBlank post) <= length post).
  { unfold restAfter, dropBlank. destruct eatBlank; [|lia].
    destruct post as [|b r]; simpl; [lia|].
    destruct (String.eqb (TrimSpace b) ""); simpl; lia. }
  assert (Hafter : forall body, forallb isBody body = true ->
            afterBlock eatBlank (body ++ post) = restAfter eatBlank post).
  { intros body Hb. unfold afterBlock, restAfter.
    now rewrite (dropBody_app body post Hb Hend). }
  destruct (fuel - length pre) as [|k] eqn:Ek; [simpl in Hfuel; lia|].
  destruct span as [|t [|h body]]; [discriminate| |].
  - (* a bare Host line, last line of the block *)
    cbn [app spliceLoop]. rewrite Hspan.
    assert (Hno : match post with
                  | next :: _ => tagsHit name t next
                  | [] => false
                  end = false)
      by (destruct post; [reflexivity|now apply bareHit_not_tags]).
    rewrite Hno. pose proof (Hafter [] eq_refl) as Ha. simpl app in Ha.
    rewrite Ha.
    rewrite Hfin by (simpl in Hfuel; lia). now rewrite <- app_assoc.
  - cbn [app spliceLoop].
    destruct (tagsHit name t h) eqn:Ht.
    + cbn [tail]. rewrite (Hafter body Hspan).
      rewrite Hfin by (simpl in Hfuel; lia).
      now rewrite <- app_assoc.
    + apply andb_true_iff in Hspan as [Hb Hbody]. rewrite Hb.
      change (h :: body ++ post) with ((h :: body) ++ post).
      rewrite (Hafter (h :: body) Hbody).
      rewrite Hfin by (simpl in Hfuel; lia).
      now rewrite <- app_assoc.
Qed.

(** Without a block the lines are copied and nothing is found. *)
Lemma spliceLoop_no_block (lines : list string) (fuel : nat) :
  noHitBefore name lines None = true ->
  length lines < fuel ->
  spliceLoop name block eatBlank fuel lines [] false = Ok (lines, false).
Proof.
  intros H Hfuel. now rewrite spliceLoop_tail.
Qed.

Lemma noBlock_noHitBefore (lines : list string) :
  noBlock name lines -> noHitBefore name lines None = true.
Proof.
  induction lines as [|raw tl IH]; intros H; [reflexivity|]. simpl.
  apply andb_true_iff. split.
  - apply negb_true_iff. specialize (H 0 raw eq_refl). simpl in H.
    now destruct tl.
  - apply IH. intros i r Hi. exact (H (S i) r Hi).
Qed.

Lemma noHitBefore_noBlock (lines : list string) :
  noHitBefore name lines None = true -> noBlock name lines.
Proof.
  induction lines as [|raw tl IH]; intros H i r Hi; [discriminate|].
  simpl in H. apply andb_true_iff in H as [Hh Hr]. apply negb_true_iff in Hh.
  destruct i as [|i]; simpl in *.
  - injection Hi as <-. now destruct tl.
  - exact (IH Hr i r Hi).
Qed.

End Splice.

Section Rewrites.

Variables (w : World) (homeDir content : string).
Hypothesis Hhome : home w = Some homeDir.
Hypothesis Hfile : files w !! Os.configPathOf homeDir = Some content.

Lemma UpdateSSHHost_run (oldName : string) (newHost : SSHHost) :
  UpdateSSHHost oldName newHost w
  = Config.conclude w (Os.configPathOf homeDir) content oldName
      (spliceLoop oldName (updateBlock newHost) false
         (S (length (Split content "010"))) (Split content "010") [] false).
Proof.
  unfold UpdateSSHHost, mbind, M_bind, Os.UserHomeDir. rewrite Hhome.
  unfold wrapErr. rewrite (backupConfig_ok _ content) by exact Hfile.
  unfold Os.ReadFile. cbn [files].
  rewrite (lookup_after_backup _ _ _ Hfile). unfold step.
  rewrite <- (updateLoop_splice oldName newHost _ [] (Split content "010")).
  cbn [app length]. unfold Config.conclude, Config.written, Config.backedUp.
  destruct (updateLoop _ _ _ _ _ _ _) as [[newLines [|]]| | |]; reflexivity.
Qed.

Lemma DeleteSSHHost_run (hostName : string) :
  DeleteSSHHost hostName w
  = Config.conclude w (Os.configPathOf homeDir) content hostName
      (spliceLoop hostName [] true
         (S (length (Split content "010"))) (Split content "010") [] false).
Proof.
  unfold DeleteSSHHost, mbind, M_bind, Os.UserHomeDir. rewrite Hhome.
  unfold wrapErr. rewrite (backupConfig_ok _ content) by exact Hfile.
  unfold Os.ReadFile. cbn [files].
  rewrite (lookup_after_backup _ _ _ Hfile). unfold step.
  rewrite <- (deleteLoop_splice hostName _ [] (Split content "010")).
  cbn [app length]. unfold Config.conclude, Config.written, Config.backedUp.
  destruct (deleteLoop _ _ _ _ _ _) as [[newLines [|]]| | |]; reflexivity.
Qed.

(** A rewrite returns: its loop neither panics nor runs out of fuel. *)
Lemma UpdateSSHHost_returns (oldName : string) (newHost : SSHHost) :
  exists w',
    UpdateSSHHost oldName newHost w = (Ok tt, w')
    \/ UpdateSSHHost oldName newHost w = (Err (ErrHostNotFound oldName), w').
Proof.
  rewrite UpdateSSHHost_run.
  destruct (spliceLoop_returns oldName (updateBlock newHost) false
              (S (length (Split content "010"))) (Split content "010") [] false)
    as (out & found & ->); [lia|].
  destruct found; simpl; eauto.
Qed.

Lemma DeleteSSHHost_returns (hostName : string) :
  exists w',
    DeleteSSHHost hostName w = (Ok tt, w')
    \/ DeleteSSHHost hostName w = (Err (ErrHostNotFound hostName), w').
Proof.
  rewrite DeleteSSHHost_run.
  destruct (spliceLoop_returns hostName [] true
              (S (length (Split content "010"))) (Split content "010") [] false)
    as (out & found & ->); [lia|].
  destruct found; simpl; eauto.
Qed.

Lemma rewrite_not_found (name : string) (block : list string) (eat : bool) :
  noBlock name (Split content "010") ->
  Config.conclude w (Os.configPathOf homeDir) content name
    (spliceLoop name block eat (S (length (Split content "010")))
       (Split content "010") [] false)
  = (Err (ErrHostNotFound name),
     Config.backedUp w (Os.configPathOf homeDir) content).
Proof.
  intros H. rewrite spliceLoop_no_block; [reflexivity| |lia].
  now apply noBlock_noHitBefore.
Qed.

Lemma rewrite_located (name : string) (block : list string) (eat : bool)
    (pre span post : list string) :
  Split content "010" = pre ++ span ++ post ->
  located name pre span post = true ->
  noHitBefore name (restAfter eat post) None = true ->
  Config.conclude w (Os.configPathOf homeDir) content name
    (spliceLoop name block eat (S (length (Split content "010")))
       (Split content "010") [] false)
  = (Ok tt,
     Config.written w (Os.configPathOf homeDir) content
                    (pre ++ block ++ restAfter eat post)).
Proof.
  intros E Hl Hp. rewrite E.
  rewrite (spliceLoop_located name block eat pre span post _ Hl Hp) by lia.
  reflexivity.
Qed.

Lemma backedUp_config :
  files (Config.backedUp w (Os.configPathOf homeDir) content)
  !! Os.configPathOf homeDir = Some content.
Proof. apply lookup_after_backup, Hfile. Qed.

Lemma written_config (newLines : list string) :
  files (Config.written w (Os.configPathOf homeDir) content newLines)
  !! Os.configPathOf homeDir
  = Some (Join newLines (String "010" "")).
Proof. unfold Config.written. cbn [files]. apply lookup_insert_eq. Qed.

End Rewrites.

(** In every world the two rewrites return, with nil or with an error:
    they neither panic nor loop. *)
Lemma UpdateSSHHost_total (oldName : string) (newHost : SSHHost) (w : World) :
  exists w',
    UpdateSSHHost oldName newHost w = (Ok tt, w')
    \/ exists e, UpdateSSHHost oldName newHost w = (Err e, w').
Proof.
  destruct (home w) as [homeDir|] eqn:Hh.
  - destruct (files w !! Os.configPathOf homeDir) as [content|] eqn:Hf.
    + destruct (UpdateSSHHost_returns w homeDir content Hh Hf oldName newHost)
        as (w' & [H|H]); exists w'; [now left|right; eauto].
    + exists w. right. eexists.
      unfold UpdateSSHHost, mbind, M_bind, Os.UserHomeDir. rewrite Hh.
      unfold wrapErr. now rewrite (backupConfig_missing _ _ Hf).
  - exists w. right. eexists.
    unfold UpdateSSHHost, mbind, M_bind, Os.UserHomeDir. now rewrite Hh.
Qed.

Lemma DeleteSSHHost_total (hostName : string) (w : World) :
  exists w',
    DeleteSSHHost hostName w = (Ok tt, w')
    \/ exists e, DeleteSSHHost hostName w = (Err e, w').
Proof.
  destruct (home w) as [homeDir|] eqn:Hh.
  - destruct (files w !! Os.configPathOf homeDir) as [content|] eqn:Hf.
    + destruct (DeleteSSHHost_returns w homeDir content Hh Hf hostName)
        as (w' & [H|H]); exists w'; [now left|right; eauto].
    + exists w. right. eexists.
      unfold DeleteSSHHost, mbind, M_bind, Os.UserHomeDir. rewrite Hh.
      unfold wrapErr. now rewrite (backupConfig_missing _ _ Hf).
  - exists w. right. eexists.
    unfold DeleteSSHHost, mbind, M_bind, Os.UserHomeDir. now rewrite Hh.
Qed.

(** C9. In the bare-Host branches of update and delete the access
    [strings.Fields(line)[1]] is in bounds: a trimmed line with the
    prefix [Host ] has a non-space byte after the prefix, so [Fields]
    yields at least two tokens.  The rewriting loops never panic, and
    UpdateSSHHost and DeleteSSHHost return in every world. *)
Theorem C9_fields_index_in_bounds :
  (forall raw : string,
      HasPrefix (TrimSpace raw) "Host " = true ->
      (exists rest, TrimSpace raw = "Host " +:+ rest /\ TrimSpace rest <> "")
      /\ 2 <= length (Fields (TrimSpace raw))
      /\ is_Some (Fields (TrimSpace raw) !! 1))
  /\ (forall oldName newHost lines fuel i newLines hostFound,
         updateLoop oldName newHost lines fuel i newLines hostFound <> Panic)
  /\ (forall hostName lines fuel i newLines hostFound,
         deleteLoop hostName lines fuel i newLines hostFound <> Panic)
  /\ (forall oldName newHost w,
         fst (UpdateSSHHost oldName newHost w) <> Panic
         /\ fst (UpdateSSHHost oldName newHost w) <> OutOfFuel)
  /\ (forall hostName w,
         fst (DeleteSSHHost hostName w) <> Panic
         /\ fst (DeleteSSHHost hostName w) <> OutOfFuel).
Proof.
  split; [|split; [|split; [|split]]].
  - intros raw H. destruct (Host_prefix_token raw H) as (rest & E & F).
    split; [|split].
    + exists rest. split; [exact E|]. intros T. apply F.
      now apply TrimSpace_nil_Fields.
    + rewrite E, Fields_Host. destruct (Fields rest); [now elim F|].
      simpl. lia.
    + destruct (Host_prefix_second raw H) as [name ->]. now exists name.
  - intros. apply updateLoop_no_panic.
  - intros. apply deleteLoop_no_panic.
  - intros oldName newHost w.
    destruct (UpdateSSHHost_total oldName newHost w) as (w' & [->|[e ->]]);
      split; discriminate.
  - intros hostName w.
    destruct (DeleteSSHHost_total hostName w) as (w' & [->|[e ->]]);
      split; discriminate.
Qed.

Lemma C9_witness :
  HasPrefix (TrimSpace "   Host web-prod-01  ") "Host " = true
  /\ 2 <= length (Fields (TrimSpace "   Host web-prod-01  ")).
Proof.
  split; [reflexivity|].
  exact (proj1 (proj2 (proj1 C9_fields_index_in_bounds
                         "   Host web-prod-01  " eq_refl))).
Defined.

Section ParserSteps.

Lemma appendTags_filter (pieces : list string) :
  forall pending,
    appendTags pending pieces
    = pending ++ List.filter nonEmpty (map TrimSpace pieces).
Proof.
  induction pieces as [|tag rest IH]; intros pending; simpl.
  - now rewrite app_nil_r.
  - unfold nonEmpty at 1. destruct (String.eqb (TrimSpace tag) ""); simpl.
    + apply IH.
    + rewrite IH. now rewrite <- app_assoc.
Qed.

Lemma HasPrefix_hash (line : string) :
  HasPrefix line "# Tags:" = true -> HasPrefix line "#" = true.
Proof.
  intros H. destruct (HasPrefix_inv _ _ H) as [r ->]. reflexivity.
Qed.

Lemma parser_eta (st : parser) :
  mkParser (hosts st) (currentHost st) (pendingTags st) = st.
Proof. now destruct st. Qed.

(** A tags line adds its tags to the pending tags. *)
Lemma parseLine_tags (st : parser) (text : string) :
  isTagsLine text = true ->
  parseLine st text
  = mkParser (hosts st) (currentHost st) (pendingTags st ++ lineTags text).
Proof.
  intros H. unfold lineTags. rewrite H. unfold isTagsLine in H.
  unfold parseLine. rewrite H.
  destruct (String.eqb (TrimSpace text) "") eqn:E.
  { apply String.eqb_eq in E. rewrite E in H. discriminate. }
  destruct (String.eqb (TrimSpace (TrimPrefix (TrimSpace text) "# Tags:")) "")
    eqn:E2.
  - apply String.eqb_eq in E2. rewrite E2. simpl.
    now rewrite app_nil_r, parser_eta.
  - now rewrite appendTags_filter.
Qed.

(** A directive is handled by the switch. *)
Lemma parseLine_directive (st : parser) (text key value : string) :
  directive text = Some (key, value) ->
  parseLine st text = act st key value.
Proof.
  unfold directive, parseLine, act.
  destruct (String.eqb (TrimSpace text) ""); [discriminate|].
  destruct (HasPrefix (TrimSpace text) "# Tags:") eqn:Ht.
  { now rewrite (HasPrefix_hash _ Ht). }
  destruct (HasPrefix (TrimSpace text) "#"); [discriminate|].
  destruct (Fields (TrimSpace text)) as [|k [|v vs]]; try discriminate.
  intros [= <- <-]. reflexivity.
Qed.

(** Any other line is passed over. *)
Lemma parseLine_other (st : parser) (text : string) :
  isTagsLine text = false -> directive text = None ->
  parseLine st text = st.
Proof.
  unfold isTagsLine, directive, parseLine. intros Ht.
  rewrite Ht. destruct (String.eqb (TrimSpace text) ""); [reflexivity|].
  destruct (HasPrefix (TrimSpace text) "#"); [reflexivity|].
  destruct (Fields (TrimSpace text)) as [|k [|v vs]]; try reflexivity.
  discriminate.
Qed.

Lemma directive_not_tags (text : string) (kv : string * string) :
  directive text = Some kv -> isTagsLine text = false.
Proof.
  unfold directive, isTagsLine.
  destruct (String.eqb (TrimSpace text) ""); [discriminate|].
  destruct (HasPrefix (TrimSpace text) "# Tags:") eqn:Ht; [|reflexivity].
  now rewrite (HasPrefix_hash _ Ht).
Qed.

Lemma lineTags_not_tags (text : string) :
  isTagsLine text = false -> lineTags text = [].
Proof. intros H. unfold lineTags. now rewrite H. Qed.

Lemma assign_id (st : parser) : assign (fun h => h) st = st.
Proof. unfold assign. now destruct st as [hs [h|] p]. Qed.

(** What a line that opens no host does: it may add pending tags, and
    it may set a field, not the name or the tags, of the open host. *)
Lemma parseLine_no_host (text : string) :
  declaresHost text = false ->
  exists f, (forall h, Name (f h) = Name h /\ Tags (f h) = Tags h)
            /\ forall st,
      parseLine st text
      = assign f (mkParser (hosts st) (currentHost st)
                           (pendingTags st ++ lineTags text)).
Proof.
  intros Hd. destruct (isTagsLine text) eqn:Ht.
  - exists (fun h => h). split; [now intros h|].
    intros st. now rewrite assign_id, parseLine_tags.
  - rewrite (lineTags_not_tags _ Ht).
    destruct (directive text) as [[k v]|] eqn:Hdir.
    + unfold declaresHost, keyOf in Hd. rewrite Hdir in Hd. simpl in Hd.
      assert (Hact : forall st, parseLine st text = act st k v)
        by (intros st; now apply parseLine_directive).
      unfold act in Hact. rewrite Hd in Hact.
      destruct (String.eqb k "hostname");
        [exists (setHostname v); split; [now intros h|];
         intros st; rewrite Hact, app_nil_r; now rewrite parser_eta|].
      destruct (String.eqb k "user");
        [exists (setUser v); split; [now intros h|];
         intros st; rewrite Hact, app_nil_r; now rewrite parser_eta|].
      destruct (String.eqb k "port");
        [exists (setPort v); split; [now intros h|];
         intros st; rewrite Hact, app_nil_r; now rewrite parser_eta|].
      destruct (String.eqb k "identityfile");
        [exists (setIdentity v); split; [now intros h|];
         intros st; rewrite Hact, app_nil_r; now rewrite parser_eta|].
      destruct (String.eqb k "proxyjump");
        [exists (setProxyJump v); split; [now intros h|];
         intros st; rewrite Hact, app_nil_r; now rewrite parser_eta|].
      exists (fun h => h). split; [now intros h|]. intros st.
      now rewrite Hact, app_nil_r, parser_eta, assign_id.
    + exists (fun h => h). split; [now intros h|]. intros st.
      now rewrite app_nil_r, parser_eta, assign_id, parseLine_other.
Qed.

(** A line that neither opens a host nor sets a field only adds its
    tags. *)
Lemma parseLine_inert (st : parser) (text : string) :
  declaresHost text = false -> setsField text = false ->
  parseLine st text
  = mkParser (hosts st) (currentHost st) (pendingTags st ++ lineTags text).
Proof.
  intros Hd Hs. destruct (isTagsLine text) eqn:Ht.
  - now apply parseLine_tags.
  - rewrite (lineTags_not_tags _ Ht), app_nil_r, parser_eta.
    destruct (directive text) as [[k v]|] eqn:Hdir.
    + rewrite (parseLine_directive st text k v Hdir).
      unfold declaresHost, setsField, keyOf in Hd, Hs.
      rewrite Hdir in Hd, Hs. simpl in Hd, Hs. unfold act. rewrite Hd.
      rewrite !orb_false_iff in Hs.
      destruct Hs as (-> & -> & -> & -> & -> & _). reflexivity.
    + now apply parseLine_other.
Qed.

(** A Host declaration closes the open host and opens one that takes the
    pending tags. *)
Lemma parseLine_host (st : parser) (text value : string) :
  directive text = Some ("host", value) ->
  parseLine st text
  = mkParser (hosts st ++ option_list (currentHost st))
             (Some (mkHost value "" "" "22" "" "" (pendingTags st))) [].
Proof. intros H. now rewrite (parseLine_directive st text _ _ H). Qed.

Lemma declaresHost_directive (text : string) :
  declaresHost text = true -> exists v, directive text = Some ("host", v).
Proof.
  unfold declaresHost, keyOf.
  destruct (directive text) as [[k v]|]; simpl; [|discriminate].
  intros H. apply String.eqb_eq in H. subst k. now exists v.
Qed.

End ParserSteps.

Section ParserRuns.

Lemma parseLines_app (st : parser) (l1 l2 : list string) :
  parseLines st (l1 ++ l2) = parseLines (parseLines st l1) l2.
Proof. unfold parseLines. apply fold_left_app. Qed.

Lemma parseLines_cons (st : parser) (l : string) (ls : list string) :
  parseLines st (l :: ls) = parseLines (parseLine st l) ls.
Proof. reflexivity. Qed.

(** The hosts already closed stay in front. *)
Lemma parseLine_hosts_front (hs : list SSHHost) (st : parser) (l : string) :
  parseLine (mkParser (hs ++ hosts st) (currentHost st) (pendingTags st)) l
  = let st' := parseLine st l in
    mkParser (hs ++ hosts st') (currentHost st') (pendingTags st').
Proof.
  destruct (declaresHost l) eqn:Hd.
  - destruct (declaresHost_directive l Hd) as [v Hv].
    rewrite !(parseLine_host _ l v Hv). cbn. now rewrite app_assoc.
  - destruct (parseLine_no_host l Hd) as (f & _ & Hf). rewrite !Hf. cbn.
    unfold assign. cbn. now destruct (currentHost st).
Qed.

Lemma parseLines_hosts_front (hs : list SSHHost) (ls : list string) :
  forall st,
    parseLines (mkParser (hs ++ hosts st) (currentHost st) (pendingTags st)) ls
    = let st' := parseLines st ls in
      mkParser (hs ++ hosts st') (currentHost st') (pendingTags st').
Proof.
  induction ls as [|l r IH]; intros st; [reflexivity|].
  rewrite !parseLines_cons, parseLine_hosts_front. cbv zeta. now rewrite IH.
Qed.

Lemma finish_hosts_front (hs : list SSHHost) (st : parser) (ls : list string) :
  finish (parseLines (mkParser (hs ++ hosts st) (currentHost st)
                               (pendingTags st)) ls)
  = hs ++ finish (parseLines st ls).
Proof.
  rewrite parseLines_hosts_front. unfold finish. cbn. now rewrite app_assoc.
Qed.

(** Quiet lines leave the open host as it is: it is closed unchanged. *)
Lemma quiet_finish (ls : list string) :
  quiet ls = true ->
  forall hs cur pending,
    finish (parseLines (mkParser hs cur pending) ls)
    = hs ++ option_list cur
      ++ finish (parseLines (mkParser [] None pending) ls).
Proof.
  induction ls as [|l r IH]; intros Hq hs cur pending.
  - unfold finish. simpl. now rewrite !app_nil_r.
  - simpl in Hq. rewrite !parseLines_cons. destruct (declaresHost l) eqn:Hd.
    + destruct (declaresHost_directive l Hd) as [v Hv].
      rewrite !(parseLine_host _ l v Hv). cbn [hosts currentHost pendingTags].
      pose proof (finish_hosts_front (hs ++ option_list cur)
                    (mkParser [] (Some (mkHost v "" "" "22" "" "" pending)) [])
                    r) as F.
      cbn [hosts currentHost pendingTags] in F. rewrite app_nil_r in F.
      rewrite F. simpl. now rewrite <- app_assoc.
    + apply andb_true_iff in Hq as [Hs Hr]. apply negb_true_iff in Hs.
      rewrite !(parseLine_inert _ l Hd Hs). cbn [hosts currentHost pendingTags].
      now apply IH.
Qed.

(** Lines of a block that concern the open host alone keep the hosts
    closed so far, the pending tags and the name of the open host. *)
Lemma ownLines_parse (body : list string) :
  forallb ownLine body = true ->
  forall hs h pending,
  exists h',
    parseLines (mkParser hs (Some h) pending) body
    = mkParser hs (Some h') pending
    /\ Name h' = Name h.
Proof.
  induction body as [|l r IH]; intros Hb hs h pending; [now exists h|].
  simpl in Hb. apply andb_true_iff in Hb as [Hl Hr].
  unfold ownLine in Hl. apply andb_true_iff in Hl as [Ht Hd].
  apply negb_true_iff in Ht, Hd.
  destruct (parseLine_no_host l Hd) as (f & Hn & Hf).
  rewrite parseLines_cons, Hf, (lineTags_not_tags _ Ht), app_nil_r.
  cbn. destruct (IH Hr hs (f h) pending) as (h' & E & En).
  exists h'. split; [exact E|]. rewrite En. apply Hn.
Qed.

(** From an open host on, the parser yields that host, with its name
    and tags, and then hosts that do not depend on it. *)
Lemma open_host_run (ls : list string) :
  forall pending,
  exists f rest,
    (forall h, Name (f h) = Name h /\ Tags (f h) = Tags h)
    /\ forall h,
        finish (parseLines (mkParser [] (Some h) pending) ls) = f h :: rest.
Proof.
  induction ls as [|l r IH]; intros pending.
  - exists (fun h => h), []. split; [now intros h|]. reflexivity.
  - destruct (declaresHost l) eqn:Hd.
    + destruct (declaresHost_directive l Hd) as [v Hv].
      exists (fun h => h),
        (finish (parseLines
                   (mkParser [] (Some (mkHost v "" "" "22" "" "" pending)) [])
                   r)).
      split; [now intros h|]. intros h.
      rewrite parseLines_cons, (parseLine_host _ l v Hv).
      cbn [hosts currentHost pendingTags option_list app].
      pose proof (finish_hosts_front [h]
                    (mkParser [] (Some (mkHost v "" "" "22" "" "" pending)) [])
                    r) as F.
      cbn [hosts currentHost pendingTags app] in F. exact F.
    + destruct (parseLine_no_host l Hd) as (g & Hg & Hl).
      destruct (IH (pending ++ lineTags l)) as (f & rest & Hf & Hrun).
      exists (fun h => f (g h)), rest. split.
      * intros h. destruct (Hf (g h)) as [H1 H2]. destruct (Hg h) as [H3 H4].
        split; congruence.
      * intros h. rewrite parseLines_cons, Hl. unfold assign. cbn.
        apply Hrun.
Qed.

End ParserRuns.

Section Lines.

Lemma TrimLeft_TrimRight (s : string) :
  TrimLeft (TrimRight s) = TrimRight (TrimLeft s).
Proof.
  induction s as [|c r IH]; [reflexivity|].
  destruct (isSpace c) eqn:Hc.
  - cbn [TrimLeft]. rewrite Hc, <- IH.
    destruct (string_dec (TrimRight r) "") as [E|N].
    + now rewrite (TrimRight_space_nil c r Hc E), E.
    + rewrite (TrimRight_cons_nonnil c r N). cbn [TrimLeft]. now rewrite Hc.
  - cbn [TrimLeft]. rewrite Hc, (TrimRight_nonspace c r Hc).
    cbn [TrimLeft]. now rewrite Hc.
Qed.

Lemma TrimRight_dropCR (s : string) : TrimRight (Bufio.dropCR s) = TrimRight s.
Proof.
  induction s as [|c r IH]; [reflexivity|].
  destruct r as [|c' r'].
  - cbn [Bufio.dropCR]. destruct (Ascii.eqb c "013") eqn:E; [|reflexivity].
    apply Ascii.eqb_eq in E. subst c. reflexivity.
  - change (Bufio.dropCR (String c (String c' r')))
      with (String c (Bufio.dropCR (String c' r'))).
    cbn [TrimRight]. cbn [TrimRight] in IH. now rewrite IH.
Qed.

Lemma TrimSpace_dropCR (s : string) : TrimSpace (Bufio.dropCR s) = TrimSpace s.
Proof.
  unfold TrimSpace. now rewrite <- !TrimLeft_TrimRight, TrimRight_dropCR.
Qed.

(** The parser reads a line through [TrimSpace] alone. *)
Lemma parseLine_ext (st : parser) (a b : string) :
  TrimSpace a = TrimSpace b -> parseLine st a = parseLine st b.
Proof. intros E. unfold parseLine. now rewrite E. Qed.

Lemma parseLine_dropCR (st : parser) (l : string) :
  parseLine st (Bufio.dropCR l) = parseLine st l.
Proof. apply parseLine_ext, TrimSpace_dropCR. Qed.

Lemma parseLine_empty (st : parser) : parseLine st "" = st.
Proof. reflexivity. Qed.

Lemma parseLines_dropCR (ls : list string) :
  forall st, parseLines st (map Bufio.dropCR ls) = parseLines st ls.
Proof.
  induction ls as [|l r IH]; intros st; [reflexivity|].
  cbn [map]. now rewrite !parseLines_cons, parseLine_dropCR, IH.
Qed.

Lemma Split_nonempty (s : string) (sep : ascii) : Split s sep <> [].
Proof.
  destruct s as [|c r]; simpl; [discriminate|].
  destruct (Ascii.eqb c sep); [discriminate|].
  destruct (Split r sep); discriminate.
Qed.

(** The scanner's lines are the pieces of [Split], but for an empty last
    piece. *)
Lemma Split_rawLines (c : string) :
  exists tl, Split c "010" = Bufio.rawLines c ++ tl /\ (tl = [] \/ tl = [""]).
Proof.
  induction c as [|ch r (tl & E & Htl)].
  - exists [""]. split; [reflexivity|now right].
  - cbn [Split Bufio.rawLines]. destruct (Ascii.eqb ch "010").
    + exists tl. rewrite E. split; [reflexivity|exact Htl].
    + rewrite E. destruct (Bufio.rawLines r) as [|l ls].
      * exists []. pose proof (Split_nonempty r "010") as N. rewrite E in N.
        destruct Htl as [->| ->]; [now elim N|]. split; [reflexivity|now left].
      * exists tl. split; [reflexivity|exact Htl].
Qed.

Lemma scanTokens_fits (ls : list string) :
  forallb fits ls = true ->
  Bufio.scanTokens ls = (map Bufio.dropCR ls, None).
Proof.
  induction ls as [|l r IH]; intros H; [reflexivity|].
  simpl in H. apply andb_true_iff in H as [Hl Hr].
  unfold fits in Hl. apply negb_true_iff in Hl.
  cbn [Bufio.scanTokens map]. now rewrite Hl, (IH Hr).
Qed.

Lemma scanTokens_error (ls : list string) :
  snd (Bufio.scanTokens ls) = None -> forallb fits ls = true.
Proof.
  induction ls as [|l r IH]; [reflexivity|]. cbn [Bufio.scanTokens forallb].
  unfold fits at 1. destruct (Bufio.tooLong l); [discriminate|].
  destruct (Bufio.scanTokens r) as [toks err]. simpl. exact IH.
Qed.

(** A file the scanner reads to the end is parsed line by line. *)
Lemma parseConfig_Split (content : string) :
  forallb fits (Bufio.rawLines content) = true ->
  parseConfig content
  = (finish (parseLines start (Split content "010")), None).
Proof.
  intros H. unfold parseConfig, Bufio.Scan. rewrite (scanTokens_fits _ H).
  rewrite parseLines_dropCR.
  destruct (Split_rawLines content) as (tl & -> & [->| ->]).
  - now rewrite app_nil_r.
  - now rewrite parseLines_app.
Qed.

Lemma parseConfig_accepted (content : string) (hs : list SSHHost) :
  parseConfig content = (hs, None) ->
  forallb fits (Bufio.rawLines content) = true.
Proof.
  unfold parseConfig, Bufio.Scan. intros H. apply scanTokens_error.
  destruct (Bufio.scanTokens _) as [toks err]. now injection H as _ ->.
Qed.

Lemma fits_Split (content : string) :
  forallb fits (Bufio.rawLines content) = true ->
  forallb fits (Split content "010") = true.
Proof.
  intros H. destruct (Split_rawLines content) as (tl & -> & [->| ->]).
  - now rewrite app_nil_r.
  - rewrite forallb_app, H. reflexivity.
Qed.

Lemma fits_rawLines (content : string) :
  forallb fits (Split content "010") = true ->
  forallb fits (Bufio.rawLines content) = true.
Proof.
  destruct (Split_rawLines content) as (tl & -> & _).
  rewrite forallb_app. intros H. now apply andb_true_iff in H as [H _].
Qed.

Lemma Split_oneLine (c : string) : forallb oneLine (Split c "010") = true.
Proof.
  induction c as [|ch r IH]; [reflexivity|]. cbn [Split].
  destruct (Ascii.eqb ch "010") eqn:E; [exact IH|].
  destruct (Split r "010") as [|p ps]; simpl in *.
  - unfold oneLine. simpl. now rewrite E.
  - unfold oneLine at 1. simpl. rewrite E. exact IH.
Qed.

Lemma Split_noByte (a : string) (sep : ascii) :
  noByte sep a = true -> Split a sep = [a].
Proof.
  induction a as [|c r IH]; [reflexivity|]. simpl. intros H.
  apply andb_true_iff in H as [Hc Hr]. apply negb_true_iff in Hc.
  now rewrite Hc, (IH Hr).
Qed.

Lemma Split_app_sep (a b : string) (sep : ascii) :
  noByte sep a = true ->
  Split (a +:+ String sep b) sep = a :: Split b sep.
Proof.
  induction a as [|c r IH]; intros H.
  - simpl. now rewrite Ascii.eqb_refl.
  - simpl in H. apply andb_true_iff in H as [Hc Hr]. apply negb_true_iff in Hc.
    cbn [String.append Split]. now rewrite Hc, (IH Hr).
Qed.

Lemma Join_cons (l : string) (ls : list string) (sep : string) :
  ls <> [] -> Join (l :: ls) sep = l +:+ sep +:+ Join ls sep.
Proof. destruct ls; [now intros N; elim N|reflexivity]. Qed.

Lemma Split_Join (ls : list string) :
  ls <> [] -> forallb oneLine ls = true ->
  Split (Join ls (String "010" "")) "010" = ls.
Proof.
  induction ls as [|l r IH]; intros N H; [now elim N|].
  simpl in H. apply andb_true_iff in H as [Hl Hr].
  destruct r as [|l' r'].
  - simpl. now apply Split_noByte.
  - rewrite Join_cons by discriminate. cbn [String.append].
    rewrite (Split_app_sep l _ "010" Hl). f_equal. now apply IH.
Qed.

(** The file a rewrite writes is parsed as the lines it was joined of. *)
Lemma parseConfig_Join (ls : list string) :
  forallb oneLine ls = true -> forallb fits ls = true ->
  parseConfig (Join ls (String "010" ""))
  = (finish (parseLines start ls), None).
Proof.
  intros Ho Hf. destruct ls as [|l r]; [reflexivity|].
  rewrite parseConfig_Split; rewrite ?Split_Join; trivial; try discriminate.
  apply fits_rawLines. now rewrite Split_Join.
Qed.

Lemma rawLines_unlines (ls : list string) :
  forallb oneLine ls = true -> Bufio.rawLines (unlines ls) = ls.
Proof.
  induction ls as [|l r IH]; intros H; [reflexivity|].
  simpl in H. apply andb_true_iff in H as [Hl Hr]. cbn [unlines].
  specialize (IH Hr). revert Hl. generalize (unlines r) IH. intros u Hu.
  induction l as [|c s IHs]; intros Hl.
  - simpl. now rewrite Hu.
  - simpl in Hl. apply andb_true_iff in Hl as [Hc Hs].
    apply negb_true_iff in Hc. cbn [String.append Bufio.rawLines].
    now rewrite Hc, (IHs Hs).
Qed.

(** The text AddSSHHost appends is parsed as the lines it writes. *)
Lemma parseConfig_unlines (ls : list string) :
  forallb oneLine ls = true -> forallb fits ls = true ->
  parseConfig (unlines ls) = (finish (parseLines start ls), None).
Proof.
  intros Ho Hf. unfold parseConfig, Bufio.Scan.
  rewrite (rawLines_unlines _ Ho), (scanTokens_fits _ Hf).
  now rewrite parseLines_dropCR.
Qed.

End Lines.

Section RenderedLines.

Lemma HasPrefix_first (c : ascii) (r p : string) (d : ascii) :
  Ascii.eqb c d = false -> HasPrefix (String c r) (String d p) = false.
Proof.
  intros H. unfold HasPrefix. simpl.
  destruct (ascii_dec d c) as [->|_]; [|reflexivity].
  now rewrite Ascii.eqb_refl in H.
Qed.

Section OneLine.

Variables (text : string) (c : ascii) (r : string).
Hypothesis Hleft : TrimLeft text = String c r.
Hypothesis Hc : isSpace c = false.
Hypothesis Hhash : Ascii.eqb c "#" = false.

Lemma TrimSpace_first : TrimSpace text = String c (TrimRight r).
Proof. unfold TrimSpace. rewrite Hleft. now apply TrimRight_nonspace. Qed.

Lemma first_not_tags : isTagsLine text = false.
Proof.
  unfold isTagsLine. rewrite TrimSpace_first. now apply HasPrefix_first.
Qed.

Lemma directive_fields (key v : string) (vs : list string) :
  Fields text = key :: v :: vs ->
  directive text = Some (ToLower key, Join (v :: vs) " ").
Proof.
  intros F. unfold directive. rewrite Fields_TrimSpace, F, TrimSpace_first.
  cbn [String.eqb]. now rewrite (HasPrefix_first c _ "" "#" Hhash).
Qed.

Lemma directive_short (key : string) :
  Fields text = [key] -> directive text = None.
Proof.
  intros F. unfold directive. rewrite Fields_TrimSpace, F, TrimSpace_first.
  cbn [String.eqb]. now rewrite (HasPrefix_first c _ "" "#" Hhash).
Qed.

(** A line [<key> <v>] as the mutators write it. *)
Lemma parseLine_rendered (st : parser) (key v : string) :
  Fields text = key :: Fields v ->
  parseLine st text
  = match Fields v with
    | [] => st
    | _ => act st (ToLower key) (Join (Fields v) " ")
    end.
Proof.
  intros F. destruct (Fields v) as [|v1 vs].
  - apply parseLine_other; [apply first_not_tags|].
    now apply directive_short with key.
  - now apply parseLine_directive, directive_fields.
Qed.

Lemma keyOf_rendered (key v : string) :
  Fields text = key :: Fields v ->
  keyOf text = match Fields v with [] => None | _ => Some (ToLower key) end.
Proof.
  intros F. unfold keyOf. destruct (Fields v) as [|v1 vs].
  - now rewrite (directive_short key F).
  - now rewrite (directive_fields key v1 vs F).
Qed.

End OneLine.

Ltac fields_of v := unfold Fields; simpl; destruct (tokens v); reflexivity.

Lemma parseLine_Host (st : parser) (v : string) :
  parseLine st ("Host " +:+ v)
  = match Fields v with [] => st | _ => act st "host" (Join (Fields v) " ") end.
Proof.
  apply (parseLine_rendered ("Host " +:+ v) "H" ("ost " +:+ v)
           eq_refl eq_refl eq_refl
           st "Host" v).
  fields_of v.
Qed.

Lemma parseLine_HostName (st : parser) (v : string) :
  parseLine st ("    HostName " +:+ v)
  = match Fields v with
    | [] => st
    | _ => act st "hostname" (Join (Fields v) " ")
    end.
Proof.
  apply (parseLine_rendered ("    HostName " +:+ v) "H" ("ostName " +:+ v)
           eq_refl eq_refl eq_refl
           st "HostName" v).
  fields_of v.
Qed.

Lemma parseLine_User (st : parser) (v : string) :
  parseLine st ("    User " +:+ v)
  = match Fields v with [] => st | _ => act st "user" (Join (Fields v) " ") end.
Proof.
  apply (parseLine_rendered ("    User " +:+ v) "U" ("ser " +:+ v)
           eq_refl eq_refl eq_refl
           st "User" v).
  fields_of v.
Qed.

Lemma parseLine_Port (st : parser) (v : string) :
  parseLine st ("    Port " +:+ v)
  = match Fields v with [] => st | _ => act st "port" (Join (Fields v) " ") end.
Proof.
  apply (parseLine_rendered ("    Port " +:+ v) "P" ("ort " +:+ v)
           eq_refl eq_refl eq_refl
           st "Port" v).
  fields_of v.
Qed.

Lemma parseLine_IdentityFile (st : parser) (v : string) :
  parseLine st ("    IdentityFile " +:+ v)
  = match Fields v with
    | [] => st
    | _ => act st "identityfile" (Join (Fields v) " ")
    end.
Proof.
  apply (parseLine_rendered ("    IdentityFile " +:+ v) "I" ("dentityFile " +:+ v)
           eq_refl eq_refl eq_refl
           st "IdentityFile" v).
  fields_of v.
Qed.

Lemma parseLine_ProxyJump (st : parser) (v : string) :
  parseLine st ("    ProxyJump " +:+ v)
  = match Fields v with
    | [] => st
    | _ => act st "proxyjump" (Join (Fields v) " ")
    end.
Proof.
  apply (parseLine_rendered ("    ProxyJump " +:+ v) "P" ("roxyJump " +:+ v)
           eq_refl eq_refl eq_refl
           st "ProxyJump" v).
  fields_of v.
Qed.

Lemma TrimRight_app_nonnil (a b : string) :
  TrimRight b <> "" -> TrimRight (a +:+ b) = a +:+ TrimRight b.
Proof.
  intros N. induction a as [|c r IH]; [reflexivity|].
  cbn [String.append]. rewrite TrimRight_cons_nonnil; rewrite IH; trivial.
  destruct r; simpl; [exact N|discriminate].
Qed.

Lemma TrimRight_tags_prefix (y : string) :
  TrimRight ("# Tags:" +:+ y) = "# Tags:" +:+ TrimRight y.
Proof.
  change ("# Tags:" +:+ y)
    with (String "#" (String " " (String "T" (String "a" (String "g"
           (String "s" (String ":" y))))))).
  rewrite (TrimRight_nonspace "#") by reflexivity.
  rewrite TrimRight_cons_nonnil; rewrite !TrimRight_nonspace by reflexivity;
    [reflexivity|discriminate].
Qed.

(** The tags line the mutators write is a tags line whatever the tags. *)
Lemma tags_line_is_tags (x : string) : isTagsLine ("# Tags: " +:+ x) = true.
Proof.
  unfold isTagsLine, TrimSpace.
  change (TrimLeft ("# Tags: " +:+ x)) with ("# Tags:" +:+ String " " x).
  rewrite TrimRight_tags_prefix. apply HasPrefix_app.
Qed.

End RenderedLines.

Section Appending.

Lemma WriteString_held (p c t : string) (h : option string)
    (fs : gmap string string) :
  Os.WriteString p t (mkWorld h (<[p := c]> fs))
  = (Ok tt, mkWorld h (<[p := c +:+ t]> fs)).
Proof.
  unfold Os.WriteString. cbn [files home].
  now rewrite lookup_insert_eq, insert_insert_eq.
Qed.

Lemma when_WriteString (b : bool) (p c t : string) (h : option string)
    (fs : gmap string string) :
  when b (Os.WriteString p t) (mkWorld h (<[p := c]> fs))
  = (Ok tt, mkWorld h (<[p := c +:+ (if b then t else "")]> fs)).
Proof.
  destruct b; simpl.
  - apply WriteString_held.
  - now rewrite append_nil_r.
Qed.

Lemma unlines_app (a b : list string) :
  unlines (a ++ b) = unlines a +:+ unlines b.
Proof.
  induction a as [|l r IH]; [reflexivity|]. cbn [app unlines].
  rewrite IH. change (String "010" (unlines r +:+ unlines b))
    with (String "010" (unlines r) +:+ unlines b).
  now rewrite append_assoc.
Qed.

Lemma unlines_if (b : bool) (l : string) :
  unlines (if b then [l] else []) = if b then l +:+ String "010" "" else "".
Proof. now destruct b. Qed.

Lemma addBlock_text (host : SSHHost) :
  addBlock host
  = String "010" ""
    +:+ (if 0 <? length (Tags host)
         then "# Tags: " +:+ Join (Tags host) ", " +:+ String "010" "" else "")
    +:+ ("Host " +:+ Name host +:+ String "010" "")
    +:+ ("    HostName " +:+ Hostname host +:+ String "010" "")
    +:+ (if nonEmpty (User host)
         then "    User " +:+ User host +:+ String "010" "" else "")
    +:+ (if nonEmpty (Port host) && negb (String.eqb (Port host) "22")
         then "    Port " +:+ Port host +:+ String "010" "" else "")
    +:+ (if nonEmpty (Identity host)
         then "    IdentityFile " +:+ Identity host +:+ String "010" "" else "")
    +:+ (if nonEmpty (ProxyJump host)
         then "    ProxyJump " +:+ ProxyJump host +:+ String "010" "" else "").
Proof.
  unfold addBlock, addLines. rewrite !unlines_app, !unlines_if.
  cbn [unlines]. rewrite !append_assoc.
  repeat match goal with
         | |- context [if ?b then _ else _] => destruct b
         end; cbn [String.append]; rewrite ?append_assoc, ?append_nil_r;
    reflexivity.
Qed.

(** AddSSHHost on a config file that does not list the name: the
    backup is taken and the block is appended. *)
Lemma AddSSHHost_run (host : SSHHost) (w : World)
    (homeDir content : string) (listed : list SSHHost) :
  home w = Some homeDir ->
  files w !! Os.configPathOf homeDir = Some content ->
  parseConfig content = (listed, None) ->
  ~ In (Name host) (map Name listed) ->
  AddSSHHost host w
  = (Ok tt,
     mkWorld (home w)
       (<[Os.configPathOf homeDir := content +:+ addBlock host]>
          (<[Os.configPathOf homeDir +:+ ".backup" := content]> (files w)))).
Proof.
  intros Hh Hf Hp Hn.
  unfold AddSSHHost, mbind, M_bind, Os.UserHomeDir, Os.Exists.
  rewrite Hh, Hf. rewrite bool_decide_eq_true_2 by (now exists content).
  cbn [when]. unfold wrapErr. rewrite (backupConfig_ok _ content) by exact Hf.
  unfold checked, HostExists, ParseSSHConfig, ParseSSHConfigFile.
  cbn [home files]. rewrite Hh, (lookup_after_backup _ _ _ Hf), Hp.
  assert (Hex : existsb (fun h => String.eqb (Name h) (Name host)) listed = false).
  { destruct (existsb _ listed) eqn:E; [|reflexivity].
    apply existsb_name in E. now elim Hn. }
  rewrite Hex. unfold Os.OpenAppend. cbn [files home].
  rewrite (lookup_after_backup _ _ _ Hf).
  rewrite <- (insert_id (<[_ := content]> (files w)) (Os.configPathOf homeDir)
                content) at 1 by (now apply lookup_after_backup).
  rewrite WriteString_held.

  repeat (rewrite ?when_WriteString, ?WriteString_held).
  rewrite addBlock_text, !append_assoc. reflexivity.
Qed.

End Appending.

Section DefaultPort.

Lemma nonBlank_Fields (s : string) : nonBlank s = true -> Fields s <> [].
Proof.
  unfold nonBlank. intros H F. apply negb_true_iff in H.
  now rewrite (Fields_nil_TrimSpace _ F) in H.
Qed.

Lemma nonEmpty_true (s : string) : nonEmpty s = true <-> s <> "".
Proof.
  unfold nonEmpty. rewrite negb_true_iff. apply String.eqb_neq.
Qed.

Lemma nonEmpty_false (s : string) : nonEmpty s = false <-> s = "".
Proof.
  unfold nonEmpty. rewrite negb_false_iff. apply String.eqb_eq.
Qed.

(** The Port line is among the lines of a block exactly when the port is
    neither empty nor "22". *)
Lemma port_line_written (host : SSHHost) :
  (exists l, In l (addLines host) /\ HasPrefix l "    Port " = true)
  <-> Port host <> "" /\ Port host <> "22".
Proof.
  unfold addLines. split.
  - intros (l & Hin & Hp).
    destruct (nonEmpty (Port host) && negb (String.eqb (Port host) "22")) eqn:E.
    + apply andb_true_iff in E as [E1 E2]. apply nonEmpty_true in E1.
      apply negb_true_iff, String.eqb_neq in E2. now split.
    + rewrite !in_app_iff in Hin.
      repeat match type of Hin with
             | _ \/ _ => destruct Hin as [Hin|Hin]
             | In _ (if ?b then _ else _) => destruct b
             | In _ [_] => destruct Hin as [<-|[]]
             | In _ [] => destruct Hin
             end; try discriminate Hp.
  - intros [H1 H2]. exists ("    Port " +:+ Port host). split.
    + apply nonEmpty_true in H1. apply String.eqb_neq in H2.
      rewrite H1, H2. cbn [andb negb]. rewrite !in_app_iff.
      do 5 right. left. now left.
    + apply HasPrefix_app.
Qed.

Lemma keepsPort_field (text key v : string) (f : string -> SSHHost -> SSHHost) :
  (forall st, parseLine st text
              = match Fields v with
                | [] => st
                | _ => assign (f (Join (Fields v) " ")) st
                end) ->
  (forall x h, Port (f x h) = Port h /\ Name (f x h) = Name h) ->
  keepsPort text.
Proof.
  intros Hp Hf. destruct (Fields v) as [|v1 vs] eqn:F.
  - exists (fun h => h). split; [now intros h|].
    intros st. now rewrite Hp, assign_id.
  - exists (f (Join (v1 :: vs) " ")). split; [apply Hf|exact Hp].
Qed.

Lemma keepsPort_HostName (v : string) : keepsPort ("    HostName " +:+ v).
Proof.
  apply (keepsPort_field _ "hostname" v setHostname);
    [intros st; apply parseLine_HostName|now intros x h].
Qed.

Lemma keepsPort_User (v : string) : keepsPort ("    User " +:+ v).
Proof.
  apply (keepsPort_field _ "user" v setUser);
    [intros st; apply parseLine_User|now intros x h].
Qed.

Lemma keepsPort_IdentityFile (v : string) :
  keepsPort ("    IdentityFile " +:+ v).
Proof.
  apply (keepsPort_field _ "identityfile" v setIdentity);
    [intros st; apply parseLine_IdentityFile|now intros x h].
Qed.

Lemma keepsPort_ProxyJump (v : string) : keepsPort ("    ProxyJump " +:+ v).
Proof.
  apply (keepsPort_field _ "proxyjump" v setProxyJump);
    [intros st; apply parseLine_ProxyJump|now intros x h].
Qed.

Lemma keepsPort_run (ls : list string) :
  Forall keepsPort ls ->
  forall e, exists e',
      parseLines (mkParser [] (Some e) []) ls = mkParser [] (Some e') []
      /\ Port e' = Port e /\ Name e' = Name e.
Proof.
  induction 1 as [|l r (f & Hf & Hl) _ IH]; intros e; [now exists e|].
  rewrite parseLines_cons, Hl. unfold assign. cbn.
  destruct (IH (f e)) as (e' & E & Hp & Hn). exists e'.
  destruct (Hf e) as [Hp' Hn']. split; [exact E|]. split; congruence.
Qed.

Lemma keyOf_field_other (target text key v : string) (c : ascii) (r : string) :
  TrimLeft text = String c r -> isSpace c = false -> Ascii.eqb c "#" = false ->
  Fields text = key :: Fields v ->
  ToLower key <> target ->
  keyOf text <> Some target.
Proof.
  intros H1 H2 H3 F N. rewrite (keyOf_rendered text c r H1 H2 H3 key v F).
  destruct (Fields v); [discriminate|]. congruence.
Qed.

Lemma keyOf_field (text key v : string) (c : ascii) (r : string) :
  TrimLeft text = String c r -> isSpace c = false -> Ascii.eqb c "#" = false ->
  Fields text = key :: Fields v ->
  ToLower key <> "port" ->
  keyOf text <> Some "port".
Proof.
  intros H1 H2 H3 F N. rewrite (keyOf_rendered text c r H1 H2 H3 key v F).
  destruct (Fields v); [discriminate|]. congruence.
Qed.

Lemma keyOf_tags_line (x : string) : keyOf ("# Tags: " +:+ x) = None.
Proof.
  unfold keyOf. destruct (directive _) as [kv|] eqn:E; [|reflexivity].
  apply directive_not_tags in E. now rewrite tags_line_is_tags in E.
Qed.

(** Apart from the one that renders the port, no line of a block is
    read as a Port directive. *)
Lemma no_port_key (host : SSHHost) :
  Port host = "" \/ Port host = "22" ->
  Forall (fun l => HasPrefix l "    Port " = false /\ keyOf l <> Some "port")
         (addLines host).
Proof.
  intros Hport. unfold addLines.
  assert (E : nonEmpty (Port host) && negb (String.eqb (Port host) "22") = false)
    by (destruct Hport as [-> | ->]; reflexivity).
  rewrite E.
  repeat match goal with
         | |- Forall _ (_ ++ _) => apply Forall_app; split
         | |- Forall _ (if ?b then _ else _) => destruct b
         | |- Forall _ [] => constructor
         | |- Forall _ [_] => constructor; [split|constructor]
         end; try reflexivity; try discriminate.
  - now rewrite keyOf_tags_line.
  - apply (keyOf_field _ "Host" (Name host) "H" ("ost " +:+ Name host));
      try reflexivity; [|discriminate].
    unfold Fields; simpl; destruct (tokens (Name host)); reflexivity.
  - apply (keyOf_field _ "HostName" (Hostname host) "H"
             ("ostName " +:+ Hostname host)); try reflexivity; [|discriminate].
    unfold Fields; simpl; destruct (tokens (Hostname host)); reflexivity.
  - apply (keyOf_field _ "User" (User host) "U" ("ser " +:+ User host));
      try reflexivity; [|discriminate].
    unfold Fields; simpl; destruct (tokens (User host)); reflexivity.
  - apply (keyOf_field _ "IdentityFile" (Identity host) "I"
             ("dentityFile " +:+ Identity host)); try reflexivity; [|discriminate].
    unfold Fields; simpl; destruct (tokens (Identity host)); reflexivity.
  - apply (keyOf_field _ "ProxyJump" (ProxyJump host) "P"
             ("roxyJump " +:+ ProxyJump host)); try reflexivity; [|discriminate].
    unfold Fields; simpl; destruct (tokens (ProxyJump host)); reflexivity.
Qed.

(** The lines of a block without a Port line are parsed to one host on
    the default port. *)
Lemma block_parse_default_port (host : SSHHost) :
  Port host = "" \/ Port host = "22" ->
  nonBlank (Name host) = true ->
  exists e,
    finish (parseLines start (addLines host)) = [e]
    /\ Port e = "22" /\ Name e = Join (Fields (Name host)) " ".
Proof.
  intros Hport Hname. unfold addLines.
  assert (E : nonEmpty (Port host) && negb (String.eqb (Port host) "22") = false)
    by (destruct Hport as [-> | ->]; reflexivity).
  rewrite E.
  match goal with
  | |- context [["Host " +:+ Name host] ++ ?x] =>
      assert (Hfl : Forall keepsPort x); [|generalize dependent x]
  end; [|intros fl Hfl].
  { repeat match goal with
           | |- Forall _ (_ ++ _) => apply Forall_app; split
           | |- Forall _ (if ?b then _ else _) => destruct b
           | |- Forall _ [] => constructor
           | |- Forall _ [_] => constructor; [|constructor]
           end.
    - apply keepsPort_HostName.
    - apply keepsPort_User.
    - apply keepsPort_IdentityFile.
    - apply keepsPort_ProxyJump. }
  assert (Hhost : forall pending, exists e0,
            parseLines (parseLine (mkParser [] None pending)
                                  ("Host " +:+ Name host)) fl
            = mkParser [] (Some e0) []
            /\ Port e0 = "22" /\ Name e0 = Join (Fields (Name host)) " ").
  { intros pending. rewrite parseLine_Host.
    pose proof (nonBlank_Fields _ Hname) as N.
    destruct (Fields (Name host)) as [|n ns] eqn:F; [now elim N|].
    unfold act. cbn [String.eqb Ascii.eqb Bool.eqb hosts currentHost
                     pendingTags option_list app].
    now apply keepsPort_run. }
  destruct (0 <? length (Tags host)); cbn [app];
    rewrite !parseLines_cons, parseLine_empty.
  - rewrite (parseLine_tags _ _ (tags_line_is_tags _)).
    cbn [hosts currentHost pendingTags app start].
    destruct (Hhost (lineTags ("# Tags: " +:+ Join (Tags host) ", ")))
      as (e0 & -> & Hp & Hn).
    now exists e0.
  - unfold start. destruct (Hhost []) as (e0 & -> & Hp & Hn). now exists e0.
Qed.

End DefaultPort.

Section Trimmed.

(** A string without white space at either end, and not empty. *)
Lemma trimmed_elim (s : string) :
  TrimSpace s = s -> s <> "" ->
  (exists c r, s = String c r /\ isSpace c = false) /\ TrimRight s = s.
Proof.
  intros E N. split.
  - destruct (TrimSpace_head s) as [Z|(c & r & _ & Hc & T)].
    + rewrite Z in E. now elim N.
    + exists c, (TrimRight r). rewrite <- E at 1. now split.
  - rewrite <- E at 1. unfold TrimSpace. rewrite TrimRight_idem. exact E.
Qed.

Lemma trimmed_intro (c : ascii) (r : string) :
  isSpace c = false -> TrimRight (String c r) = String c r ->
  TrimSpace (String c r) = String c r.
Proof. intros Hc E. unfold TrimSpace. cbn [TrimLeft]. now rewrite Hc. Qed.

Lemma trimmed_app (a m b : string) :
  TrimSpace a = a -> a <> "" -> TrimSpace b = b -> b <> "" ->
  TrimSpace (a +:+ m +:+ b) = a +:+ m +:+ b /\ a +:+ m +:+ b <> "".
Proof.
  intros Ea Na Eb Nb.
  destruct (trimmed_elim a Ea Na) as [(c & r & -> & Hc) _].
  destruct (trimmed_elim b Eb Nb) as [_ Tb].
  split; [|discriminate]. cbn [String.append]. apply trimmed_intro; [exact Hc|].
  change (String c (r +:+ m +:+ b)) with (String c r +:+ m +:+ b).
  rewrite <- append_assoc, TrimRight_app_nonnil; rewrite Tb; trivial.
Qed.

Lemma cleanTag_elim (t : string) :
  cleanTag t = true ->
  t <> "" /\ TrimSpace t = t /\ noByte "," t = true /\ oneLine t = true.
Proof.
  unfold cleanTag. rewrite !andb_true_iff. intros (((H1 & H2) & H3) & H4).
  apply nonEmpty_true in H1. apply String.eqb_eq in H2. now repeat split.
Qed.

Lemma trimmed_Join (tags : list string) :
  tags <> [] -> forallb cleanTag tags = true ->
  TrimSpace (Join tags ", ") = Join tags ", " /\ Join tags ", " <> "".
Proof.
  induction tags as [|t [|t' r] IH]; intros N H; [now elim N| |].
  - simpl in H. rewrite andb_true_r in H.
    destruct (cleanTag_elim t H) as (H1 & H2 & _). now split.
  - cbn [forallb] in H. apply andb_true_iff in H as [Ht Hr].
    destruct (cleanTag_elim t Ht) as (H1 & H2 & _).
    destruct (IH ltac:(discriminate) Hr) as [E1 E2].
    rewrite Join_cons by discriminate. now apply trimmed_app.
Qed.

Lemma TrimSpace_space (s : string) : TrimSpace (String " " s) = TrimSpace s.
Proof. reflexivity. Qed.

Lemma Split_comma_Join (tags : list string) :
  tags <> [] -> forallb cleanTag tags = true ->
  map TrimSpace (Split (Join tags ", ") ",") = tags.
Proof.
  induction tags as [|t [|t' r] IH]; intros N H; [now elim N| |].
  - simpl in H. rewrite andb_true_r in H.
    destruct (cleanTag_elim t H) as (_ & H2 & H3 & _).
    simpl. rewrite (Split_noByte t "," H3). simpl. now rewrite H2.
  - cbn [forallb] in H. apply andb_true_iff in H as [Ht Hr].
    destruct (cleanTag_elim t Ht) as (_ & H2 & H3 & _).
    specialize (IH ltac:(discriminate) Hr).
    rewrite Join_cons by discriminate.
    change (t +:+ ", " +:+ Join (t' :: r) ", ")
      with (t +:+ String "," (String " " (Join (t' :: r) ", "))).
    rewrite (Split_app_sep t _ "," H3). cbn [map]. rewrite H2. f_equal.
    cbn [Split Ascii.eqb Bool.eqb].
    destruct (Split (Join (t' :: r) ", ") ",") as [|p ps] eqn:E.
    + now elim (Split_nonempty _ _ E).
    + cbn [map] in *. now rewrite TrimSpace_space.
Qed.

(** The tags line of a block is read back as the tags it was written
    from. *)
Lemma lineTags_rendered (tags : list string) :
  tags <> [] -> forallb cleanTag tags = true ->
  lineTags ("# Tags: " +:+ Join tags ", ") = tags.
Proof.
  intros N H. unfold lineTags. rewrite tags_line_is_tags.
  destruct (trimmed_Join tags N H) as [E1 E2].
  destruct (trimmed_elim _ E1 E2) as [_ T].
  assert (Et : TrimSpace ("# Tags: " +:+ Join tags ", ")
               = "# Tags:" +:+ String " " (Join tags ", ")).
  { unfold TrimSpace.
    change (TrimLeft ("# Tags: " +:+ Join tags ", "))
      with ("# Tags:" +:+ String " " (Join tags ", ")).
    rewrite TrimRight_tags_prefix, TrimRight_cons_nonnil; rewrite T; trivial. }
  rewrite Et.
  change (TrimPrefix ("# Tags:" +:+ String " " (Join tags ", ")) "# Tags:")
    with (String " " (Join tags ", ")).
  rewrite TrimSpace_space, E1, (Split_comma_Join tags N H).
  clear -H. induction tags as [|t r IH]; [reflexivity|].
  cbn [forallb] in H. apply andb_true_iff in H as [Ht Hr].
  destruct (cleanTag_elim t Ht) as (H1 & _). apply nonEmpty_true in H1.
  cbn [List.filter]. now rewrite H1, (IH Hr).
Qed.

Lemma normalValue_elim (v : string) :
  normalValue v = true ->
  (Fields v = [] /\ v = "") \/ (Fields v <> [] /\ Join (Fields v) " " = v).
Proof.
  unfold normalValue. intros H. apply String.eqb_eq in H.
  destruct (Fields v) eqn:F; [left|right; split; [discriminate|exact H]].
  split; [reflexivity|]. now rewrite <- H.
Qed.

Lemma normalValue_nonEmpty (v : string) :
  normalValue v = true -> v <> "" ->
  Fields v <> [] /\ Join (Fields v) " " = v.
Proof.
  intros H N. destruct (normalValue_elim v H) as [[_ E]|R]; [now elim N|exact R].
Qed.

End Trimmed.

Section Blocks.

(** A line that starts, trimmed, with [Host ] opens a host, named by
    the tokens after the first. *)
Lemma Host_prefix_directive (h : string) :
  HasPrefix (TrimSpace h) "Host " = true ->
  exists v vs, Fields h = "Host" :: v :: vs
               /\ directive h = Some ("host", Join (v :: vs) " ").
Proof.
  intros H. destruct (Host_prefix_token h H) as (rest & E & F).
  unfold directive. rewrite <- (Fields_TrimSpace h), E, Fields_Host.
  destruct (Fields rest) as [|v vs]; [now elim F|].
  now exists v, vs.
Qed.

Lemma tagsHit_elim (name t h : string) :
  tagsHit name t h = true ->
  isTagsLine t = true /\ TrimSpace h = "Host " +:+ name.
Proof.
  unfold tagsHit, isTagsLine. intros H. apply andb_true_iff in H as [H1 H2].
  apply String.eqb_eq in H2. now split.
Qed.

Lemma bareHit_elim (name h : string) :
  bareHit name h = true ->
  HasPrefix (TrimSpace h) "Host " = true /\ Fields h !! 1 = Some name.
Proof.
  unfold bareHit. intros H. apply andb_true_iff in H as [H1 H2].
  split; [exact H1|]. rewrite Fields_TrimSpace in H2.
  destruct (Fields h !! 1) as [tok|]; [|discriminate].
  apply String.eqb_eq in H2. now subst tok.
Qed.

(** The located block is parsed to one host, which it opens and which
    is still open at its end; for a one-token [name] it is named by
    [name] and the further tokens of its Host line. *)
Lemma span_parse (name : string) (pre span post : list string) :
  located name pre span post = true ->
  forallb ownLine (blockBody name span) = true ->
  forall hs cur, exists B,
    parseLines (mkParser hs cur []) span
    = mkParser (hs ++ option_list cur) (Some B) []
    /\ (Fields name = [name] ->
        exists more, Name B = Join (name :: more) " ").
Proof.
  unfold located. intros H Hbody hs cur.
  apply andb_true_iff in H as [H _]. apply andb_true_iff in H as [_ Hspan].
  assert (Hhost : forall h body pending,
            HasPrefix (TrimSpace h) "Host " = true ->
            forallb ownLine body = true ->
            exists B, parseLines (mkParser hs cur pending) (h :: body)
                      = mkParser (hs ++ option_list cur) (Some B) []
                      /\ exists v vs, Fields h = "Host" :: v :: vs
                                      /\ Name B = Join (v :: vs) " ").
  { intros h body pending Hp Hb.
    destruct (Host_prefix_directive h Hp) as (v & vs & F & Hv).
    rewrite parseLines_cons, (parseLine_host _ h _ Hv).
    cbn [hosts currentHost pendingTags].
    destruct (ownLines_parse body Hb (hs ++ option_list cur)
                (mkHost (Join (v :: vs) " ") "" "" "22" "" "" pending) [])
      as (B & E & En).
    exists B. split; [exact E|]. now exists v, vs. }
  destruct span as [|t [|h body]]; [discriminate| |].
  - destruct (bareHit_elim _ _ Hspan) as [Hp H1].
    destruct (Hhost t [] [] Hp eq_refl) as (B & E & v & vs & F & En).
    exists B. split; [exact E|]. intros _. exists vs.
    rewrite F in H1. injection H1 as ->. exact En.
  - cbn [blockBody] in Hbody. destruct (tagsHit name t h) eqn:Ht.
    + destruct (tagsHit_elim _ _ _ Ht) as [Htl Eh].
      assert (Hp : HasPrefix (TrimSpace h) "Host " = true)
        by (rewrite Eh; apply HasPrefix_app).
      rewrite parseLines_cons, (parseLine_tags _ t Htl).
      cbn [hosts currentHost pendingTags].
      destruct (Hhost h body ([] ++ lineTags t) Hp Hbody)
        as (B & E & v & vs & F & En).
      exists B. split; [exact E|]. intros Hone. exists [].
      rewrite <- (Fields_TrimSpace h), Eh, Fields_Host, Hone in F.
      injection F as <- <-. exact En.
    + apply andb_true_iff in Hspan as [Hb _].
      destruct (bareHit_elim _ _ Hb) as [Hp H1].
      destruct (Hhost t (h :: body) [] Hp Hbody) as (B & E & v & vs & F & En).
      exists B. split; [exact E|]. intros _. exists vs.
      rewrite F in H1. injection H1 as ->. exact En.
Qed.

Lemma blank_directive (b : string) :
  TrimSpace b = "" -> directive b = None /\ isTagsLine b = false.
Proof. intros E. unfold directive, isTagsLine. now rewrite E. Qed.

Lemma dropBlank_parse (post : list string) (st : parser) :
  parseLines st (dropBlank post) = parseLines st post.
Proof.
  destruct post as [|b r]; [reflexivity|]. cbn [dropBlank].
  destruct (String.eqb (TrimSpace b) "") eqn:E; [|reflexivity].
  apply String.eqb_eq in E. destruct (blank_directive b E) as [Hd Ht].
  now rewrite parseLines_cons, (parseLine_other st b Ht Hd).
Qed.

Lemma dropBlank_quiet (post : list string) :
  quiet post = true -> quiet (dropBlank post) = true.
Proof.
  destruct post as [|b r]; [reflexivity|]. cbn [dropBlank].
  destruct (String.eqb (TrimSpace b) "") eqn:E; [|trivial].
  apply String.eqb_eq in E. destruct (blank_directive b E) as [Hd _].
  cbn [quiet]. unfold declaresHost, setsField, keyOf. rewrite Hd. simpl.
  trivial.
Qed.

Lemma restAfter_parse (eat : bool) (post : list string) (st : parser) :
  parseLines st (restAfter eat post) = parseLines st post.
Proof. destruct eat; [apply dropBlank_parse|reflexivity]. Qed.

Lemma restAfter_quiet (eat : bool) (post : list string) :
  quiet post = true -> quiet (restAfter eat post) = true.
Proof. destruct eat; [apply dropBlank_quiet|trivial]. Qed.

Variables (name : string) (pre span post : list string).
Hypothesis Hlocated : located name pre span post = true.
Hypothesis Hpending : pendingTags (parseLines start pre) = [].
Hypothesis Hbody : forallb ownLine (blockBody name span) = true.
Hypothesis Hquiet : quiet post = true.

(** The hosts of the file: those before the block, the host of the
    block, those after it. *)
Lemma located_parse :
  exists B,
    finish (parseLines start (pre ++ span ++ post))
    = finish (parseLines start pre) ++ [B] ++ finish (parseLines start post)
    /\ (Fields name = [name] ->
        exists more, Name B = Join (name :: more) " ").
Proof.
  rewrite !parseLines_app.
  destruct (parseLines start pre) as [hs cur pending] eqn:E.
  cbn [pendingTags] in Hpending. subst pending.
  destruct (span_parse name pre span post Hlocated Hbody hs cur)
    as (B & -> & Hname).
  exists B. split; [|exact Hname].
  rewrite (quiet_finish post Hquiet). unfold finish at 2.
  cbn [hosts currentHost option_list]. reflexivity.
Qed.

(** The hosts of the file once the block is replaced by lines that are
    parsed to the host [B']. *)
Lemma replaced_parse (eat : bool) (block : list string) (B' : list SSHHost) :
  (forall hs cur,
      parseLines (mkParser hs cur []) block
      = match B' with
        | [] => mkParser hs cur []
        | b :: _ => mkParser (hs ++ option_list cur) (Some b) []
        end) ->
  length B' <= 1 ->
  finish (parseLines start (pre ++ block ++ restAfter eat post))
  = finish (parseLines start pre) ++ B' ++ finish (parseLines start post).
Proof.
  intros Hblock Hlen. rewrite !parseLines_app, restAfter_parse.
  destruct (parseLines start pre) as [hs cur pending] eqn:E.
  cbn [pendingTags] in Hpending. subst pending. rewrite Hblock.
  destruct B' as [|b [|b' r]]; [| |simpl in Hlen; lia].
  - rewrite (quiet_finish post Hquiet). unfold finish at 2.
    cbn [hosts currentHost app]. now rewrite <- app_assoc.
  - rewrite (quiet_finish post Hquiet). unfold finish at 2.
    cbn [hosts currentHost option_list]. reflexivity.
Qed.

End Blocks.

Section NewBlock.

(** The block UpdateSSHHost writes for a normal entry without a jump
    host is parsed back to the entry. *)
Lemma updateBlock_parse (newHost : SSHHost) :
  normalEntry newHost = true -> ProxyJump newHost = "" ->
  forall hs cur,
    parseLines (mkParser hs cur []) (updateBlock newHost)
    = mkParser (hs ++ option_list cur) (Some newHost) [].
Proof.
  destruct newHost as [n hn u p id pj tags]. unfold normalEntry.
  cbn [Name Hostname User Port Identity ProxyJump Tags].
  rewrite !andb_true_iff.
  intros ((((((((Hn1 & Hn2) & Hhn) & Hu) & Hp1) & Hp2) & Hid) & _) & Htags) ->.
  intros hs cur. unfold updateBlock.
  cbn [Name Hostname User Port Identity ProxyJump Tags].
  apply nonEmpty_true in Hn1, Hp1.
  destruct (normalValue_nonEmpty n Hn2 Hn1) as [Fn Jn].
  rewrite !parseLines_app.
  change (parseLines (mkParser hs cur []) [""]) with (mkParser hs cur []).
  (* the tags line *)
  assert (E0 : parseLines (mkParser hs cur [])
                 (if 0 <? length tags then ["# Tags: " +:+ Join tags ", "] else [])
               = mkParser hs cur tags).
  { destruct tags as [|t r]; [reflexivity|].
    change (0 <? length (t :: r)) with true. cbv iota.
    rewrite parseLines_cons, (parseLine_tags _ _ (tags_line_is_tags _)).
    cbn [hosts currentHost pendingTags app].
    now rewrite (lineTags_rendered (t :: r)) by (trivial; discriminate). }
  rewrite E0. clear E0.
  (* the Host line *)
  assert (E1 : parseLines (mkParser hs cur tags) ["Host " +:+ n]
               = mkParser (hs ++ option_list cur)
                          (Some (mkHost n "" "" "22" "" "" tags)) []).
  { rewrite parseLines_cons, parseLine_Host.
    destruct (Fields n) as [|n1 ns]; [now elim Fn|]. now rewrite Jn. }
  rewrite E1. clear E1.
  (* HostName *)
  assert (E2 : parseLines (mkParser (hs ++ option_list cur)
                             (Some (mkHost n "" "" "22" "" "" tags)) [])
                          ["    HostName " +:+ hn]
               = mkParser (hs ++ option_list cur)
                          (Some (mkHost n hn "" "22" "" "" tags)) []).
  { rewrite parseLines_cons, parseLine_HostName.
    destruct (normalValue_elim hn Hhn) as [[-> ->]|[F J]]; [reflexivity|].
    destruct (Fields hn); [now elim F|]. now rewrite J. }
  rewrite E2. clear E2.
  (* User *)
  assert (E3 : parseLines (mkParser (hs ++ option_list cur)
                             (Some (mkHost n hn "" "22" "" "" tags)) [])
                          (if nonEmpty u then ["    User " +:+ u] else [])
               = mkParser (hs ++ option_list cur)
                          (Some (mkHost n hn u "22" "" "" tags)) []).
  { destruct (nonEmpty u) eqn:Eu.
    - apply nonEmpty_true in Eu.
      destruct (normalValue_nonEmpty u Hu Eu) as [F J].
      rewrite parseLines_cons, parseLine_User.
      destruct (Fields u); [now elim F|]. now rewrite J.
    - apply nonEmpty_false in Eu. now subst u. }
  rewrite E3. clear E3.
  (* Port *)
  assert (E4 : parseLines (mkParser (hs ++ option_list cur)
                             (Some (mkHost n hn u "22" "" "" tags)) [])
                          (if nonEmpty p && negb (String.eqb p "22")
                           then ["    Port " +:+ p] else [])
               = mkParser (hs ++ option_list cur)
                          (Some (mkHost n hn u p "" "" tags)) []).
  { destruct (normalValue_nonEmpty p Hp2 Hp1) as [F J].
    apply nonEmpty_true in Hp1. rewrite Hp1. cbn [andb].
    destruct (String.eqb p "22") eqn:Ep.
    - apply String.eqb_eq in Ep. now subst p.
    - cbn [negb]. rewrite parseLines_cons, parseLine_Port.
      destruct (Fields p); [now elim F|]. now rewrite J. }
  rewrite E4. clear E4.
  (* IdentityFile *)
  destruct (nonEmpty id) eqn:Ei.
  - apply nonEmpty_true in Ei.
    destruct (normalValue_nonEmpty id Hid Ei) as [F J].
    rewrite parseLines_cons, parseLine_IdentityFile.
    destruct (Fields id); [now elim F|]. now rewrite J.
  - apply nonEmpty_false in Ei. now subst id.
Qed.

Lemma normalValue_oneLine (v : string) :
  normalValue v = true -> oneLine v = true.
Proof.
  unfold normalValue. intros H. apply String.eqb_eq in H. rewrite <- H.
  assert (Htok : forall s t ts, tokens s = (t, ts) ->
            oneLine t = true /\ forallb oneLine ts = true).
  { induction s as [|c r IH]; intros t ts E.
    - injection E as <- <-. now split.
    - simpl in E. destruct (tokens r) as [t' ts'].
      destruct (IH t' ts' eq_refl) as [H1 H2].
      destruct (isSpace c) eqn:Hc; injection E as <- <-.
      + split; [reflexivity|]. destruct t'; [exact H2|].
        cbn [consToken forallb]. now rewrite H1, H2.
      + split; [|exact H2]. unfold oneLine in *. cbn [noByte].
        rewrite H1, andb_true_r. apply negb_true_iff.
        destruct (Ascii.eqb c "010") eqn:E; [|reflexivity].
        apply Ascii.eqb_eq in E. subst c. discriminate. }
  assert (Hf : forallb oneLine (Fields v) = true).
  { unfold Fields. destruct (tokens v) as [t ts] eqn:E.
    destruct (Htok v t ts E) as [H1 H2]. destruct t; [exact H2|].
    cbn [consToken forallb]. now rewrite H1, H2. }
  clear H Htok. induction (Fields v) as [|a [|b r] IH]; [reflexivity| |].
  - simpl in *. now rewrite andb_true_r in Hf.
  - cbn [forallb] in Hf. apply andb_true_iff in Hf as [Ha Hr].
    rewrite Join_cons by discriminate. specialize (IH Hr).
    unfold oneLine in *. clear Hr. induction a as [|c s IHs]; simpl in *.
    + exact IH.
    + apply andb_true_iff in Ha as [Hc Hs]. now rewrite Hc, IHs.
Qed.

Lemma oneLine_app (a b : string) :
  oneLine a = true -> oneLine b = true -> oneLine (a +:+ b) = true.
Proof.
  unfold oneLine. intros Ha Hb. induction a as [|c s IH]; simpl in *; [exact Hb|].
  apply andb_true_iff in Ha as [Hc Hs]. now rewrite Hc, IH.
Qed.

Lemma Join_oneLine (tags : list string) (sep : string) :
  forallb oneLine tags = true -> oneLine sep = true ->
  oneLine (Join tags sep) = true.
Proof.
  intros H Hs. induction tags as [|t [|t' r] IH]; [reflexivity| |].
  - simpl in *. now rewrite andb_true_r in H.
  - cbn [forallb] in H. apply andb_true_iff in H as [Ht Hr].
    rewrite Join_cons by discriminate.
    apply oneLine_app; [exact Ht|]. apply oneLine_app; [exact Hs|now apply IH].
Qed.

Lemma normalEntry_singleLine (h : SSHHost) :
  normalEntry h = true -> singleLine h = true.
Proof.
  unfold normalEntry, singleLine. rewrite !andb_true_iff.
  intros ((((((((_ & H1) & H2) & H3) & _) & H4) & H5) & H6) & H7).
  repeat split; try now apply normalValue_oneLine.
  clear -H7. induction (Tags h) as [|t r IH]; [reflexivity|].
  cbn [forallb] in *. apply andb_true_iff in H7 as [Ht Hr].
  destruct (cleanTag_elim t Ht) as (_ & _ & _ & Ho). now rewrite Ho, IH.
Qed.

Lemma updateBlock_oneLine (h : SSHHost) :
  singleLine h = true -> forallb oneLine (updateBlock h) = true.
Proof.
  unfold singleLine. rewrite !andb_true_iff.
  intros ((((((H1 & H2) & H3) & H4) & H5) & H6) & H7).
  unfold updateBlock. rewrite !forallb_app.
  pose proof (Join_oneLine (Tags h) ", " H7 eq_refl) as Hj.
  repeat match goal with
         | |- context [if ?b then _ else _] => destruct b
         end; cbn [forallb andb]; rewrite ?oneLine_app; trivial.
Qed.

End NewBlock.

Section Frames.

Variables (name : string) (w : World) (homeDir content : string).
Variables (pre span post : list string).
Hypothesis Hhome : home w = Some homeDir.
Hypothesis Hfile : files w !! Os.configPathOf homeDir = Some content.
Hypothesis Hsplit : Split content "010" = pre ++ span ++ post.

Lemma frame_oneLine :
  forallb oneLine pre = true /\ forallb oneLine post = true.
Proof.
  pose proof (Split_oneLine content) as H. rewrite Hsplit in H.
  rewrite !forallb_app, !andb_true_iff in H. tauto.
Qed.

Lemma frame_fits (listed : list SSHHost) :
  parseConfig content = (listed, None) ->
  forallb fits pre = true /\ forallb fits post = true.
Proof.
  intros Hp. pose proof (fits_Split _ (parseConfig_accepted _ _ Hp)) as H.
  rewrite Hsplit in H. rewrite !forallb_app, !andb_true_iff in H. tauto.
Qed.

Lemma forallb_dropBlank (P : string -> bool) (ls : list string) :
  forallb P ls = true -> forallb P (dropBlank ls) = true.
Proof.
  destruct ls as [|b r]; [trivial|]. cbn [dropBlank].
  destruct (String.eqb (TrimSpace b) ""); [|trivial].
  cbn [forallb]. intros H. now apply andb_true_iff in H as [_ H].
Qed.

Lemma forallb_restAfter (P : string -> bool) (eat : bool) (ls : list string) :
  forallb P ls = true -> forallb P (restAfter eat ls) = true.
Proof. destruct eat; [apply forallb_dropBlank|trivial]. Qed.

(** The file a rewrite leaves, read again. *)
Lemma reparse (eat : bool) (block : list string) (listed : list SSHHost) :
  parseConfig content = (listed, None) ->
  forallb oneLine block = true -> forallb fits block = true ->
  ParseSSHConfig
    (written w (Os.configPathOf homeDir) content
             (pre ++ block ++ restAfter eat post))
  = (finish (parseLines start (pre ++ block ++ restAfter eat post)), None).
Proof.
  intros Hp Ho Hf. unfold ParseSSHConfig, ParseSSHConfigFile.
  unfold written at 1, backedUp. cbn [home]. rewrite Hhome.
  rewrite (written_config w homeDir content).
  destruct frame_oneLine as [O1 O2]. destruct (frame_fits listed Hp) as [F1 F2].
  apply parseConfig_Join; rewrite !forallb_app, ?forallb_restAfter; trivial;
    now rewrite ?O1, ?F1, ?Ho, ?Hf.
Qed.

End Frames.

(** What the two rewrites write when the block is located. *)
Lemma UpdateSSHHost_located (name : string) (newHost : SSHHost) (w : World)
    (homeDir content : string) (pre span post : list string) :
  home w = Some homeDir ->
  files w !! Os.configPathOf homeDir = Some content ->
  Split content "010" = pre ++ span ++ post ->
  located name pre span post = true ->
  noHitBefore name post None = true ->
  UpdateSSHHost name newHost w
  = (Ok tt, written w (Os.configPathOf homeDir) content
                    (pre ++ updateBlock newHost ++ post)).
Proof.
  intros Hh Hf Hs Hl Hn. rewrite (UpdateSSHHost_run w homeDir content Hh Hf).
  now rewrite (rewrite_located w homeDir content name (updateBlock newHost)
                 false pre span post).
Qed.

Lemma DeleteSSHHost_located (name : string) (w : World)
    (homeDir content : string) (pre span post : list string) :
  home w = Some homeDir ->
  files w !! Os.configPathOf homeDir = Some content ->
  Split content "010" = pre ++ span ++ post ->
  located name pre span post = true ->
  noHitBefore name (dropBlank post) None = true ->
  DeleteSSHHost name w
  = (Ok tt, written w (Os.configPathOf homeDir) content
                    (pre ++ dropBlank post)).
Proof.
  intros Hh Hf Hs Hl Hn. rewrite (DeleteSSHHost_run w homeDir content Hh Hf).
  now rewrite (rewrite_located w homeDir content name [] true pre span post).
Qed.

Section PendingTags.

Lemma lineTags_ext (a b : string) :
  TrimSpace a = TrimSpace b -> lineTags a = lineTags b.
Proof. intros E. unfold lineTags, isTagsLine. now rewrite E. Qed.

Lemma isTagsLine_ext (a b : string) :
  TrimSpace a = TrimSpace b -> isTagsLine a = isTagsLine b.
Proof. intros E. unfold isTagsLine. now rewrite E. Qed.

Lemma tags_line_trimmed (tags : list string) :
  tags <> [] -> forallb cleanTag tags = true ->
  TrimSpace ("# Tags: " +:+ Join tags ", ") = "# Tags: " +:+ Join tags ", ".
Proof.
  intros N H. destruct (trimmed_Join tags N H) as [E1 E2].
  destruct (trimmed_elim _ E1 E2) as [_ T]. unfold TrimSpace.
  change (TrimLeft ("# Tags: " +:+ Join tags ", "))
    with ("# Tags:" +:+ String " " (Join tags ", ")).
  rewrite TrimRight_tags_prefix, TrimRight_cons_nonnil; rewrite T; trivial.
Qed.

(** Blank lines and comments that are not tags lines are passed over. *)
Lemma blankOrComment_parse (l : string) (st : parser) :
  blankOrComment l = true -> parseLine st l = st.
Proof.
  unfold blankOrComment. intros H. apply orb_true_iff in H as [H|H].
  - apply String.eqb_eq in H. destruct (blank_directive l H) as [Hd Ht].
    now apply parseLine_other.
  - apply andb_true_iff in H as [Hh Ht]. apply negb_true_iff in Ht.
    apply parseLine_other; [exact Ht|]. unfold directive. rewrite Hh.
    now destruct (String.eqb (TrimSpace l) "").
Qed.

Lemma gap_parse (gap : list string) (st : parser) :
  forallb blankOrComment gap = true -> parseLines st gap = st.
Proof.
  induction gap as [|l r IH]; intros H; [reflexivity|].
  cbn [forallb] in H. apply andb_true_iff in H as [Hl Hr].
  now rewrite parseLines_cons, (blankOrComment_parse l st Hl), IH.
Qed.

End PendingTags.

Section Tokens.

Lemma isToken_elim (s : string) :
  isToken s = true -> s <> "" /\ noSpace s = true.
Proof.
  unfold isToken. intros H. apply andb_true_iff in H as [H1 H2].
  apply nonEmpty_true in H1. now split.
Qed.

Lemma noSpace_tokens (s : string) : noSpace s = true -> tokens s = (s, []).
Proof.
  induction s as [|c r IH]; [reflexivity|]. simpl. intros H.
  apply andb_true_iff in H as [Hc Hr]. apply negb_true_iff in Hc.
  now rewrite (IH Hr), Hc.
Qed.

Lemma token_Fields (s : string) : isToken s = true -> Fields s = [s].
Proof.
  intros H. destruct (isToken_elim s H) as [N S]. unfold Fields.
  rewrite (noSpace_tokens s S). now destruct s; [elim N|].
Qed.

Lemma noSpace_TrimRight (s : string) : noSpace s = true -> TrimRight s = s.
Proof.
  induction s as [|c r IH]; [reflexivity|]. simpl. intros H.
  apply andb_true_iff in H as [Hc Hr]. apply negb_true_iff in Hc.
  rewrite (IH Hr), Hc. now destruct r.
Qed.

Lemma TrimSpace_Host_token (s : string) :
  isToken s = true -> TrimSpace ("Host " +:+ s) = "Host " +:+ s.
Proof.
  intros H. destruct (isToken_elim s H) as [N S]. unfold TrimSpace.
  change (TrimLeft ("Host " +:+ s)) with ("Host " +:+ s).
  rewrite TrimRight_app_nonnil; rewrite (noSpace_TrimRight s S); trivial.
Qed.

Lemma append_nonempty_neq (a b : string) : b <> "" -> a +:+ b <> a.
Proof.
  intros N E. apply (f_equal String.length) in E.
  rewrite length_append in E. destruct b; [now elim N|]. simpl in E. lia.
Qed.

End Tokens.

Section JumpHost.

(** No line of the block of UpdateSSHHost is a ProxyJump line. *)
Lemma updateBlock_no_proxy_jump (host : SSHHost) :
  Forall (fun l => HasPrefix l "    ProxyJump " = false
                   /\ keyOf l <> Some "proxyjump")
         (updateBlock host).
Proof.
  unfold updateBlock.
  repeat match goal with
         | |- Forall _ (_ ++ _) => apply Forall_app; split
         | |- Forall _ (if ?b then _ else _) => destruct b
         | |- Forall _ [] => constructor
         | |- Forall _ [_] => constructor; [split|constructor]
         end; try reflexivity; try discriminate.
  - now rewrite keyOf_tags_line.
  - apply (keyOf_field_other _ _ "Host" (Name host) "H" ("ost " +:+ Name host));
      try reflexivity; [|discriminate].
    unfold Fields; simpl; destruct (tokens (Name host)); reflexivity.
  - apply (keyOf_field_other _ _ "HostName" (Hostname host) "H"
             ("ostName " +:+ Hostname host)); try reflexivity; [|discriminate].
    unfold Fields; simpl; destruct (tokens (Hostname host)); reflexivity.
  - apply (keyOf_field_other _ _ "User" (User host) "U" ("ser " +:+ User host));
      try reflexivity; [|discriminate].
    unfold Fields; simpl; destruct (tokens (User host)); reflexivity.
  - apply (keyOf_field_other _ _ "Port" (Port host) "P" ("ort " +:+ Port host));
      try reflexivity; [|discriminate].
    unfold Fields; simpl; destruct (tokens (Port host)); reflexivity.
  - apply (keyOf_field_other _ _ "IdentityFile" (Identity host) "I"
             ("dentityFile " +:+ Identity host)); try reflexivity; [|discriminate].
    unfold Fields; simpl; destruct (tokens (Identity host)); reflexivity.
Qed.

Lemma addLines_updateBlock (host : SSHHost) :
  addLines host
  = updateBlock host
    ++ (if nonEmpty (ProxyJump host)
        then ["    ProxyJump " +:+ ProxyJump host] else []).
Proof. unfold addLines, updateBlock. now rewrite <- !app_assoc. Qed.

End JumpHost.

(** ** Inputs on which the claims of the specification fail *)






(* ================================================================== *)
(** * Further facts                                                    *)
(* ================================================================== *)

(** ** Splitting and joining at line feeds *)

Section SplitJoin.

Lemma Split_app (a b : string) (sep : ascii) :
  Split (a +:+ String sep b) sep = Split a sep ++ Split b sep.
Proof.
  induction a as [|c a IH]; cbn [String.append Split].
  - now rewrite Ascii.eqb_refl.
  - destruct (Ascii.eqb c sep); [now rewrite IH|].
    rewrite IH. destruct (Split a sep) as [|p ps] eqn:E; [|reflexivity].
    now destruct (Split_nonempty a sep).
Qed.

(** Splitting at the line feeds and joining with line feeds gives the
    text back. *)
Lemma Join_Split (c : string) :
  Join (Split c "010") (String "010" "") = c.
Proof.
  induction c as [|x c IH]; [reflexivity|]. cbn [Split].
  destruct (Ascii.eqb x "010") eqn:E.
  - apply Ascii.eqb_eq in E as ->.
    rewrite Join_cons by apply Split_nonempty. now rewrite IH.
  - destruct (Split c "010") as [|p ps] eqn:S;
      [now destruct (Split_nonempty c "010")|].
    destruct ps as [|q qs].
    + cbn in IH |- *. now rewrite IH.
    + rewrite Join_cons in IH |- * by discriminate.
      cbn [String.append] in IH |- *. now rewrite IH.
Qed.

Lemma Split_unlines (ls : list string) :
  forallb oneLine ls = true -> Split (unlines ls) "010" = ls ++ [""].
Proof.
  induction ls as [|l r IH]; intros H; [reflexivity|].
  cbn [forallb] in H. apply andb_true_iff in H as [Hl Hr].
  cbn [unlines]. rewrite (Split_app_sep l (unlines r) "010" Hl).
  now rewrite (IH Hr).
Qed.

(** The scanner's lines of a text, a line feed and a second text. *)
Lemma rawLines_app (c x : string) :
  Bufio.rawLines (c +:+ String "010" x)
  = Split c "010" ++ Bufio.rawLines x.
Proof.
  induction c as [|a c IH]; cbn [String.append Split Bufio.rawLines].
  - reflexivity.
  - destruct (Ascii.eqb a "010"); [now rewrite IH|].
    rewrite IH. destruct (Split c "010") as [|p ps] eqn:E; [|reflexivity].
    now destruct (Split_nonempty c "010").
Qed.

Lemma rawLines_oneLine (c : string) :
  forallb oneLine (Bufio.rawLines c) = true.
Proof.
  induction c as [|a c IH]; [reflexivity|]. cbn [Bufio.rawLines].
  destruct (Ascii.eqb a "010") eqn:E; [exact IH|].
  destruct (Bufio.rawLines c) as [|l ls]; cbn [forallb oneLine noByte] in *.
  - now rewrite E.
  - now rewrite E.
Qed.

End SplitJoin.

(** ** Bytes a string does not hold *)

Section NoByte.

Variable b : ascii.

Lemma noByte_TrimLeft (s : string) :
  noByte b s = true -> noByte b (TrimLeft s) = true.
Proof.
  induction s as [|c r IH]; intros H; [reflexivity|]. cbn [TrimLeft].
  destruct (isSpace c); [|exact H].
  cbn [noByte] in H. apply andb_true_iff in H as [_ H]. now apply IH.
Qed.

Lemma noByte_TrimRight (s : string) :
  noByte b s = true -> noByte b (TrimRight s) = true.
Proof.
  induction s as [|c r IH]; intros H; [reflexivity|].
  cbn [noByte] in H. apply andb_true_iff in H as [Hc H].
  specialize (IH H). cbn [TrimRight].
  destruct (TrimRight r) as [|c' r'].
  - destruct (isSpace c); [reflexivity|]. cbn [noByte]. now rewrite Hc.
  - cbn [noByte] in IH |- *. now rewrite Hc, IH.
Qed.

Lemma noByte_TrimSpace (s : string) :
  noByte b s = true -> noByte b (TrimSpace s) = true.
Proof. intros H. now apply noByte_TrimRight, noByte_TrimLeft. Qed.

Lemma noByte_skipn (n : nat) (s : string) :
  noByte b s = true -> noByte b (skipn_string n s) = true.
Proof.
  revert s. induction n as [|n IH]; intros [|c r] H; trivial.
  cbn [skipn_string]. cbn [noByte] in H.
  apply andb_true_iff in H as [_ H]. now apply IH.
Qed.

Lemma noByte_TrimPrefix (s p : string) :
  noByte b s = true -> noByte b (TrimPrefix s p) = true.
Proof.
  intros H. unfold TrimPrefix. destruct (HasPrefix s p); [|exact H].
  now apply noByte_skipn.
Qed.

Lemma noByte_Split (s : string) (sep : ascii) :
  noByte b s = true -> forallb (noByte b) (Split s sep) = true.
Proof.
  induction s as [|c r IH]; intros H; [reflexivity|].
  cbn [noByte] in H. apply andb_true_iff in H as [Hc H].
  specialize (IH H). cbn [Split].
  destruct (Ascii.eqb c sep); [exact IH|].
  destruct (Split r sep) as [|p ps]; cbn [forallb noByte] in *.
  - now rewrite Hc.
  - now rewrite Hc.
Qed.

Lemma noByte_dropCR (s : string) :
  noByte b s = true -> noByte b (Bufio.dropCR s) = true.
Proof.
  induction s as [|c r IH]; intros H; [reflexivity|].
  cbn [noByte] in H. apply andb_true_iff in H as [Hc H].
  cbn [Bufio.dropCR]. destruct r as [|c' r'].
  - destruct (Ascii.eqb c "013"); [reflexivity|]. cbn [noByte]. now rewrite Hc.
  - cbn [noByte]. rewrite Hc. now apply IH.
Qed.

End NoByte.

(** No piece of a split holds the separator. *)
Lemma Split_pieces (s : string) (sep : ascii) :
  forallb (noByte sep) (Split s sep) = true.
Proof.
  induction s as [|c r IH]; [reflexivity|]. cbn [Split].
  destruct (Ascii.eqb c sep) eqn:E; [exact IH|].
  destruct (Split r sep) as [|p ps]; cbn [forallb noByte] in *.
  - now rewrite E.
  - now rewrite E.
Qed.

(** ** The fields of a line are tokens *)

Section FieldTokens.

Lemma tokens_spec (s : string) :
  noSpace (fst (tokens s)) = true
  /\ Forall (fun t => isToken t = true) (snd (tokens s)).
Proof.
  induction s as [|c r [Ht Hts]]; [split; [reflexivity|constructor]|].
  cbn [tokens]. destruct (tokens r) as [t ts]. cbn [fst snd] in *.
  destruct (isSpace c) eqn:E; cbn [fst snd].
  - split; [reflexivity|]. destruct t as [|x t]; [exact Hts|].
    cbn [consToken]. constructor; [|exact Hts].
    unfold isToken. now rewrite Ht.
  - split; [|exact Hts]. cbn [noSpace]. now rewrite E.
Qed.

Lemma Fields_tokens (s : string) :
  Forall (fun t => isToken t = true) (Fields s).
Proof.
  unfold Fields. destruct (tokens_spec s) as [Ht Hts].
  destruct (tokens s) as [t ts]. cbn [fst snd] in *.
  destruct t as [|x t]; [exact Hts|]. cbn [consToken].
  constructor; [|exact Hts]. unfold isToken. now rewrite Ht.
Qed.

Lemma tokens_token_space (t x : string) :
  noSpace t = true ->
  tokens (t +:+ String " " x) = (t, Fields x).
Proof.
  induction t as [|c t IH]; intros H.
  - cbn [String.append tokens]. unfold Fields.
    now destruct (tokens x).
  - cbn [noSpace] in H. apply andb_true_iff in H as [Hc H].
    apply negb_true_iff in Hc.
    cbn [String.append tokens]. now rewrite (IH H), Hc.
Qed.

Lemma Fields_token_space (t x : string) :
  isToken t = true -> Fields (t +:+ String " " x) = t :: Fields x.
Proof.
  intros H. destruct (isToken_elim _ H) as [Hne Hns].
  unfold Fields at 1. rewrite (tokens_token_space t x Hns).
  now destruct t.
Qed.

(** Tokens joined by single spaces are the fields of the joined text. *)
Lemma Fields_Join (ts : list string) :
  Forall (fun t => isToken t = true) ts -> Fields (Join ts " ") = ts.
Proof.
  induction 1 as [|t ts Ht Hts IH]; [reflexivity|].
  destruct ts as [|u us]; [now apply token_Fields|].
  rewrite Join_cons by discriminate.
  change (t +:+ " " +:+ Join (u :: us) " ")
    with (t +:+ String " " (Join (u :: us) " ")).
  now rewrite (Fields_token_space _ _ Ht), IH.
Qed.

(** The value the parser joins of the fields of a line is normal. *)
Lemma normalValue_Join (ts : list string) :
  Forall (fun t => isToken t = true) ts -> normalValue (Join ts " ") = true.
Proof.
  intros H. unfold normalValue. rewrite (Fields_Join _ H).
  apply String.eqb_refl.
Qed.

Lemma Join_tokens_nonEmpty (t : string) (ts : list string) :
  isToken t = true -> nonEmpty (Join (t :: ts) " ") = true.
Proof.
  intros H. destruct (isToken_elim _ H) as [Hne _].
  destruct t as [|c t]; [now elim Hne|].
  destruct ts; reflexivity.
Qed.

End FieldTokens.

(** ** What the parser yields *)

Section ParserOutput.

(** The value of a directive is a non-empty value in normal form. *)
Lemma directive_value (text key value : string) :
  directive text = Some (key, value) ->
  nonEmpty value = true /\ normalValue value = true.
Proof.
  unfold directive.
  destruct (String.eqb (TrimSpace text) ""); [discriminate|].
  destruct (HasPrefix (TrimSpace text) "#"); [discriminate|].
  pose proof (Fields_tokens (TrimSpace text)) as T.
  destruct (Fields (TrimSpace text)) as [|k [|v more]]; try discriminate.
  intros E. apply Forall_inv_tail in T.
  assert (Ev : value = Join (v :: more) " ") by congruence. subst value.
  split.
  - apply Join_tokens_nonEmpty. exact (Forall_inv T).
  - now apply normalValue_Join.
Qed.

Lemma lineTags_clean (text : string) :
  oneLine text = true -> forallb cleanTag (lineTags text) = true.
Proof.
  intros Ho. unfold lineTags. destruct (isTagsLine text); [|reflexivity].
  set (tagsStr := TrimSpace (TrimPrefix (TrimSpace text) "# Tags:")).
  assert (Hl : oneLine tagsStr = true)
    by (apply noByte_TrimSpace, noByte_TrimPrefix, noByte_TrimSpace, Ho).
  pose proof (noByte_Split "010" tagsStr "," Hl) as H1.
  pose proof (Split_pieces tagsStr ",") as H2.
  induction (Split tagsStr ",") as [|p ps IH]; [reflexivity|].
  cbn [forallb] in H1, H2.
  apply andb_true_iff in H1 as [H1 H1'], H2 as [H2 H2'].
  cbn [map List.filter]. destruct (nonEmpty (TrimSpace p)) eqn:E; [|auto].
  cbn [forallb]. rewrite (IH H1' H2'), andb_true_r.
  unfold cleanTag, oneLine.
  rewrite E, TrimSpace_idem, String.eqb_refl.
  now rewrite (noByte_TrimSpace _ _ H2), (noByte_TrimSpace _ _ H1).
Qed.

Lemma normalState_elim (st : parser) :
  normalState st = true ->
  forallb normalEntry (hosts st) = true
  /\ forallb normalEntry (option_list (currentHost st)) = true
  /\ forallb cleanTag (pendingTags st) = true.
Proof.
  unfold normalState. intros H.
  apply andb_true_iff in H as [H H3]. apply andb_true_iff in H as [H1 H2].
  repeat split; trivial. destruct (currentHost st); cbn; [|reflexivity].
  now rewrite H2.
Qed.

Lemma normalState_intro (hs : list SSHHost) (cur : option SSHHost)
    (pending : list string) :
  forallb normalEntry hs = true ->
  forallb normalEntry (option_list cur) = true ->
  forallb cleanTag pending = true ->
  normalState (mkParser hs cur pending) = true.
Proof.
  intros H1 H2 H3. unfold normalState. cbn [hosts currentHost pendingTags].
  rewrite H1, H3. destruct cur as [h|]; [|reflexivity].
  cbn in H2. rewrite andb_true_r in H2. now rewrite H2.
Qed.

Lemma normalEntry_elim (h : SSHHost) :
  normalEntry h = true ->
  nonEmpty (Name h) = true /\ normalValue (Name h) = true
  /\ normalValue (Hostname h) = true /\ normalValue (User h) = true
  /\ nonEmpty (Port h) = true /\ normalValue (Port h) = true
  /\ normalValue (Identity h) = true /\ normalValue (ProxyJump h) = true
  /\ forallb cleanTag (Tags h) = true.
Proof.
  unfold normalEntry. intros H.
  repeat (apply andb_true_iff in H as [H ?]). now repeat split.
Qed.

Lemma assign_normal (f : SSHHost -> SSHHost) (st : parser) :
  (forall h, normalEntry h = true -> normalEntry (f h) = true) ->
  normalState st = true -> normalState (assign f st) = true.
Proof.
  intros Hf H. destruct (normalState_elim _ H) as (H1 & H2 & H3).
  unfold assign. destruct (currentHost st) as [h|] eqn:E; [|exact H].
  apply normalState_intro; trivial. cbn in H2 |- *.
  rewrite andb_true_r in H2 |- *. now apply Hf.
Qed.

Lemma act_normal (st : parser) (key value : string) :
  nonEmpty value = true -> normalValue value = true ->
  normalState st = true -> normalState (act st key value) = true.
Proof.
  intros Hne Hnv H. unfold act.
  destruct (String.eqb key "host").
  { destruct (normalState_elim _ H) as (H1 & H2 & H3).
    apply normalState_intro; [| |reflexivity].
    - now rewrite forallb_app, H1, H2.
    - change (normalEntry (mkHost value "" "" "22" "" "" (pendingTags st))
              && true = true).
      unfold normalEntry.
      cbn [Name Hostname User Port Identity ProxyJump Tags].
      now rewrite Hne, Hnv, H3. }
  repeat match goal with
         | |- context [if String.eqb key ?k then _ else _] =>
             destruct (String.eqb key k)
         end;
    trivial; apply assign_normal; trivial; intros h Hh;
    destruct (normalEntry_elim _ Hh) as (N1&N2&N3&N4&N5&N6&N7&N8&N9);
    unfold normalEntry, setHostname, setUser, setPort, setIdentity,
      setProxyJump;
    cbn [Name Hostname User Port Identity ProxyJump Tags];
    now rewrite ?N1, ?N2, ?N3, ?N4, ?N5, ?N6, ?N7, ?N8, ?N9, ?Hne, ?Hnv.
Qed.

(** One turn of the scanning loop keeps the entries and the tags
    normal. *)
Lemma parseLine_normal (st : parser) (text : string) :
  oneLine text = true ->
  normalState st = true -> normalState (parseLine st text) = true.
Proof.
  intros Ho H. destruct (isTagsLine text) eqn:Et.
  - rewrite (parseLine_tags _ _ Et).
    destruct (normalState_elim _ H) as (H1 & H2 & H3).
    apply normalState_intro; trivial.
    now rewrite forallb_app, H3, (lineTags_clean _ Ho).
  - destruct (directive text) as [[key value]|] eqn:Ed.
    + rewrite (parseLine_directive _ _ _ _ Ed).
      destruct (directive_value _ _ _ Ed). now apply act_normal.
    + now rewrite (parseLine_other _ _ Et Ed).
Qed.

Lemma parseLines_normal (ls : list string) :
  forallb oneLine ls = true ->
  forall st, normalState st = true -> normalState (parseLines st ls) = true.
Proof.
  induction ls as [|l r IH]; intros Ho st H; [exact H|].
  cbn [forallb] in Ho. apply andb_true_iff in Ho as [Hl Hr].
  rewrite parseLines_cons. apply (IH Hr). now apply parseLine_normal.
Qed.

Lemma scanTokens_oneLine (ls : list string) :
  forallb oneLine ls = true ->
  forallb oneLine (fst (Bufio.scanTokens ls)) = true.
Proof.
  induction ls as [|l r IH]; intros Ho; [reflexivity|].
  cbn [forallb] in Ho. apply andb_true_iff in Ho as [Hl Hr].
  cbn [Bufio.scanTokens]. destruct (Bufio.tooLong l); [reflexivity|].
  specialize (IH Hr). destruct (Bufio.scanTokens r) as [toks err].
  cbn [fst forallb] in *. rewrite IH, andb_true_r.
  now apply noByte_dropCR.
Qed.

Lemma finish_normal (st : parser) :
  normalState st = true -> forallb normalEntry (finish st) = true.
Proof.
  intros H. destruct (normalState_elim _ H) as (H1 & H2 & _).
  unfold finish. now rewrite forallb_app, H1, H2.
Qed.

Lemma parseConfig_normal (content : string) :
  forallb normalEntry (fst (parseConfig content)) = true.
Proof.
  unfold parseConfig, Bufio.Scan.
  pose proof (scanTokens_oneLine _ (rawLines_oneLine content)) as Ho.
  destruct (Bufio.scanTokens (Bufio.rawLines content)) as [toks err].
  cbn [fst] in *. apply finish_normal. now apply parseLines_normal.
Qed.

Lemma ParseSSHConfig_normal (w : World) :
  forallb normalEntry (fst (ParseSSHConfig w)) = true.
Proof.
  unfold ParseSSHConfig, ParseSSHConfigFile.
  destruct (home w) as [homeDir|]; [|reflexivity].
  destruct (files w !! Os.configPathOf homeDir) as [content|]; [|reflexivity].
  apply parseConfig_normal.
Qed.

Lemma GetSSHHost_found (name : string) (w : World) (h : SSHHost) :
  GetSSHHost name w = (Some h, None) ->
  exists listed before after,
    ParseSSHConfig w = (listed, None)
    /\ listed = before ++ h :: after
    /\ Name h = name
    /\ ~ In name (map Name before).
Proof.
  unfold GetSSHHost. destruct (ParseSSHConfig w) as [listed [e|]];
    [discriminate|].
  destruct (find _ listed) as [h'|] eqn:F; [|discriminate].
  intros [= ->]. exists listed.
  clear w. induction listed as [|x xs IH]; [discriminate|].
  cbn [find] in F. destruct (String.eqb (Name x) name) eqn:E.
  - injection F as ->. apply String.eqb_eq in E.
    exists [], xs. repeat split; trivial. now intros [].
  - destruct (IH F) as (before & after & _ & -> & Hn & Hb).
    exists (x :: before), after. repeat split; trivial.
    cbn [map]. intros [Hx|Hx]; [|now apply Hb].
    apply String.eqb_neq in E. now apply E.
Qed.

End ParserOutput.

(** ** One entry for every Host declaration *)

Section Declared.

Lemma hostValue_none (text : string) :
  hostValue text = None <-> declaresHost text = false.
Proof.
  unfold hostValue, declaresHost, keyOf.
  destruct (directive text) as [[k v]|]; cbn; [|tauto].
  destruct (String.eqb k "host"); split; congruence.
Qed.

Lemma hostValue_some (text value : string) :
  hostValue text = Some value <-> directive text = Some ("host", value).
Proof.
  unfold hostValue.
  destruct (directive text) as [[k v]|]; [|split; discriminate].
  destruct (String.eqb k "host") eqn:E.
  - apply String.eqb_eq in E as ->. split; congruence.
  - apply String.eqb_neq in E. split; [discriminate|]. intros [= -> ->].
    now elim E.
Qed.

Lemma assign_names (f : SSHHost -> SSHHost) (st : parser) :
  (forall h, Name (f h) = Name h) ->
  map Name (finish (assign f st)) = map Name (finish st).
Proof.
  intros Hf. unfold assign, finish.
  destruct (currentHost st) as [h|] eqn:E; [|now rewrite E].
  cbn [hosts currentHost]. rewrite !map_app. cbn. now rewrite Hf.
Qed.

Lemma parseLine_names (st : parser) (text : string) :
  map Name (finish (parseLine st text))
  = map Name (finish st) ++ option_list (hostValue text).
Proof.
  destruct (hostValue text) as [v|] eqn:E.
  - apply hostValue_some in E. rewrite (parseLine_host _ _ _ E).
    unfold finish. cbn [hosts currentHost option_list].
    now rewrite map_app.
  - apply hostValue_none in E.
    destruct (parseLine_no_host _ E) as (f & Hf & ->).
    rewrite assign_names by (intros h; apply Hf).
    cbn [option_list]. now rewrite app_nil_r.
Qed.

(** The names of the entries are the names the Host declarations
    declare, in the order of the lines. *)
Lemma parseLines_names (ls : list string) :
  forall st,
    map Name (finish (parseLines st ls))
    = map Name (finish st) ++ declared ls.
Proof.
  induction ls as [|l r IH]; intros st.
  - cbn. now rewrite app_nil_r.
  - rewrite parseLines_cons, IH, parseLine_names, <- app_assoc.
    unfold declared. cbn [omap list_omap]. now destruct (hostValue l).
Qed.

Lemma parseConfig_names (content : string) (hs : list SSHHost) :
  parseConfig content = (hs, None) ->
  map Name hs = declared (Bufio.rawLines content).
Proof.
  intros H. pose proof (parseConfig_accepted _ _ H) as Hf.
  unfold parseConfig, Bufio.Scan in H. rewrite (scanTokens_fits _ Hf) in H.
  injection H as <-. now rewrite parseLines_dropCR, parseLines_names.
Qed.

End Declared.

(** ** Lines without effect *)

Section Inert.

Lemma act_unknown (st : parser) (key value : string) :
  existsb (String.eqb key) ("host" :: fieldKeys) = false ->
  act st key value = st.
Proof.
  cbn [existsb fieldKeys]. intros H.
  repeat (apply orb_false_iff in H as [? H]).
  unfold act.
  now repeat match goal with
             | E : String.eqb key ?k = false |- _ => rewrite E; clear E
             end.
Qed.

Lemma parseLine_skips (st : parser) (text : string) :
  inert text = true -> parseLine st text = st.
Proof.
  unfold inert. intros H.
  destruct (directive text) as [[key value]|] eqn:Ed.
  - rewrite (parseLine_directive _ _ _ _ Ed). apply act_unknown.
    now apply negb_true_iff in H.
  - destruct (isTagsLine text) eqn:Et.
    + rewrite (parseLine_tags _ _ Et).
      destruct (lineTags text); [|discriminate].
      rewrite app_nil_r. apply parser_eta.
    + now apply parseLine_other.
Qed.

Lemma parseLines_skips (ls : list string) :
  forall st,
    parseLines st (List.filter (fun l => negb (inert l)) ls)
    = parseLines st ls.
Proof.
  induction ls as [|l r IH]; intros st; [reflexivity|].
  cbn [List.filter]. destruct (inert l) eqn:E; cbn [negb].
  - now rewrite IH, parseLines_cons, (parseLine_skips _ _ E).
  - now rewrite !parseLines_cons, IH.
Qed.

Lemma forallb_filter (P Q : string -> bool) (ls : list string) :
  forallb P ls = true -> forallb P (List.filter Q ls) = true.
Proof.
  induction ls as [|l r IH]; intros H; [reflexivity|].
  cbn [forallb] in H. apply andb_true_iff in H as [Hl Hr].
  cbn [List.filter]. destruct (Q l); cbn [forallb]; [rewrite Hl|]; auto.
Qed.

End Inert.

(** X3. Every entry the parser yields is in normal form, whatever the
    file holds and also when the scanner stops with an error: the name
    and the port are not empty, every value is its fields joined by
    single spaces, every tag is trimmed, not empty and holds neither a
    comma nor a line feed.  So is the entry GetSSHHost returns, which
    bears the name asked for. *)
Theorem X3_parsed_entries_normal :
  (forall content, forallb normalEntry (fst (parseConfig content)) = true)
  /\ (forall w, forallb normalEntry (fst (ParseSSHConfig w)) = true)
  /\ (forall name w h,
         GetSSHHost name w = (Some h, None) ->
         normalEntry h = true /\ Name h = name).
Proof.
  split; [exact parseConfig_normal|]. split; [exact ParseSSHConfig_normal|].
  intros name w h H.
  destruct (GetSSHHost_found _ _ _ H)
    as (listed & before & after & Hp & -> & Hn & _).
  split; [|exact Hn]. pose proof (ParseSSHConfig_normal w) as N.
  rewrite Hp in N. cbn [fst] in N. rewrite forallb_app in N.
  apply andb_true_iff in N as [_ N]. cbn [forallb] in N.
  now apply andb_true_iff in N as [N _].
Qed.

Section InertLines.

Lemma blankOrComment_inert (text : string) :
  blankOrComment text = true -> inert text = true.
Proof.
  unfold blankOrComment, inert, lineTags, directive. intros H.
  destruct (String.eqb (TrimSpace text) "") eqn:E.
  - apply String.eqb_eq in E. unfold isTagsLine. now rewrite E.
  - cbn [orb] in H. apply andb_true_iff in H as [H1 H2].
    apply negb_true_iff in H2. now rewrite H1, H2.
Qed.

Lemma tags_line_fields (text : string) :
  isTagsLine text = true -> exists a b rest, Fields text = a :: b :: rest.
Proof.
  unfold isTagsLine. intros H. apply HasPrefix_inv in H as [r E].
  rewrite <- Fields_TrimSpace, E.
  change ("# Tags:" +:+ r) with ("#" +:+ String " " ("Tags:" +:+ r)).
  rewrite Fields_token_space by reflexivity.
  destruct (Fields_cons_nonspace "T" ("ags:" +:+ r) eq_refl) as (t & ts & F).
  exists "#", (String "T" t), ts. f_equal. exact F.
Qed.

Lemma one_word_inert (text word : string) :
  Fields text = [word] -> inert text = true.
Proof.
  intros F. unfold inert.
  assert (D : directive text = None).
  { unfold directive. rewrite Fields_TrimSpace, F.
    destruct (String.eqb (TrimSpace text) ""); [reflexivity|].
    now destruct (HasPrefix (TrimSpace text) "#"). }
  rewrite D. rewrite lineTags_not_tags; [reflexivity|].
  destruct (isTagsLine text) eqn:E; [|reflexivity].
  destruct (tags_line_fields _ E) as (a & b & rest & F'). congruence.
Qed.

End InertLines.

(** X12. GetSSHHost returns the first entry of the parsed list that
    bears the name, and then HostExists answers true; when the list
    holds no entry of the name GetSSHHost fails with the not-found
    error and HostExists answers false; when the parser fails both
    return its error, whatever hosts were read before it. *)
Theorem X12_get_first_match (name : string) (w : World) :
  (forall h,
      GetSSHHost name w = (Some h, None) ->
      Name h = name
      /\ HostExists name w = (true, None)
      /\ exists before after,
          ParseSSHConfig w = (before ++ h :: after, None)
          /\ ~ In name (map Name before))
  /\ (forall listed,
         ParseSSHConfig w = (listed, None) ->
         ~ In name (map Name listed) ->
         GetSSHHost name w = (None, Some (ErrHostNotFound name))
         /\ kindOf (ErrHostNotFound name) = NotFound
         /\ HostExists name w = (false, None))
  /\ (forall listed e,
         ParseSSHConfig w = (listed, Some e) ->
         GetSSHHost name w = (None, Some e)
         /\ HostExists name w = (false, Some e)).
Proof.
  split; [|split].
  - intros h H.
    destruct (GetSSHHost_found _ _ _ H)
      as (listed & before & after & Hp & -> & Hn & Hb).
    split; [exact Hn|]. split; [|now exists before, after].
    unfold HostExists. rewrite Hp. f_equal. apply existsb_name.
    rewrite map_app. apply in_or_app. right. now left.
  - intros listed Hp Hn. unfold GetSSHHost, HostExists. rewrite Hp.
    split; [|split; [reflexivity|]].
    + destruct (find _ listed) as [h|] eqn:F; [|reflexivity].
      apply find_some in F as [Hin E]. apply String.eqb_eq in E.
      elim Hn. rewrite <- E. now apply in_map.
    + f_equal. apply not_true_is_false. intros E.
      now apply existsb_name in E.
  - intros listed e Hp. unfold GetSSHHost, HostExists. now rewrite Hp.
Qed.

(** ** The scanner's buffer *)

Section Scanner.

Lemma fits_length (l : string) :
  fits l = true <-> (N.of_nat (String.length l) < 65536)%N.
Proof.
  unfold fits, Bufio.tooLong, Bufio.MaxScanTokenSize.
  rewrite negb_true_iff. apply N.leb_gt.
Qed.

Lemma fits_app (a b : string) : fits (a +:+ b) = true -> fits a = true.
Proof. rewrite !fits_length, length_append. lia. Qed.

Lemma scanTokens_stops (pre : list string) (l : string) (post : list string) :
  forallb fits pre = true -> fits l = false ->
  Bufio.scanTokens (pre ++ l :: post) = (map Bufio.dropCR pre, Some ErrTooLong).
Proof.
  intros Hp Hl. induction pre as [|p pre IH]; cbn [app Bufio.scanTokens map].
  - unfold fits in Hl. apply negb_false_iff in Hl. now rewrite Hl.
  - cbn [forallb] in Hp. apply andb_true_iff in Hp as [Hp Hp'].
    unfold fits in Hp. apply negb_true_iff in Hp. now rewrite Hp, (IH Hp').
Qed.

Lemma scanTokens_err (ls : list string) (e : error) :
  snd (Bufio.scanTokens ls) = Some e -> e = ErrTooLong.
Proof.
  induction ls as [|l r IH]; [discriminate|]. cbn [Bufio.scanTokens].
  destruct (Bufio.tooLong l); [now intros [= <-]|].
  destruct (Bufio.scanTokens r) as [toks err]. exact IH.
Qed.

Lemma parseConfig_err (content : string) :
  snd (parseConfig content) = snd (Bufio.scanTokens (Bufio.rawLines content)).
Proof.
  unfold parseConfig, Bufio.Scan.
  now destruct (Bufio.scanTokens (Bufio.rawLines content)).
Qed.

(** AddSSHHost returns the error of the parser, after the backup. *)
Lemma AddSSHHost_unread (host : SSHHost) (w : World)
    (homeDir content : string) (read : list SSHHost) (e : error) :
  home w = Some homeDir ->
  files w !! Os.configPathOf homeDir = Some content ->
  parseConfig content = (read, Some e) ->
  AddSSHHost host w = (Err e, backedUp w (Os.configPathOf homeDir) content).
Proof.
  intros Hh Hf Hp.
  unfold AddSSHHost, backedUp, mbind, M_bind, Os.UserHomeDir, Os.Exists.
  rewrite Hh, Hf. rewrite bool_decide_eq_true_2 by (now exists content).
  simpl. unfold wrapErr. rewrite (backupConfig_ok _ content) by exact Hf.
  unfold checked, HostExists, ParseSSHConfig, ParseSSHConfigFile. simpl.
  now rewrite Hh, (lookup_after_backup _ _ _ Hf), Hp.
Qed.

End Scanner.

(** ** Lines that end in a carriage return and a line feed *)

Section LineEnds.

Lemma TrimRight_CR (s : string) :
  TrimRight (s +:+ String "013" "") = TrimRight s.
Proof.
  induction s as [|c r IH]; [reflexivity|].
  cbn [String.append TrimRight]. now rewrite IH.
Qed.

Lemma TrimSpace_CR (s : string) :
  TrimSpace (s +:+ String "013" "") = TrimSpace s.
Proof.
  unfold TrimSpace. now rewrite <- !TrimLeft_TrimRight, TrimRight_CR.
Qed.

(** The text joined with the two-byte line ends is a text joined with
    line feeds, of lines that differ by a carriage return at the end. *)
Lemma Join_crlf (ls : list string) :
  exists ls',
    Join ls (String "013" (String "010" "")) = Join ls' (String "010" "")
    /\ Forall2 (fun l l' => l' = l \/ l' = l +:+ String "013" "") ls ls'.
Proof.
  induction ls as [|l [|m r] IH].
  - exists []. split; [reflexivity|constructor].
  - exists [l]. split; [reflexivity|]. constructor; [now left|constructor].
  - destruct IH as (ls' & E & F).
    exists ((l +:+ String "013" "") :: ls'). split.
    + rewrite (Join_cons l (m :: r)) by discriminate.
      rewrite (Join_cons _ ls') by (intros ->; inversion F).
      now rewrite E, !append_assoc.
    + constructor; [now right|exact F].
Qed.

Lemma parseLines_line_ends (ls ls' : list string) :
  Forall2 (fun l l' => l' = l \/ l' = l +:+ String "013" "") ls ls' ->
  forall st, parseLines st ls' = parseLines st ls.
Proof.
  induction 1 as [|l l' r r' H _ IH]; intros st; [reflexivity|].
  rewrite !parseLines_cons, IH. f_equal. apply parseLine_ext.
  destruct H as [->| ->]; [reflexivity|apply TrimSpace_CR].
Qed.

Lemma line_ends_fit (ls ls' : list string) :
  Forall2 (fun l l' => l' = l \/ l' = l +:+ String "013" "") ls ls' ->
  forallb oneLine ls = true ->
  forallb (fun l => fits (l +:+ String "013" "")) ls = true ->
  forallb oneLine ls' = true /\ forallb fits ls' = true
  /\ forallb fits ls = true.
Proof.
  induction 1 as [|l l' r r' H _ IH]; intros Ho Hf; [now repeat split|].
  cbn [forallb] in Ho, Hf.
  apply andb_true_iff in Ho as [Ho Ho'], Hf as [Hf Hf'].
  destruct (IH Ho' Hf') as (I1 & I2 & I3). cbn [forallb].
  rewrite I1, I2, I3, (fits_app _ _ Hf), !andb_true_r.
  destruct H as [->| ->]; [now rewrite Ho, (fits_app _ _ Hf)|].
  rewrite Hf. now rewrite oneLine_app.
Qed.

End LineEnds.

(** X10. A file whose lines end in a carriage return and a line feed is
    parsed to the same hosts as the file of the same lines that end in
    a line feed: the scanner drops the carriage return. *)
Theorem X10_crlf_line_ends (ls : list string) :
  forallb oneLine ls = true ->
  forallb (fun l => fits (l +:+ String "013" "")) ls = true ->
  parseConfig (Join ls (String "013" (String "010" "")))
  = (finish (parseLines start ls), None)
  /\ parseConfig (Join ls (String "013" (String "010" "")))
     = parseConfig (Join ls (String "010" "")).
Proof.
  intros Ho Hf. destruct (Join_crlf ls) as (ls' & E & F).
  destruct (line_ends_fit _ _ F Ho Hf) as (Ho' & Hf' & Hfl).
  rewrite E, !parseConfig_Join by trivial.
  now rewrite (parseLines_line_ends _ _ F).
Qed.

(** ** The block AddSSHHost appends, read back *)

Section AddedBlock.

Lemma addLines_oneLine (h : SSHHost) :
  singleLine h = true -> forallb oneLine (addLines h) = true.
Proof.
  intros Hs. rewrite addLines_updateBlock, forallb_app.
  rewrite (updateBlock_oneLine _ Hs). cbn [andb].
  destruct (nonEmpty (ProxyJump h)); [|reflexivity].
  cbn [forallb]. rewrite andb_true_r. apply oneLine_app; [reflexivity|].
  unfold singleLine in Hs. repeat (apply andb_true_iff in Hs as [Hs ?]).
  assumption.
Qed.

Lemma addLines_tail (h : SSHHost) : addLines h = "" :: tail (addLines h).
Proof. reflexivity. Qed.

Lemma addBlock_tail (h : SSHHost) :
  addBlock h = String "010" (unlines (tail (addLines h))).
Proof. reflexivity. Qed.

(** The parser reads the lines of a normal entry as that entry. *)
Lemma addLines_parse (host : SSHHost) :
  normalEntry host = true ->
  forall hs cur,
    parseLines (mkParser hs cur []) (addLines host)
    = mkParser (hs ++ option_list cur) (Some host) [].
Proof.
  intros Hn hs cur.
  destruct (normalEntry_elim _ Hn) as (N1&N2&N3&N4&N5&N6&N7&N8&N9).
  rewrite addLines_updateBlock, parseLines_app.
  change (updateBlock host) with (updateBlock (setProxyJump "" host)).
  rewrite updateBlock_parse; [|
    unfold normalEntry, setProxyJump;
    cbn [Name Hostname User Port Identity ProxyJump Tags];
    now rewrite N1, N2, N3, N4, N5, N6, N7, N9 | reflexivity].
  destruct (nonEmpty (ProxyJump host)) eqn:E.
  - apply nonEmpty_true in E.
    destruct (normalValue_nonEmpty _ N8 E) as [Hf Hj].
    cbn [parseLines fold_left]. rewrite parseLine_ProxyJump.
    destruct (Fields (ProxyJump host)) as [|f fs] eqn:F; [now elim Hf|].
    rewrite Hj. unfold act, assign, setProxyJump. cbn.
    now destruct host.
  - apply nonEmpty_false in E. cbn [parseLines fold_left].
    unfold setProxyJump. rewrite <- E. now destruct host.
Qed.

(** The file after a text was appended behind a line feed. *)
Lemma parseConfig_appended (content : string) (listed : list SSHHost)
    (ls : list string) :
  parseConfig content = (listed, None) ->
  forallb oneLine ls = true -> forallb fits ls = true ->
  parseConfig (content +:+ String "010" (unlines ls))
  = (finish (parseLines start (Split content "010" ++ ls)), None).
Proof.
  intros Hp Ho Hf. unfold parseConfig, Bufio.Scan.
  rewrite rawLines_app, (rawLines_unlines _ Ho).
  rewrite scanTokens_fits, parseLines_dropCR; [reflexivity|].
  rewrite forallb_app, Hf, andb_true_r.
  apply fits_Split. now apply parseConfig_accepted in Hp.
Qed.

Lemma find_last (f : SSHHost -> bool) (hs : list SSHHost) (h : SSHHost) :
  find f (hs ++ [h])
  = match find f hs with
    | Some x => Some x
    | None => if f h then Some h else None
    end.
Proof.
  induction hs as [|x xs IH]; cbn [app find]; [reflexivity|].
  now destruct (f x).
Qed.

Lemma find_absent (name : string) (hs : list SSHHost) :
  ~ In name (map Name hs) ->
  find (fun host => String.eqb (Name host) name) hs = None.
Proof.
  intros Hn. destruct (find _ hs) as [h|] eqn:F; [|reflexivity].
  apply find_some in F as [Hin E]. apply String.eqb_eq in E.
  elim Hn. rewrite <- E. now apply in_map.
Qed.

End AddedBlock.

(** ** The appended block, located *)

Section AddedSpan.

(** A line that starts with four spaces and a keyword is trimmed up to
    the white space after the keyword. *)
Ltac rendered_line :=
  unfold isBody, tagsHit, TrimSpace;
  cbn [String.append TrimLeft isSpace Ascii.is_space];
  now rewrite !TrimRight_nonspace by reflexivity.

Lemma isBody_HostName (v : string) : isBody ("    HostName " +:+ v) = true.
Proof. rendered_line. Qed.

Lemma isBody_User (v : string) : isBody ("    User " +:+ v) = true.
Proof. rendered_line. Qed.

Lemma isBody_Port (v : string) : isBody ("    Port " +:+ v) = true.
Proof. rendered_line. Qed.

Lemma isBody_IdentityFile (v : string) :
  isBody ("    IdentityFile " +:+ v) = true.
Proof. rendered_line. Qed.

Lemma isBody_ProxyJump (v : string) : isBody ("    ProxyJump " +:+ v) = true.
Proof. rendered_line. Qed.

Lemma bareHit_Host (name : string) :
  isToken name = true -> bareHit name ("Host " +:+ name) = true.
Proof.
  intros H. unfold bareHit.
  rewrite (TrimSpace_Host_token _ H), HasPrefix_app, Fields_Host.
  rewrite (token_Fields _ H). cbn. apply String.eqb_refl.
Qed.

Lemma tagsHit_Host (name x : string) :
  isToken name = true ->
  tagsHit name ("# Tags: " +:+ x) ("Host " +:+ name) = true.
Proof.
  intros H. unfold tagsHit. rewrite (TrimSpace_Host_token _ H).
  rewrite String.eqb_refl, andb_true_r. apply (tags_line_is_tags x).
Qed.

Lemma tagsHit_Host_first (name h next : string) :
  tagsHit name ("Host " +:+ h) next = false.
Proof. rendered_line. Qed.

Lemma tagsHit_next_tags (name raw x : string) :
  tagsHit name raw ("# Tags: " +:+ x) = false.
Proof.
  unfold tagsHit, TrimSpace at 2.
  cbn [String.append TrimLeft isSpace Ascii.is_space].
  rewrite TrimRight_nonspace by reflexivity. cbn. apply andb_false_r.
Qed.

(** The line after the last line matters to the locator only as the
    Host line of a tags line. *)
Lemma noHitBefore_next (name : string) (ls : list string) (n1 n2 : string) :
  (forall raw, tagsHit name raw n2 = false) ->
  noHitBefore name ls (Some n1) = true ->
  noHitBefore name ls (Some n2) = true.
Proof.
  intros Hn2. induction ls as [|raw tl IH]; [reflexivity|].
  cbn [noHitBefore]. intros H. apply andb_true_iff in H as [H1 H2].
  rewrite (IH H2), andb_true_r. destruct tl as [|n tl']; [|exact H1].
  unfold hitAt in H1 |- *. apply negb_true_iff, orb_false_iff in H1 as [_ H1].
  now rewrite Hn2, H1.
Qed.

(** The lines AddSSHHost wrote are a block the locator finds. *)
Lemma addLines_located (host : SSHHost) (pre : list string) :
  isToken (Name host) = true ->
  noHitBefore (Name host) pre (Some ("Host " +:+ Name host)) = true ->
  located (Name host) pre (tail (addLines host)) [""] = true.
Proof.
  intros Ht Hpre. unfold located, addLines.
  cbn [app tail]. rewrite andb_true_r.
  assert (Hb : forall tl,
             forallb isBody tl = true ->
             forallb isBody (("    HostName " +:+ Hostname host) :: tl) = true).
  { intros tl H. cbn [forallb]. now rewrite isBody_HostName. }
  assert (Hrest : forallb isBody
            ((if nonEmpty (User host)
              then ["    User " +:+ User host] else [])
             ++ (if nonEmpty (Port host) && negb (String.eqb (Port host) "22")
                 then ["    Port " +:+ Port host] else [])
             ++ (if nonEmpty (Identity host)
                 then ["    IdentityFile " +:+ Identity host] else [])
             ++ (if nonEmpty (ProxyJump host)
                 then ["    ProxyJump " +:+ ProxyJump host] else []))
          = true).
  { rewrite !forallb_app.
    repeat match goal with
           | |- context [if ?b then [_] else []] => destruct b
           end;
      cbn [forallb andb];
      now rewrite ?isBody_User, ?isBody_Port, ?isBody_IdentityFile,
        ?isBody_ProxyJump. }
  destruct (0 <? length (Tags host)); cbn [app head].
  - rewrite (noHitBefore_next _ _ _ _
               (fun raw => tagsHit_next_tags _ raw _) Hpre).
    rewrite (tagsHit_Host _ _ Ht). cbn [andb]. now apply Hb.
  - rewrite Hpre, tagsHit_Host_first, (bareHit_Host _ Ht). cbn [andb].
    now apply Hb.
Qed.

End AddedSpan.

(** ** The outcome of the rewriting loop *)

Section Outcome.

Variables (name : string) (block : list string) (eatBlank : bool).

(** The loop returns, and it has found a block exactly when one was
    found before or a block starts in the lines it reads. *)
Lemma spliceLoop_flag (fuel : nat) :
  forall rest newLines hostFound,
    length rest < fuel ->
    exists out,
      spliceLoop name block eatBlank fuel rest newLines hostFound
      = Ok (out, hostFound || negb (noHitBefore name rest None)).
Proof.
  induction fuel as [|fuel IH]; intros rest newLines hostFound Hlen; [lia|].
  destruct rest as [|raw tl]; cbn [spliceLoop noHitBefore].
  { exists newLines. now rewrite orb_false_r. }
  cbn [length] in Hlen. unfold hitAt.
  destruct tl as [|next tl'].
  - destruct (bareHit name raw) eqn:Hb; cbn [orb negb andb].
    + destruct (IH (afterBlock eatBlank []) (newLines ++ block) true)
        as [out E]; [destruct eatBlank; simpl; lia|].
      exists out. now rewrite E, orb_true_r.
    + destruct (IH [] (newLines ++ [raw]) hostFound) as [out E];
        [simpl; lia|].
      exists out. exact E.
  - destruct (tagsHit name raw next) eqn:Ht; cbn [orb negb andb].
    + destruct (IH (afterBlock eatBlank (tail (next :: tl')))
                  (newLines ++ block) true) as [out E].
      { pose proof (afterBlock_length eatBlank (tail (next :: tl'))).
        cbn [tail length] in *. lia. }
      exists out. now rewrite E, orb_true_r.
    + destruct (bareHit name raw) eqn:Hb; cbn [orb negb andb].
      * destruct (IH (afterBlock eatBlank (next :: tl'))
                    (newLines ++ block) true) as [out E].
        { pose proof (afterBlock_length eatBlank (next :: tl')).
          cbn [length] in *. lia. }
        exists out. now rewrite E, orb_true_r.
      * destruct (IH (next :: tl') (newLines ++ [raw]) hostFound)
          as [out E]; [lia|].
        exists out. exact E.
Qed.

Lemma sublist_dropBody (ls : list string) : sublist (dropBody ls) ls.
Proof.
  induction ls as [|l r IH]; [constructor|]. cbn [dropBody].
  destruct (isBody l); [now apply sublist_cons|reflexivity].
Qed.

Lemma sublist_dropBlank (ls : list string) : sublist (dropBlank ls) ls.
Proof.
  destruct ls as [|l r]; [constructor|]. cbn [dropBlank].
  destruct (String.eqb (TrimSpace l) ""); [now apply sublist_cons|reflexivity].
Qed.

Lemma sublist_afterBlock (ls : list string) :
  sublist (afterBlock eatBlank ls) ls.
Proof.
  unfold afterBlock. destruct eatBlank; [|apply sublist_dropBody].
  etransitivity; [apply sublist_dropBlank|apply sublist_dropBody].
Qed.

(** The lines the loop writes: the lines it keeps, in their order, and
    the block in the place of every block it found. *)
Lemma spliceLoop_lines (fuel : nat) :
  forall rest newLines hostFound out found,
    spliceLoop name block eatBlank fuel rest newLines hostFound
    = Ok (out, found) ->
    exists kept body,
      out = newLines ++ body
      /\ sublist kept rest
      /\ sublist kept body
      /\ Forall (fun l => In l kept \/ In l block) body
      /\ (block = [] -> body = kept)
      /\ (found = true -> hostFound = false -> length kept < length rest).
Proof.
  induction fuel as [|fuel IH]; intros rest newLines hostFound out found;
    [discriminate|].
  destruct rest as [|raw tl]; cbn [spliceLoop].
  { intros [= <- <-]. exists [], []. rewrite app_nil_r.
    repeat split; trivial; try constructor. congruence. }
  assert (Hhit : forall rest',
             sublist rest' tl ->
             spliceLoop name block eatBlank fuel rest' (newLines ++ block) true
             = Ok (out, found) ->
             exists kept body,
               out = newLines ++ body
               /\ sublist kept (raw :: tl)
               /\ sublist kept body
               /\ Forall (fun l => In l kept \/ In l block) body
               /\ (block = [] -> body = kept)
               /\ (found = true -> hostFound = false ->
                   length kept < length (raw :: tl))).
  { intros rest' Hsub E.
    destruct (IH _ _ _ _ _ E) as (kept & body & -> & S1 & S2 & F & B & _).
    exists kept, (block ++ body). rewrite <- app_assoc.
    repeat split; trivial.
    - apply sublist_cons. now transitivity rest'.
    - now apply sublist_inserts_l.
    - apply Forall_app. split; [|exact F].
      apply List.Forall_forall. intros l Hl. now right.
    - intros ->. now rewrite (B eq_refl).
    - intros _ _. apply sublist_length in S1, Hsub. cbn [length]. lia. }
  destruct (match tl with
            | next :: _ => tagsHit name raw next
            | [] => false
            end).
  { apply Hhit. etransitivity; [apply sublist_afterBlock|].
    destruct tl; [constructor|now apply sublist_cons]. }
  destruct (bareHit name raw).
  { apply Hhit, sublist_afterBlock. }
  intros E.
  destruct (IH _ _ _ _ _ E) as (kept & body & -> & S1 & S2 & F & B & L).
  exists (raw :: kept), (raw :: body). rewrite <- app_assoc.
  repeat split; trivial.
  - now apply sublist_skip.
  - now apply sublist_skip.
  - constructor; [left; now left|].
    eapply Forall_impl; [exact F|].
    intros l [Hl|Hl]; [left; now right|now right].
  - intros Hb. now rewrite (B Hb).
  - intros Hf Hh. specialize (L Hf Hh). cbn [length]. lia.
Qed.

End Outcome.

(** ** What the calls leave of the files *)

Section Guarded.

Variables (w : World) (homeDir content : string).
Hypothesis Hhome : home w = Some homeDir.
Hypothesis Hfile : files w !! Os.configPathOf homeDir = Some content.

Lemma backedUp_guarded (m : M unit) (e : error) :
  m w = (Err e, backedUp w (Os.configPathOf homeDir) content) ->
  guarded m w (Os.configPathOf homeDir) content.
Proof.
  intros E. unfold guarded. rewrite E. cbn [fst snd].
  split; [discriminate|]. unfold backedUp. cbn [files].
  split; [intros p _ Hp; now apply lookup_insert_ne|].
  split; [discriminate|]. intros _ _ _. split.
  - now apply (lookup_after_backup _ _ _ Hfile).
  - apply lookup_insert_eq.
Qed.

Lemma updated_guarded (m : M unit) (text : string) :
  m w = (Ok tt,
         mkWorld (home w)
           (<[Os.configPathOf homeDir := text]>
              (<[Os.configPathOf homeDir +:+ ".backup" := content]>
                 (files w)))) ->
  guarded m w (Os.configPathOf homeDir) content.
Proof.
  intros E. unfold guarded. rewrite E. cbn [fst snd home files].
  split; [discriminate|].
  split; [intros p Hc Hb; now rewrite !lookup_insert_ne|].
  split; [|discriminate]. intros _.
  rewrite lookup_insert_ne by (apply not_eq_sym, backup_path_fresh).
  apply lookup_insert_eq.
Qed.

Lemma conclude_guarded (m : M unit) (name : string)
    (out : list string) (found : bool) :
  m w = conclude w (Os.configPathOf homeDir) content name (Ok (out, found)) ->
  guarded m w (Os.configPathOf homeDir) content.
Proof.
  intros E. cbn [conclude] in E. destruct found.
  - now apply updated_guarded with (Join out (String "010" "")).
  - now apply backedUp_guarded with (ErrHostNotFound name).
Qed.

(** AddSSHHost refuses a name the file holds, after the backup. *)
Lemma AddSSHHost_refused (host : SSHHost) (listed : list SSHHost) :
  parseConfig content = (listed, None) ->
  In (Name host) (map Name listed) ->
  AddSSHHost host w
  = (Err (ErrHostExists (Name host)),
     backedUp w (Os.configPathOf homeDir) content).
Proof.
  intros Hp Hin.
  unfold AddSSHHost, backedUp, mbind, M_bind, Os.UserHomeDir, Os.Exists.
  rewrite Hhome, Hfile.
  rewrite bool_decide_eq_true_2 by (now exists content).
  simpl. unfold wrapErr. rewrite (backupConfig_ok _ content) by exact Hfile.
  unfold checked, HostExists, ParseSSHConfig, ParseSSHConfigFile. simpl.
  rewrite Hhome, (lookup_after_backup _ _ _ Hfile), Hp.
  now rewrite (proj2 (existsb_name (Name host) listed) Hin).
Qed.

Lemma AddSSHHost_guarded (host : SSHHost) :
  guarded (AddSSHHost host) w (Os.configPathOf homeDir) content.
Proof.
  destruct (parseConfig content) as [listed [e|]] eqn:Hp.
  - apply backedUp_guarded with e.
    now apply AddSSHHost_unread with listed.
  - destruct (existsb (fun h => String.eqb (Name h) (Name host)) listed)
      eqn:Ex.
    + apply backedUp_guarded with (ErrHostExists (Name host)).
      apply AddSSHHost_refused with listed; [exact Hp|].
      now apply existsb_name.
    + apply updated_guarded with (content +:+ addBlock host).
      apply AddSSHHost_run with listed; trivial.
      intros Hin. apply existsb_name in Hin. congruence.
Qed.

Lemma UpdateSSHHost_guarded (oldName : string) (newHost : SSHHost) :
  guarded (UpdateSSHHost oldName newHost) w (Os.configPathOf homeDir) content.
Proof.
  destruct (spliceLoop_returns oldName (updateBlock newHost) false
              (S (length (Split content "010"))) (Split content "010")
              [] false) as (out & found & E); [lia|].
  apply conclude_guarded with oldName out found.
  now rewrite (UpdateSSHHost_run w homeDir content Hhome Hfile), E.
Qed.

Lemma DeleteSSHHost_guarded (hostName : string) :
  guarded (DeleteSSHHost hostName) w (Os.configPathOf homeDir) content.
Proof.
  destruct (spliceLoop_returns hostName [] true
              (S (length (Split content "010"))) (Split content "010")
              [] false) as (out & found & E); [lia|].
  apply conclude_guarded with hostName out found.
  now rewrite (DeleteSSHHost_run w homeDir content Hhome Hfile), E.
Qed.

End Guarded.

(** X7. Without a home directory every operation of the store fails with
    the error of os.UserHomeDir; without a config file UpdateSSHHost and
    DeleteSSHHost fail with the wrapped error of the backup, and the
    parser, GetSSHHost and HostExists with the error of the open.  In
    both cases no file is created or written. *)
Theorem X7_no_config_file (w : World) :
  (home w = None ->
   (forall host, AddSSHHost host w = (Err ErrHomeUndefined, w))
   /\ (forall oldName newHost,
          UpdateSSHHost oldName newHost w = (Err ErrHomeUndefined, w))
   /\ (forall hostName, DeleteSSHHost hostName w = (Err ErrHomeUndefined, w))
   /\ ParseSSHConfig w = ([], Some ErrHomeUndefined)
   /\ (forall name,
          GetSSHHost name w = (None, Some ErrHomeUndefined)
          /\ HostExists name w = (false, Some ErrHomeUndefined)))
  /\ (forall homeDir,
         home w = Some homeDir ->
         files w !! Os.configPathOf homeDir = None ->
         (forall oldName newHost,
             UpdateSSHHost oldName newHost w
             = (Err (ErrWrap "failed to create backup"
                       (ErrNotExist "open" (Os.configPathOf homeDir))), w))
         /\ (forall hostName,
                DeleteSSHHost hostName w
                = (Err (ErrWrap "failed to create backup"
                          (ErrNotExist "open" (Os.configPathOf homeDir))), w))
         /\ ParseSSHConfig w
            = ([], Some (ErrNotExist "open" (Os.configPathOf homeDir)))
         /\ (forall name,
                GetSSHHost name w
                = (None, Some (ErrNotExist "open" (Os.configPathOf homeDir)))
                /\ HostExists name w
                   = (false,
                      Some (ErrNotExist "open" (Os.configPathOf homeDir))))
         /\ kindOf (ErrWrap "failed to create backup"
                      (ErrNotExist "open" (Os.configPathOf homeDir)))
            = IOError).
Proof.
  split.
  - intros Hh.
    assert (P : ParseSSHConfig w = ([], Some ErrHomeUndefined))
      by (unfold ParseSSHConfig; now rewrite Hh).
    repeat split; trivial; intros;
      unfold AddSSHHost, UpdateSSHHost, DeleteSSHHost, GetSSHHost, HostExists,
        mbind, M_bind, Os.UserHomeDir;
      now rewrite ?Hh, ?P.
  - intros homeDir Hh Hf.
    assert (P : ParseSSHConfig w
                = ([], Some (ErrNotExist "open" (Os.configPathOf homeDir))))
      by (unfold ParseSSHConfig, ParseSSHConfigFile; now rewrite Hh, Hf).
    repeat split; trivial; intros;
      unfold UpdateSSHHost, DeleteSSHHost, GetSSHHost, HostExists,
        mbind, M_bind, Os.UserHomeDir, wrapErr;
      rewrite ?Hh, ?P; trivial;
      now rewrite (backupConfig_missing _ _ Hf).
Qed.

(** X9. The rewrites invent no line.  The lines DeleteSSHHost writes
    are lines of the old file in their order, fewer than before.  The
    lines UpdateSSHHost writes are lines of the old file in their
    order, fewer than before, between which only lines of the block of
    the new entry stand. *)
Theorem X9_rewrites_invent_nothing (name : string) (newHost : SSHHost)
    (w : World) (homeDir content : string) :
  home w = Some homeDir ->
  files w !! Os.configPathOf homeDir = Some content ->
  (forall w',
      DeleteSSHHost name w = (Ok tt, w') ->
      exists kept,
        files w' !! Os.configPathOf homeDir
        = Some (Join kept (String "010" ""))
        /\ sublist kept (Split content "010")
        /\ length kept < length (Split content "010"))
  /\ (forall w',
         UpdateSSHHost name newHost w = (Ok tt, w') ->
         exists kept out,
           files w' !! Os.configPathOf homeDir
           = Some (Join out (String "010" ""))
           /\ sublist kept (Split content "010")
           /\ length kept < length (Split content "010")
           /\ sublist kept out
           /\ Forall (fun l => In l kept \/ In l (updateBlock newHost)) out).
Proof.
  intros Hh Hf. split.
  - intros w'. rewrite (DeleteSSHHost_run w homeDir content Hh Hf).
    destruct (spliceLoop name [] true _ _ [] false)
      as [[out found]| | |] eqn:E; cbn [conclude]; try discriminate.
    destruct found; [|discriminate]. intros [= <-].
    destruct (spliceLoop_lines _ _ _ _ _ _ _ _ _ E)
      as (kept & body & -> & S1 & _ & _ & B & L).
    rewrite (B eq_refl). exists kept. split; [apply written_config|].
    split; [exact S1|]. now apply L.
  - intros w'. rewrite (UpdateSSHHost_run w homeDir content Hh Hf).
    destruct (spliceLoop name (updateBlock newHost) false _ _ [] false)
      as [[out found]| | |] eqn:E; cbn [conclude]; try discriminate.
    destruct found; [|discriminate]. intros [= <-].
    destruct (spliceLoop_lines _ _ _ _ _ _ _ _ _ E)
      as (kept & body & -> & S1 & S2 & F & _ & L).
    exists kept, body. split; [apply written_config|].
    repeat split; trivial. now apply L.
Qed.

(** ** Names of several words *)

Section Words.

Lemma bareHit_token (name raw : string) :
  bareHit name raw = true -> isToken name = true.
Proof.
  intros H. apply bareHit_elim in H as [_ H].
  pose proof (Fields_tokens raw) as T.
  rewrite Forall_forall in T. apply T.
  now apply list_elem_of_lookup_2 in H.
Qed.

Lemma no_tags_no_hit (name : string) (ls : list string) :
  isToken name = false ->
  forallb (fun l => negb (isTagsLine l)) ls = true ->
  noHitBefore name ls None = true.
Proof.
  intros Hn. induction ls as [|raw tl IH]; intros H; [reflexivity|].
  cbn [forallb] in H. apply andb_true_iff in H as [Hr Ht].
  cbn [noHitBefore]. rewrite (IH Ht), andb_true_r.
  apply negb_true_iff in Hr. unfold hitAt.
  assert (Hb : bareHit name raw = false).
  { destruct (bareHit name raw) eqn:B; [|reflexivity].
    apply bareHit_token in B. congruence. }
  rewrite Hb, orb_false_r. destruct tl as [|n tl']; [reflexivity|].
  unfold tagsHit. fold (isTagsLine raw). now rewrite Hr.
Qed.

End Words.

(** ** The entry an update leaves *)

Section UpdatedEntry.

Lemma normalEntry_no_jump (h : SSHHost) :
  normalEntry h = true -> normalEntry (setProxyJump "" h) = true.
Proof.
  intros Hn. destruct (normalEntry_elim _ Hn) as (N1&N2&N3&N4&N5&N6&N7&N8&N9).
  unfold normalEntry, setProxyJump.
  cbn [Name Hostname User Port Identity ProxyJump Tags].
  now rewrite N1, N2, N3, N4, N5, N6, N7, N9.
Qed.

Lemma find_first (f : SSHHost -> bool) (before after : list SSHHost)
    (h : SSHHost) :
  find f before = None -> f h = true -> find f (before ++ h :: after) = Some h.
Proof.
  intros Hb Hh. induction before as [|x xs IH]; cbn [app find].
  - now rewrite Hh.
  - cbn [find] in Hb. destruct (f x); [discriminate|]. now apply IH.
Qed.

End UpdatedEntry.

(** ** A line is read by its fields *)

Section ReadByFields.

Lemma lowerByte_hash (c : ascii) : lowerByte c = "#"%char -> c = "#"%char.
Proof.
  destruct c as [[] [] [] [] [] [] [] []]; vm_compute; congruence.
Qed.

Lemma first_field (text key : string) (values : list string) :
  Fields text = key :: values ->
  exists c r t,
    TrimLeft text = String c r /\ isSpace c = false /\ key = String c t.
Proof.
  intros F. destruct (TrimLeft_head text) as [E|(c & r & E & Hc)].
  - rewrite <- Fields_TrimLeft, E in F. discriminate.
  - destruct (Fields_cons_nonspace c r Hc) as (t & ts & F').
    rewrite <- Fields_TrimLeft, E, F' in F. injection F as <- _.
    now exists c, r, t.
Qed.

Lemma HasPrefix_hash_first (c : ascii) (t : string) :
  HasPrefix (String c t) "#" = Ascii.eqb c "#".
Proof.
  unfold HasPrefix. cbn [String.prefix].
  destruct (ascii_dec "#" c) as [<-|N]; [now destruct t|].
  symmetry. apply Ascii.eqb_neq. congruence.
Qed.

Lemma parseLine_by_fields (st : parser) (text key : string)
    (values : list string) :
  Fields text = key :: values ->
  HasPrefix key "#" = false ->
  parseLine st text
  = match values with
    | [] => st
    | _ :: _ => act st (ToLower key) (Join values " ")
    end.
Proof.
  intros F Hh. destruct (first_field _ _ _ F) as (c & r & t & E & Hc & ->).
  rewrite HasPrefix_hash_first in Hh.
  destruct values as [|v vs].
  - apply parseLine_other.
    + now apply (first_not_tags text c r).
    + now apply (directive_short text c r E Hc Hh (String c t)).
  - apply parseLine_directive.
    now apply (directive_fields text c r).
Qed.

End ReadByFields.

(** ** The tags between two Host declarations *)

Section TagsBetween.

Lemma assign_shape (f : SSHHost -> SSHHost) (st : parser) :
  exists cur,
    assign f st = mkParser (hosts st) cur (pendingTags st).
Proof.
  unfold assign. destruct (currentHost st) as [h|] eqn:E.
  - now exists (Some (f h)).
  - exists None. rewrite <- E. symmetry. apply parser_eta.
Qed.

(** Lines that declare no host close no host and collect their tags. *)
Lemma tags_collect (seg : list string) :
  forallb (fun l => negb (declaresHost l)) seg = true ->
  forall st, exists cur,
    parseLines st seg
    = mkParser (hosts st) cur (pendingTags st ++ concat (map lineTags seg)).
Proof.
  induction seg as [|l r IH]; intros H st.
  - exists (currentHost st). cbn. rewrite app_nil_r. symmetry.
    apply parser_eta.
  - cbn [forallb] in H. apply andb_true_iff in H as [Hl Hr].
    apply negb_true_iff in Hl.
    destruct (parseLine_no_host _ Hl) as (f & _ & P).
    destruct (assign_shape f (mkParser (hosts st) (currentHost st)
                                       (pendingTags st ++ lineTags l)))
      as [cur E].
    cbn [hosts pendingTags] in E.
    destruct (IH Hr (mkParser (hosts st) cur (pendingTags st ++ lineTags l)))
      as [cur' E'].
    exists cur'. rewrite parseLines_cons, P, E, E'.
    cbn [hosts pendingTags map concat]. now rewrite <- app_assoc.
Qed.

End TagsBetween.

(** ** Names the file does not declare *)

Section AbsentName.

Lemma declared_In (ls : list string) (l v : string) :
  In l ls -> hostValue l = Some v -> In v (declared ls).
Proof.
  intros Hin Hv. induction ls as [|x xs IH]; [destruct Hin|].
  unfold declared. cbn [omap list_omap]. fold (declared xs).
  destruct Hin as [->|Hin].
  - rewrite Hv. now left.
  - destruct (hostValue x); [right|]; now apply IH.
Qed.

Lemma declared_Split (content : string) :
  declared (Split content "010") = declared (Bufio.rawLines content).
Proof.
  destruct (Split_rawLines content) as (tl & -> & [->| ->]).
  - now rewrite app_nil_r.
  - unfold declared. rewrite omap_app. cbn. now rewrite app_nil_r.
Qed.

(** A Host line the locator matches for a name of one word declares a
    host whose first pattern is that name. *)
Lemma bareHit_declares (name raw : string) :
  bareHit name raw = true ->
  exists v, hostValue raw = Some v /\ Fields v !! 0 = Some name.
Proof.
  intros H. apply bareHit_elim in H as [Hp Hf].
  destruct (Host_prefix_directive _ Hp) as (v & vs & F & D).
  rewrite F in Hf. cbn in Hf. injection Hf as ->.
  exists (Join (name :: vs) " "). split; [now apply hostValue_some|].
  rewrite Fields_Join; [reflexivity|].
  pose proof (Fields_tokens raw) as T. rewrite F in T.
  now apply Forall_inv_tail in T.
Qed.

Lemma hitAt_declares (name raw : string) (next : option string) :
  isToken name = true ->
  hitAt name raw next = true ->
  exists l v,
    (l = raw \/ next = Some l)
    /\ hostValue l = Some v /\ Fields v !! 0 = Some name.
Proof.
  intros Ht H. unfold hitAt in H. apply orb_true_iff in H as [H|H].
  - destruct next as [n|]; [|discriminate].
    apply tagsHit_elim in H as [_ E].
    assert (B : bareHit name n = true).
    { unfold bareHit. rewrite E, HasPrefix_app, Fields_Host.
      rewrite (token_Fields _ Ht). cbn. apply String.eqb_refl. }
    destruct (bareHit_declares _ _ B) as (v & Hv & Hf).
    exists n, v. repeat split; trivial. now right.
  - destruct (bareHit_declares _ _ H) as (v & Hv & Hf).
    exists raw, v. repeat split; trivial. now left.
Qed.

End AbsentName.

(** ** The further facts at sample inputs *)

Lemma X3_witness :
  GetSSHHost "b" (Samples.world Samples.fileABC) = (Some Samples.hostB, None)
  /\ normalEntry Samples.hostB = true.
Proof.
  split; [reflexivity|].
  exact (proj1 (proj2 (proj2 X3_parsed_entries_normal) "b"
                  (Samples.world Samples.fileABC) Samples.hostB eq_refl)).
Defined.

Lemma X7_witness :
  DeleteSSHHost "a" Samples.homeless = (Err ErrHomeUndefined, Samples.homeless)
  /\ UpdateSSHHost "a" Samples.hostA Samples.emptyWorld
     = (Err (ErrWrap "failed to create backup"
               (ErrNotExist "open" "/home/ann/.ssh/config")),
        Samples.emptyWorld).
Proof.
  split.
  - exact (proj1 (proj2 (proj2 (proj1 (X7_no_config_file Samples.homeless)
                                  eq_refl))) "a").
  - exact (proj1 (proj2 (X7_no_config_file Samples.emptyWorld) "/home/ann"
                    eq_refl eq_refl) "a" Samples.hostA).
Defined.

Lemma X9_witness :
  exists kept,
    files (snd (DeleteSSHHost "a" (Samples.world Samples.fileTwice)))
    !! "/home/ann/.ssh/config" = Some (Join kept (String "010" ""))
    /\ sublist kept (Split Samples.fileTwice "010")
    /\ length kept < length (Split Samples.fileTwice "010").
Proof.
  exact (proj1 (X9_rewrites_invent_nothing "a" Samples.hostA
                  (Samples.world Samples.fileTwice) "/home/ann"
                  Samples.fileTwice eq_refl eq_refl)
           (snd (DeleteSSHHost "a" (Samples.world Samples.fileTwice)))
           eq_refl).
Defined.

Lemma X10_witness :
  parseConfig (Join (Samples.linesA ++ Samples.linesB)
                    (String "013" (String "010" "")))
  = ([Samples.hostA; Samples.hostB], None).
Proof.
  exact (proj1 (X10_crlf_line_ends (Samples.linesA ++ Samples.linesB)
                  eq_refl eq_refl)).
Defined.

Lemma X12_witness :
  GetSSHHost "a" (Samples.world Samples.fileTwice)
  = (Some Samples.hostA, None)
  /\ HostExists "a" (Samples.world Samples.fileTwice) = (true, None).
Proof.
  split; [reflexivity|].
  exact (proj1 (proj2 (proj1 (X12_get_first_match "a"
                                (Samples.world Samples.fileTwice))
                         Samples.hostA eq_refl))).
Defined.

(* ================================================================== *)
(** * The store on ASCII text, up to failures of the file system       *)
(* ================================================================== *)

(** ** What a call returned *)

Section Returned.

Lemma returned_unlessFault (m : M unit) (w w0 : World) (r : result unit) :
  m w = (r, w0) -> unlessFault (fst (m w)) r.
Proof. intros E. left. now rewrite E. Qed.

Lemma returned_world (m : M unit) (w w0 w' : World) (r r' : result unit) :
  m w = (r, w0) -> m w = (r', w') -> r' = r /\ w' = w0.
Proof. intros E E'. rewrite E in E'. now injection E' as <- <-. Qed.

(** What AddSSHHost does on a config file that exists. *)
Lemma AddSSHHost_outcome (host : SSHHost) (w : World)
    (homeDir content : string) :
  home w = Some homeDir ->
  files w !! Os.configPathOf homeDir = Some content ->
  AddSSHHost host w
  = match parseConfig content with
    | (_, Some e) => (Err e, backedUp w (Os.configPathOf homeDir) content)
    | (listed, None) =>
        if existsb (fun h => String.eqb (Name h) (Name host)) listed
        then (Err (ErrHostExists (Name host)),
              backedUp w (Os.configPathOf homeDir) content)
        else (Ok tt,
              mkWorld (home w)
                (<[Os.configPathOf homeDir := content +:+ addBlock host]>
                   (files (backedUp w (Os.configPathOf homeDir) content))))
    end.
Proof.
  intros Hh Hf. destruct (parseConfig content) as [listed [e|]] eqn:Hp.
  - now apply AddSSHHost_unread with listed.
  - destruct (existsb _ listed) eqn:Ex.
    + apply AddSSHHost_refused with listed; trivial. now apply existsb_name.
    + apply AddSSHHost_run with listed; trivial.
      intros Hin. apply existsb_name in Hin. congruence.
Qed.

(** When AddSSHHost succeeds it has appended its block. *)
Lemma AddSSHHost_appended (host : SSHHost) (w w' : World)
    (homeDir content : string) :
  home w = Some homeDir ->
  files w !! Os.configPathOf homeDir = Some content ->
  AddSSHHost host w = (Ok tt, w') ->
  w' = mkWorld (home w)
         (<[Os.configPathOf homeDir := content +:+ addBlock host]>
            (files (backedUp w (Os.configPathOf homeDir) content)))
  /\ files w' !! Os.configPathOf homeDir = Some (content +:+ addBlock host)
  /\ exists listed,
      parseConfig content = (listed, None)
      /\ ~ In (Name host) (map Name listed).
Proof.
  intros Hh Hf E. rewrite (AddSSHHost_outcome host w homeDir content Hh Hf) in E.
  destruct (parseConfig content) as [listed [e|]]; [discriminate|].
  destruct (existsb _ listed) eqn:Ex; [discriminate|].
  injection E as <-. split; [reflexivity|].
  split; [apply lookup_insert_eq|]. exists listed. split; [reflexivity|].
  intros Hin. apply existsb_name in Hin. congruence.
Qed.

(** The file a rewrite wrote, parsed. *)
Lemma ParseSSHConfig_written (w : World) (homeDir content : string)
    (newLines : list string) :
  home w = Some homeDir ->
  ParseSSHConfig (written w (Os.configPathOf homeDir) content newLines)
  = parseConfig (Join newLines (String "010" "")).
Proof.
  intros Hh. unfold ParseSSHConfig, ParseSSHConfigFile.
  change (home (written w (Os.configPathOf homeDir) content newLines))
    with (home w).
  now rewrite Hh, written_config.
Qed.

Lemma written_backup (w : World) (configPath content : string)
    (newLines : list string) :
  files (written w configPath content newLines) !! (configPath +:+ ".backup")
  = Some content.
Proof.
  unfold written, backedUp. cbn [files].
  rewrite lookup_insert_ne by (apply not_eq_sym, backup_path_fresh).
  apply lookup_insert_eq.
Qed.

Lemma sublist_In (kept ls : list string) (l : string) :
  sublist kept ls -> In l kept -> In l ls.
Proof.
  intros S. induction S as [|x k m S IH|x k m S IH]; intros Hl.
  - exact Hl.
  - destruct Hl as [<-|Hl]; [now left|right; now apply IH].
  - right. now apply IH.
Qed.

End Returned.

(** ** The default port *)


(** ** Tags *)


(** ** A name the file holds *)


(** ** The rewrites around a located block *)

Section Located.

Variables (name : string) (w : World) (homeDir content : string).
Variables (pre span post : list string).
Hypothesis Hhome : home w = Some homeDir.
Hypothesis Hfile : files w !! Os.configPathOf homeDir = Some content.
Hypothesis Hsplit : Split content "010" = pre ++ span ++ post.
Hypothesis Hloc : located name pre span post = true.

(** The lines a rewrite puts around its block are the lines it writes. *)
Lemma frame_lines (eat : bool) (block : list string) :
  forallb oneLine block = true ->
  pre ++ block ++ restAfter eat post <> [] ->
  Split (Join (pre ++ block ++ restAfter eat post) (String "010" "")) "010"
  = pre ++ block ++ restAfter eat post.
Proof.
  intros Ho Hne. apply Split_Join; [exact Hne|].
  destruct (frame_oneLine content pre span post Hsplit) as [O1 O2].
  now rewrite !forallb_app, O1, Ho, (forallb_restAfter _ _ _ O2).
Qed.

Lemma reparsed (eat : bool) (block : list string) (listed : list SSHHost) :
  parseConfig content = (listed, None) ->
  forallb oneLine block = true -> forallb fits block = true ->
  parseConfig (Join (pre ++ block ++ restAfter eat post) (String "010" ""))
  = (finish (parseLines start (pre ++ block ++ restAfter eat post)), None).
Proof.
  intros Hp Ho Hf.
  rewrite <- (ParseSSHConfig_written w homeDir content _ Hhome).
  now apply reparse with span listed.
Qed.

End Located.



(** ** The jump host *)


(** ** The locator *)


(** ** A name the locator does not find *)

Section NotFound.

Variables (name : string) (w : World) (homeDir content : string).
Hypothesis Hhome : home w = Some homeDir.
Hypothesis Hfile : files w !! Os.configPathOf homeDir = Some content.

(** What a rewrite returns when its loop has found no block. *)
Lemma conclude_not_found (m : M unit) (out : list string) :
  m w = conclude w (Os.configPathOf homeDir) content name (Ok (out, false)) ->
  unlessFault (fst (m w)) (Err (ErrHostNotFound name))
  /\ fst (m w) <> Ok tt
  /\ forall w',
      m w = (Err (ErrHostNotFound name), w') ->
      files w' !! Os.configPathOf homeDir = Some content
      /\ w' = backedUp w (Os.configPathOf homeDir) content.
Proof.
  cbn [conclude]. intros R.
  split; [exact (returned_unlessFault _ _ _ _ R)|].
  split; [now rewrite R|]. intros w' E.
  destruct (returned_world _ _ _ _ _ _ R E) as [_ ->].
  split; [now apply backedUp_config|reflexivity].
Qed.

End NotFound.


(** ** Adding, reading back, deleting *)

Section Added.

Variables (host : SSHHost) (content : string) (listed : list SSHHost).
Hypothesis Hparse : parseConfig content = (listed, None).
Hypothesis Hpend : pendingTags (parseLines start (Split content "010")) = [].
Hypothesis Hnormal : normalEntry host = true.
Hypothesis Hfits : forallb fits (addLines host) = true.

(** The file with the block of a normal entry at its end, parsed. *)
Lemma appended_parse :
  parseConfig (content +:+ addBlock host) = (listed ++ [host], None).
Proof.
  rewrite addBlock_tail.
  pose proof (addLines_oneLine _ (normalEntry_singleLine _ Hnormal)) as Ho.
  pose proof Hfits as Hfit. pose proof Hparse as Hp.
  rewrite addLines_tail in Ho, Hfit. cbn [forallb] in Ho, Hfit.
  apply andb_true_iff in Ho as [_ Ho], Hfit as [_ Hfit].
  rewrite (parseConfig_appended _ _ _ Hp Ho Hfit). f_equal.
  rewrite parseLines_app.
  rewrite <- (parseLine_empty (parseLines start (Split content "010"))).
  rewrite <- parseLines_cons, <- addLines_tail.
  rewrite parseConfig_Split in Hp by (now apply parseConfig_accepted in Hp).
  injection Hp as <-.
  destruct (parseLines start (Split content "010")) as [hs cur pending].
  cbn [pendingTags] in Hpend. subst pending.
  now rewrite (addLines_parse _ Hnormal).
Qed.

End Added.

(** What the readers return in a world whose config file holds [text]. *)
Lemma ParseSSHConfig_text (w : World) (homeDir text : string) :
  home w = Some homeDir ->
  files w !! Os.configPathOf homeDir = Some text ->
  ParseSSHConfig w = parseConfig text.
Proof.
  intros Hh Hf. unfold ParseSSHConfig, ParseSSHConfigFile. now rewrite Hh, Hf.
Qed.



(** ** One entry for every Host declaration *)


(** ** The limit of the scanner *)


(** ** The backup and the other files *)

(** X6. On a config file of ASCII text AddSSHHost, UpdateSSHHost and
    DeleteSSHHost do not panic and change no file other than the config
    file and its backup.  When one of them succeeds the backup holds
    the content the config file had before the call; when it fails
    with an error of the store itself (the name exists, the name is not
    found, a line is too long) the backup holds that content and so
    does the config file. *)
Theorem X6_backup_and_frame (w : World) (homeDir content : string) :
  home w = Some homeDir ->
  files w !! Os.configPathOf homeDir = Some content ->
  isASCII content = true ->
  (forall host,
      guarded (AddSSHHost host) w (Os.configPathOf homeDir) content)
  /\ (forall oldName newHost,
         guarded (UpdateSSHHost oldName newHost) w
                 (Os.configPathOf homeDir) content)
  /\ (forall hostName,
         guarded (DeleteSSHHost hostName) w
                 (Os.configPathOf homeDir) content).
Proof.
  intros Hh Hf _. split; [|split].
  - intros host. now apply AddSSHHost_guarded.
  - intros oldName newHost. now apply UpdateSSHHost_guarded.
  - intros hostName. now apply DeleteSSHHost_guarded.
Qed.

(** ** Blocks the locator finds *)


(** ** Lines without effect *)

(** X11. In ASCII text the parser passes over blank lines, comments that
    add no tag, lines of one word and directives whose keyword it does
    not know: taking these lines out of the lines of a file, or putting
    them in, changes neither the state of the scanning loop nor the
    hosts the file is parsed to. *)
Theorem X11_inert_lines (ls : list string) :
  forallb isASCII ls = true ->
  (forall text, isASCII text = true ->
                blankOrComment text = true -> inert text = true)
  /\ (forall text word, isASCII text = true ->
                        Fields text = [word] -> inert text = true)
  /\ (forall st text, isASCII text = true ->
                      inert text = true -> parseLine st text = st)
  /\ (forall st,
         parseLines st (List.filter (fun l => negb (inert l)) ls)
         = parseLines st ls)
  /\ (forallb oneLine ls = true -> forallb fits ls = true ->
      parseConfig (Join (List.filter (fun l => negb (inert l)) ls)
                        (String "010" ""))
      = parseConfig (Join ls (String "010" ""))).
Proof.
  intros _.
  split; [intros text _; apply blankOrComment_inert|].
  split; [intros text word _; apply one_word_inert|].
  split; [intros st text _; apply parseLine_skips|].
  split; [exact (parseLines_skips ls)|]. intros Ho Hf.
  rewrite !parseConfig_Join; trivial; try now apply forallb_filter.
  now rewrite parseLines_skips.
Qed.

(** ** Names of more than one word *)


(** ** Updating and reading back *)


(** ** A line is read by its fields *)

(** X15. The parser reads a line of ASCII text that is not a comment by
    its fields: the keyword counts without regard to the case of its
    letters, the values count in their order, and the white space
    before, between and after the fields does not count. *)
Theorem X15_line_read_by_fields (st : parser) (text text' key key' : string)
    (values : list string) :
  isASCII text = true ->
  isASCII text' = true ->
  Fields text = key :: values ->
  Fields text' = key' :: values ->
  ToLower key = ToLower key' ->
  HasPrefix key "#" = false ->
  parseLine st text = parseLine st text'
  /\ parseLine st text
     = match values with
       | [] => st
       | _ :: _ => act st (ToLower key) (Join values " ")
       end.
Proof.
  intros _ _ F F' Hk Hh.
  assert (Hh' : HasPrefix key' "#" = false).
  { destruct (first_field _ _ _ F) as (c & r & t & _ & _ & ->).
    destruct (first_field _ _ _ F') as (c' & r' & t' & _ & _ & ->).
    rewrite HasPrefix_hash_first in Hh |- *.
    destruct (Ascii.eqb c' "#") eqn:E; [|reflexivity].
    apply Ascii.eqb_eq in E. subst c'. cbn [ToLower] in Hk.
    injection Hk as Hc _. apply lowerByte_hash in Hc. subst c.
    discriminate Hh. }
  rewrite (parseLine_by_fields st text key values F Hh).
  rewrite (parseLine_by_fields st text' key' values F' Hh').
  split; [now rewrite Hk|reflexivity].
Qed.

(** ** The tags of an entry *)

(** X16. In a file of ASCII text that the scanner reads to the end the
    tags of an entry are the tags of all the lines between the Host
    declaration before it and its own, in their order: the tags lines
    add up, and no other line between them takes the tags away.  After
    a Host declaration no tags are pending. *)
Theorem X16_tags_since_last_Host (content : string)
    (pre seg post : list string) (hline x : string) :
  isASCII content = true ->
  Split content "010" = pre ++ seg ++ [hline] ++ post ->
  snd (parseConfig content) = None ->
  pendingTags (parseLines start pre) = [] ->
  forallb (fun l => negb (declaresHost l)) seg = true ->
  directive hline = Some ("host", x) ->
  (exists e rest,
      parseConfig content
      = (finish (parseLines start (pre ++ seg)) ++ e :: rest, None)
      /\ Name e = x
      /\ Tags e = concat (map lineTags seg))
  /\ pendingTags (parseLines start (pre ++ seg ++ [hline])) = [].
Proof.
  intros _ Hs Hacc Hpend Hseg Hhost.
  destruct (tags_collect seg Hseg (parseLines start pre)) as [cur E].
  rewrite Hpend in E. cbn [app] in E.
  assert (Hrun : parseLines start (pre ++ seg ++ [hline])
                 = mkParser (finish (parseLines start (pre ++ seg)))
                     (Some (mkHost x "" "" "22" "" ""
                              (concat (map lineTags seg)))) []).
  { rewrite app_assoc, (parseLines_app _ (pre ++ seg)).
    cbn [parseLines fold_left]. rewrite (parseLine_host _ hline x Hhost).
    now rewrite parseLines_app, E. }
  split; [|now rewrite Hrun].
  destruct (open_host_run post []) as (f & rest & Hf & Hpost).
  exists (f (mkHost x "" "" "22" "" "" (concat (map lineTags seg)))), rest.
  destruct (Hf (mkHost x "" "" "22" "" "" (concat (map lineTags seg))))
    as [Hn Htags].
  split; [|split; [exact Hn|exact Htags]].
  assert (Hfit : forallb fits (Bufio.rawLines content) = true).
  { apply scanTokens_error. unfold parseConfig, Bufio.Scan in Hacc.
    now destruct (Bufio.scanTokens _). }
  rewrite (parseConfig_Split _ Hfit), Hs. f_equal.
  replace (pre ++ seg ++ [hline] ++ post)
    with ((pre ++ seg ++ [hline]) ++ post)
    by (now rewrite <- !app_assoc).
  rewrite parseLines_app, Hrun.
  pose proof (finish_hosts_front (finish (parseLines start (pre ++ seg)))
                (mkParser [] (Some (mkHost x "" "" "22" "" ""
                                      (concat (map lineTags seg)))) []) post)
    as F.
  cbn [hosts currentHost pendingTags] in F. rewrite app_nil_r in F.
  now rewrite F, Hpost.
Qed.

(** ** Files put in a row *)

(** X17. Two files of ASCII text that the scanner reads, put one after
    the other with a line feed between them, are parsed to the hosts of
    the first followed by the hosts of the second, when no tags are
    pending at the end of the first and no line of the second sets a
    field before its first Host declaration. *)
Theorem X17_files_in_a_row (c1 c2 : string) (h1 h2 : list SSHHost) :
  isASCII c1 = true ->
  isASCII c2 = true ->
  parseConfig c1 = (h1, None) ->
  parseConfig c2 = (h2, None) ->
  pendingTags (parseLines start (Split c1 "010")) = [] ->
  quiet (Bufio.rawLines c2) = true ->
  parseConfig (c1 +:+ String "010" c2) = (h1 ++ h2, None).
Proof.
  intros _ _ H1 H2 Hpend Hq.
  pose proof (parseConfig_accepted _ _ H1) as F1.
  pose proof (parseConfig_accepted _ _ H2) as F2.
  rewrite (parseConfig_Split _ F1) in H1. injection H1 as <-.
  unfold parseConfig, Bufio.Scan in H2 |- *.
  rewrite (scanTokens_fits _ F2), parseLines_dropCR in H2.
  injection H2 as <-. rewrite rawLines_app.
  rewrite scanTokens_fits
    by (now rewrite forallb_app, (fits_Split _ F1), F2).
  rewrite parseLines_dropCR, parseLines_app. f_equal.
  destruct (parseLines start (Split c1 "010")) as [hs cur pending].
  cbn [pendingTags] in Hpend. subst pending.
  rewrite (quiet_finish _ Hq). unfold finish at 2.
  cbn [hosts currentHost]. now rewrite app_assoc.
Qed.

(** ** A name the file does not declare *)


(** ** The facts on ASCII text at sample inputs *)

(** A call that returned [r] returned it with the world it left. *)
Lemma ran {A : Type} (m : M A) (w : World) (r : result A) :
  fst (m w) = r -> m w = (r, snd (m w)).
Proof. intros <-. now destruct (m w). Qed.









(** ** Further inputs on which claims of the specification fail *)







Lemma X6_witness :
  guarded (DeleteSSHHost "b") (Samples.world Samples.fileABC)
          "/home/ann/.ssh/config" Samples.fileABC.
Proof.
  exact (proj2 (proj2 (X6_backup_and_frame (Samples.world Samples.fileABC)
                         "/home/ann" Samples.fileABC
                         eq_refl eq_refl eq_refl)) "b").
Defined.


Lemma X11_witness :
  parseConfig (Samples.file ["Host a"; "    HostName 1.2.3.4"])
  = parseConfig (Samples.file Samples.linesNoise).
Proof.
  exact (proj2 (proj2 (proj2 (proj2
           (X11_inert_lines Samples.linesNoise eq_refl))))
           eq_refl eq_refl).
Defined.



Lemma X15_witness :
  parseLine (mkParser [] (Some Samples.hostC) []) "  HOSTNAME   10.0.0.1  "
  = parseLine (mkParser [] (Some Samples.hostC) [])
              ("hostname" +:+ Samples.tab +:+ "10.0.0.1").
Proof.
  exact (proj1 (X15_line_read_by_fields
                  (mkParser [] (Some Samples.hostC) [])
                  "  HOSTNAME   10.0.0.1  "
                  ("hostname" +:+ Samples.tab +:+ "10.0.0.1")
                  "HOSTNAME" "hostname" ["10.0.0.1"]
                  eq_refl eq_refl eq_refl eq_refl eq_refl eq_refl)).
Defined.

Lemma X16_witness :
  exists e rest,
    parseConfig Samples.fileTwoTagsLines = (e :: rest, None)
    /\ Name e = "x" /\ Tags e = ["z"; "a"; "b"].
Proof.
  destruct (proj1 (X16_tags_since_last_Host Samples.fileTwoTagsLines
                     [] ["# Tags: z"; "# Tags: a, b"] ["    HostName h"; ""]
                     "Host x" "x"
                     eq_refl eq_refl eq_refl eq_refl eq_refl eq_refl))
    as (e & rest & H1 & H2 & H3).
  exists e, rest. split; [exact H1|]. split; [exact H2|exact H3].
Defined.

Lemma X17_witness :
  parseConfig (Samples.file Samples.linesA +:+ String "010"
                 (Samples.file Samples.linesB))
  = ([Samples.hostA; Samples.hostB], None).
Proof.
  exact (X17_files_in_a_row (Samples.file Samples.linesA)
           (Samples.file Samples.linesB) [Samples.hostA] [Samples.hostB]
           eq_refl eq_refl eq_refl eq_refl eq_refl eq_refl).
Defined.

